(** * hardhat-core: provider wrappers and RPC output builders

    A shallow embedding of

    - [internal/core/providers/accounts.ts]
      ([LocalAccountsProvider], [SenderProvider], [AutomaticSenderProvider],
      [FixedSenderProvider]),
    - [internal/hardhat-network/provider/transactions/FakeSenderTransaction.ts]
      ([FakeSenderTransaction]) and
    - the RPC output builders ([getRpcBlock], [getRpcTransaction],
      [getRpcReceipts], [getRpcLogOutput]),

    together with the properties the specification states about them.

    JavaScript objects that are shared between a caller and a wrapper live in
    an explicit heap, so that aliasing and in-place updates are visible.
    Thrown exceptions and rejected promises are the [Err] case of [Result]. *)

From Stdlib Require Import ZArith List String Ascii HexString Lia.
From stdpp Require Import gmap strings list fin_maps.
Import ListNotations.

Open Scope Z_scope.
Open Scope string_scope.

(* ===================================================================== *)
(** ** Errors and results *)
(* ===================================================================== *)

(** The entries of [ERRORS.NETWORK] (and the invariant assertion) that the
    embedded code throws through [HardhatError]. *)
Inductive ErrorDescriptor : Type :=
  | INVALID_REQUEST_PARAMS
  | ETHSIGN_MISSING_DATA_PARAM
  | MISSING_TX_PARAM_TO_SIGN_LOCALLY (param : string)
  | NOT_LOCAL_ACCOUNT (account : string)
  | NO_REMOTE_ACCOUNT_AVAILABLE
  | ASSERTION_ERROR (message : string).

Inductive Exn : Type :=
  | HardhatError (e : ErrorDescriptor)
  | InternalError (message : string)
  | TypeError (message : string)
  | InvalidArgumentsError (message : string)
  | LibraryError (message : string)
  | ProviderError (message : string).

Inductive Result (A : Type) : Type :=
  | Ok (a : A)
  | Err (e : Exn).
Arguments Ok {A} a.
Arguments Err {A} e.

Definition rbind {A B} (r : Result A) (k : A -> Result B) : Result B :=
  match r with
  | Ok a => k a
  | Err e => Err e
  end.

Declare Scope result_scope.
Delimit Scope result_scope with result.
Notation "'let?' x ':=' c 'in' k" := (rbind c (fun x => k))
  (at level 10, x pattern, c at level 100, k at level 200) : result_scope.

Definition is_ok {A} (r : Result A) : bool :=
  match r with Ok _ => true | Err _ => false end.

Fixpoint rmap_list {A B} (f : A -> Result B) (l : list A) : Result (list B) :=
  match l with
  | [] => Ok []
  | x :: xs =>
      (let? y := f x in
       let? ys := rmap_list f xs in
       Ok (y :: ys))%result
  end.

(** [Array.prototype.map((x, index) => ...)] with a callback that may throw. *)
Fixpoint rmapi_from {A B} (i : nat) (f : nat -> A -> Result B) (l : list A)
  : Result (list B) :=
  match l with
  | [] => Ok []
  | x :: xs =>
      (let? y := f i x in
       let? ys := rmapi_from (S i) f xs in
       Ok (y :: ys))%result
  end.

Definition rmapi {A B} (f : nat -> A -> Result B) (l : list A) := rmapi_from 0 f l.

(** [assertHardhatInvariant(cond, message)] *)
Definition assertHardhatInvariant (cond : bool) (message : string) : Result unit :=
  if cond then Ok tt else Err (HardhatError (ASSERTION_ERROR message)).

(* ===================================================================== *)
(** ** Buffers, big numbers and the QUANTITY / DATA codec *)
(* ===================================================================== *)

(** A [Buffer] is a sequence of bytes; a byte is kept as its value in
    [0, 256). *)
Abbreviation Buffer := (list N).

(** A [BN] is an arbitrary-precision integer. *)
Abbreviation BN := Z.

(** [new BN(buffer)]: the big-endian value of the bytes. *)
Definition BN_of_Buffer (b : Buffer) : BN :=
  fold_left (fun acc x => acc * 256 + Z.of_N (x mod 256)%N) b 0.

Definition hex_digit (n : N) : ascii :=
  match n with
  | 0%N => "0" | 1%N => "1" | 2%N => "2" | 3%N => "3"
  | 4%N => "4" | 5%N => "5" | 6%N => "6" | 7%N => "7"
  | 8%N => "8" | 9%N => "9" | 10%N => "a" | 11%N => "b"
  | 12%N => "c" | 13%N => "d" | 14%N => "e" | _ => "f"
  end%char.

Definition hex_of_byte (x : N) : string :=
  String (hex_digit ((x mod 256) / 16)%N)
    (String (hex_digit ((x mod 256) mod 16)%N) EmptyString).

Definition hex_of_bytes (b : Buffer) : string :=
  fold_right (fun x acc => hex_of_byte x ++ acc) "" b.

(** [setLengthLeft]: left-pad with zero bytes up to [n] bytes. *)
Definition padToLength (b : Buffer) (n : nat) : Buffer :=
  repeat 0%N (n - length b)%nat ++ b.

(** Modelled from the spec: [numberToRpcQuantity] of
    [core/jsonrpc/types/base-types.ts] is not among the sources. Section 4.1:
    [numberToQuantity(integer) -> hex], a minimal-width hex string with a
    leading [0x] and no leading zero digits ([0x0] for zero), failing with
    an encoding error on negative input. *)
Definition numberToRpcQuantity (n : BN) : Result string :=
  if (n <? 0)%Z
  then Err (InvalidArgumentsError "numberToRpcQuantity: negative quantity")
  else Ok (HexString.of_Z n).

(** Modelled from the spec: [bufferToRpcData] of
    [core/jsonrpc/types/base-types.ts] is not among the sources. Section 4.1:
    [bytesToData(bytes, minLength?) -> hex], two hex digits per byte after a
    [0x] prefix; with a [minLength] the bytes are first left-padded with zero
    bytes. *)
Definition bufferToRpcData (b : Buffer) (pad : option nat) : string :=
  "0x" ++ hex_of_bytes (match pad with
                        | Some n => padToLength b n
                        | None => b
                        end).


(* ===================================================================== *)
(** ** Transactions ([@ethereumjs/tx]) and [FakeSenderTransaction] *)
(* ===================================================================== *)

(** A value accepted where the library expects a number ([BNLike]): a
    JavaScript number or a [BN], both kept as the integer they stand for, or
    a [Buffer]. *)
Inductive BNLike : Type :=
  | BNLike_number (n : Z)
  | BNLike_Buffer (b : Buffer).

(** A property of an object literal: the key is absent, or it is present and
    holds a value, and that value may be [undefined] ([Present None]). The
    difference is what object spread observes. *)
Inductive Field (A : Type) : Type :=
  | Absent
  | Present (x : option A).
Arguments Absent {A}.
Arguments Present {A} x.

(** Reading a property: [undefined] both for an absent key and for a key
    that holds [undefined]. *)
Definition read {A} (f : Field A) : option A :=
  match f with
  | Absent => None
  | Present x => x
  end.

(** One key of [{ ...defaults, ...data }]: an own key of [data] wins, also
    when its value is [undefined]. *)
Definition spread {A} (dflt over : Field A) : Field A :=
  match over with
  | Absent => dflt
  | Present x => Present x
  end.

Module TxData.
Record t : Type := mk {
  nonce : Field BNLike;
  gasPrice : Field BNLike;
  gasLimit : Field BNLike;
  to : Field Buffer;
  value : Field BNLike;
  data : Field Buffer;
  v : Field BNLike;
  r : Field BNLike;
  s : Field BNLike }.

(** [{}] *)
Definition empty : t := mk Absent Absent Absent Absent Absent Absent Absent Absent Absent.
End TxData.

(** The public fields of a constructed transaction. *)
Module Transaction.
Record t : Type := mk {
  nonce : BN;
  gasPrice : BN;
  gasLimit : BN;
  to : option Buffer;
  value : BN;
  data : Buffer;
  v : option BN;
  r : option BN;
  s : option BN }.
End Transaction.

(** [MAX_INTEGER] of [ethereumjs-util]. *)
Definition MAX_INTEGER : BN := 2 ^ 256 - 1.

(** [new BN(toBuffer(x))] for a field of the data object. [toBuffer] makes
    the empty buffer of [undefined], which reads as zero, and throws on a
    negative number. *)
Definition BN_of_BNLike (x : option BNLike) : Result BN :=
  match x with
  | None => Ok 0
  | Some (BNLike_number n) =>
      if (n <? 0)%Z
      then Err (LibraryError "Cannot convert negative number to buffer")
      else Ok n
  | Some (BNLike_Buffer b) => Ok (BN_of_Buffer b)
  end.

(** [toBuffer(x).length > 0]: a number has at least one byte (zero is the
    byte [00]), [undefined] has none. *)
Definition has_bytes (x : option BNLike) : bool :=
  match x with
  | None => false
  | Some (BNLike_number _) => true
  | Some (BNLike_Buffer b) => (0 <? length b)%nat
  end.

(** [const vB = toBuffer(v)] and later [vB.length > 0 ? new BN(vB) : undefined],
    the same for [r] and [s]. *)
Definition signature_field (x : option BNLike) : Result (option BN) :=
  (let? n := BN_of_BNLike x in
   Ok (if has_bytes x then Some n else None))%result.

(** [new Address(buf)] of [ethereumjs-util]: an address has 20 bytes. *)
Definition Address_constructor (buf : Buffer) : Result Buffer :=
  if (length buf =? 20)%nat then Ok buf
  else Err (LibraryError "Invalid address length").

(** [_validateCannotExceedMaxInteger(values)]: the first value above
    [MAX_INTEGER] is reported under its key. *)
Fixpoint _validateCannotExceedMaxInteger (values : list (string * option BN))
  : Result unit :=
  match values with
  | [] => Ok tt
  | (key, value) :: rest =>
      match value with
      | Some n =>
          if (MAX_INTEGER <? n)%Z
          then Err (LibraryError (key ++ " cannot exceed MAX_INTEGER"))
          else _validateCannotExceedMaxInteger rest
      | None => _validateCannotExceedMaxInteger rest
      end
  end.

(** The constructor of the base class [Transaction]. It belongs to
    [@ethereumjs/tx], not to this repository; this is what the library does
    with the data object. Each field goes through [toBuffer]; the numbers
    become [BN]s, a missing number is zero and missing data is the empty
    buffer; a [to] that is not empty must be an address of 20 bytes; [v],
    [r], [s] stay [undefined] when their buffer is empty; [nonce],
    [gasPrice], [gasLimit], [value], [r] and [s] may not exceed
    [MAX_INTEGER]; the constructor ends with [this._validateTxV(this.v)],
    a method that a subclass may replace. *)
Definition Transaction_constructor (_validateTxV : option BN -> Result unit)
    (d : TxData.t) : Result Transaction.t :=
  (let toB := default [] (read (TxData.to d)) in
   let? v := signature_field (read (TxData.v d)) in
   let? r := signature_field (read (TxData.r d)) in
   let? s := signature_field (read (TxData.s d)) in
   let? nonce := BN_of_BNLike (read (TxData.nonce d)) in
   let? gasPrice := BN_of_BNLike (read (TxData.gasPrice d)) in
   let? gasLimit := BN_of_BNLike (read (TxData.gasLimit d)) in
   let? to := if (0 <? length toB)%nat
              then let? a := Address_constructor toB in Ok (Some a)
              else Ok None in
   let? value := BN_of_BNLike (read (TxData.value d)) in
   let data := default [] (read (TxData.data d)) in
   let? _ := _validateCannotExceedMaxInteger
               [("nonce", Some nonce); ("gasPrice", Some gasPrice);
                ("gasLimit", Some gasLimit); ("value", Some value);
                ("r", r); ("s", s)] in
   let? _ := _validateTxV v in
   Ok {| Transaction.nonce := nonce;
         Transaction.gasPrice := gasPrice;
         Transaction.gasLimit := gasLimit;
         Transaction.to := to;
         Transaction.value := value;
         Transaction.data := data;
         Transaction.v := v;
         Transaction.r := r;
         Transaction.s := s |})%result.

Module FakeSenderTransaction.

(** An instance: the inherited fields and the private [_sender]. *)
Record t : Type := mk {
  super : Transaction.t;
  _sender : Buffer }.

(** [constructor(sender, data = {}, opts?)]:
    [super({ v: 27, r: 1, s: 2, ...data }, { ...opts, freeze: false })]. *)
Definition super_data (data : TxData.t) : TxData.t :=
  {| TxData.nonce := TxData.nonce data;
     TxData.gasPrice := TxData.gasPrice data;
     TxData.gasLimit := TxData.gasLimit data;
     TxData.to := TxData.to data;
     TxData.value := TxData.value data;
     TxData.data := TxData.data data;
     TxData.v := spread (Present (Some (BNLike_number 27))) (TxData.v data);
     TxData.r := spread (Present (Some (BNLike_number 1))) (TxData.r data);
     TxData.s := spread (Present (Some (BNLike_number 2))) (TxData.s data) |}.

(** [FakeSenderTransactionPrototype._validateTxV = function () {}]: the
    check of [v] that the base constructor ends with does nothing here. *)
Definition prototype_validateTxV (v : option BN) : Result unit := Ok tt.

Definition constructor (sender : Buffer) (data : option TxData.t) : Result t :=
  (let data := default TxData.empty data in
   let? super := Transaction_constructor prototype_validateTxV (super_data data) in
   Ok {| super := super; _sender := sender |})%result.

(** [values[i]] of the destructuring
    [const [nonce, gasPrice, gasLimit, to, value, data, v, r, s] = values]:
    [undefined] past the end of the array. *)
Definition element (values : list Buffer) (i : nat) : option Buffer :=
  values !! i.

(** [fromSenderAndValuesArray(sender, values, opts?)]. The object literal
    it passes on has all nine keys, whatever the length of [values]. *)
Definition fromSenderAndValuesArray (sender : Buffer) (values : list Buffer)
  : Result t :=
  if negb (Nat.eqb (length values) 6) && negb (Nat.eqb (length values) 9)
  then Err (InternalError "FakeSenderTransaction initialized with invalid values")
  else
    let to := element values 3 in
    constructor sender (Some
      {| TxData.nonce := Present (BNLike_Buffer <$> element values 0);
         TxData.gasPrice := Present (BNLike_Buffer <$> element values 1);
         TxData.gasLimit := Present (BNLike_Buffer <$> element values 2);
         TxData.to := Present (match to with
                              | Some b => if (0 <? length b)%nat then Some b else None
                              | None => None
                              end);
         TxData.value := Present (BNLike_Buffer <$> element values 4);
         TxData.data := Present (element values 5);
         TxData.v := Present (BNLike_Buffer <$> element values 6);
         TxData.r := Present (BNLike_Buffer <$> element values 7);
         TxData.s := Present (BNLike_Buffer <$> element values 8) |}).

(** The static factories that the class disables. *)
Inductive Factory : Type :=
  | fromTxData
  | fromSerializedTx
  | fromRlpSerializedTx
  | fromValuesArray.

Definition call_static (f : Factory) : Result t :=
  match f with
  | fromTxData =>
      Err (InternalError "`fromTxData` is not implemented in FakeSenderTransaction")
  | fromSerializedTx =>
      Err (InternalError "`fromSerializedTx` is not implemented in FakeSenderTransaction")
  | fromRlpSerializedTx =>
      Err (InternalError "`fromRlpSerializedTx` is not implemented in FakeSenderTransaction")
  | fromValuesArray =>
      Err (InternalError "`fromRlpSerializedTx` is not implemented in FakeSenderTransaction")
  end.

(** The instance methods the class overrides, the public ones in the class
    body and the private ones through the prototype. *)
Inductive Method : Type :=
  | verifySignature
  | getSenderAddress
  | sign
  | getSenderPublicKey
  | getMessageToVerifySignature
  | getMessageToSign
  | _validateTxV
  | _signedTxImplementsEIP155
  | _unsignedTxImplementsEIP155
  | _getMessageToSign
  | _processSignature.

(** What a call returns. *)
Inductive Returned : Type :=
  | RetBoolean (b : bool)
  | RetAddress (a : Buffer)
  | RetVoid.

Definition call (tx : t) (m : Method) : Result Returned :=
  match m with
  | verifySignature => Ok (RetBoolean true)
  | getSenderAddress => Ok (RetAddress (_sender tx))
  | sign =>
      Err (InternalError "`sign` is not implemented in FakeSenderTransaction")
  | getSenderPublicKey =>
      Err (InternalError "`getSenderPublicKey` is not implemented in FakeSenderTransaction")
  | getMessageToVerifySignature =>
      Err (InternalError
             "`getMessageToVerifySignature` is not implemented in FakeSenderTransaction")
  | getMessageToSign =>
      Err (InternalError "`getMessageToSign` is not implemented in FakeSenderTransaction")
  | _validateTxV => Ok RetVoid
  | _signedTxImplementsEIP155 =>
      Err (InternalError
             "`_signedTxImplementsEIP155` is not implemented in FakeSenderTransaction")
  | _unsignedTxImplementsEIP155 =>
      Err (InternalError
             "`_unsignedTxImplementsEIP155` is not implemented in FakeSenderTransaction")
  | _getMessageToSign =>
      Err (InternalError "`_getMessageToSign` is not implemented in FakeSenderTransaction")
  | _processSignature =>
      Err (InternalError "`_processSignature` is not implemented in FakeSenderTransaction")
  end.

End FakeSenderTransaction.

(* ===================================================================== *)
(** ** Blocks, receipts and logs of the execution engine *)
(* ===================================================================== *)

(** [TypedTransaction]: the transactions a block holds are instances of the
    library's [Transaction] or of a subclass; [FakeSenderTransaction] is the
    subclass this repository defines. *)
Inductive TypedTransaction : Type :=
  | SignedTransaction (tx : Transaction.t)
  | FakeSender (tx : FakeSenderTransaction.t).

Definition fields (tx : TypedTransaction) : Transaction.t :=
  match tx with
  | SignedTransaction t => t
  | FakeSender f => FakeSenderTransaction.super f
  end.

Module BlockHeader.
Record t : Type := mk {
  parentHash : Buffer;
  uncleHash : Buffer;
  coinbase : Buffer;
  stateRoot : Buffer;
  transactionsTrie : Buffer;
  receiptTrie : Buffer;
  bloom : Buffer;
  difficulty : BN;
  number : BN;
  gasLimit : BN;
  gasUsed : BN;
  timestamp : BN;
  extraData : Buffer;
  mixHash : Buffer;
  nonce : Buffer }.
End BlockHeader.

Module Block.
Record t : Type := mk {
  header : BlockHeader.t;
  transactions : list TypedTransaction;
  uncleHeaders : list BlockHeader.t }.
End Block.

(** A log of the VM is the array [[address, topics, data]]. *)
Module Log.
Record t : Type := mk {
  address : Buffer;
  topics : list Buffer;
  data : Buffer }.
End Log.

(** [TxReceipt] of the VM: the common part, and [stateRoot] before Byzantium
    or [status] from Byzantium on. *)
Module TxReceipt.
Inductive kind : Type :=
  | PreByzantium (stateRoot : Buffer)
  | PostByzantium (status : Z).

Record t : Type := mk {
  gasUsed : Buffer;
  bitvector : Buffer;
  logs : list Log.t;
  variant : kind }.

(** [(receipt as PostByzantiumTxReceipt)?.status] *)
Definition status (r : t) : option Z :=
  match variant r with
  | PreByzantium _ => None
  | PostByzantium st => Some st
  end.
End TxReceipt.

Module RunTxResult.
Record t : Type := mk {
  createdAddress : option Buffer;
  gasUsed : BN }.
End RunTxResult.

Module RunBlockResult.
Record t : Type := mk {
  results : list RunTxResult.t;
  receipts : list TxReceipt.t }.
End RunBlockResult.

(** The methods of the library classes that the builders call. Hashing,
    serialisation and sender recovery are the library's business. *)
Class EthereumJs : Type := {
  Transaction_hash : Transaction.t -> Buffer;
  Transaction_getSenderAddress : Transaction.t -> Result Buffer;
  Block_hash : Block.t -> Buffer;
  Block_serialize : Block.t -> Buffer;
  BlockHeader_hash : BlockHeader.t -> Buffer }.

(* ===================================================================== *)
(** ** RPC output types *)
(* ===================================================================== *)

(** [string | null] is [option string], with [None] for [null]. *)

Module RpcTransactionOutput.
Record t : Type := mk {
  blockHash : option string;
  blockNumber : option string;
  from : string;
  gas : string;
  gasPrice : string;
  hash : string;
  input : string;
  nonce : string;
  r : string;
  s : string;
  to : option string;
  transactionIndex : option string;
  v : string;
  value : string }.
End RpcTransactionOutput.

Module RpcBlockOutput.
Record t : Type := mk {
  difficulty : string;
  extraData : string;
  gasLimit : string;
  gasUsed : string;
  hash : option string;
  logsBloom : option string;
  miner : string;
  mixHash : option string;
  nonce : option string;
  number : option string;
  parentHash : string;
  receiptsRoot : string;
  sha3Uncles : string;
  size : string;
  stateRoot : string;
  timestamp : string;
  totalDifficulty : string;
  transactions : list string + list RpcTransactionOutput.t;
  transactionsRoot : string;
  uncles : list string }.
End RpcBlockOutput.

Module RpcLogOutput.
Record t : Type := mk {
  address : string;
  blockHash : option string;
  blockNumber : option string;
  data : string;
  logIndex : option string;
  removed : bool;
  topics : list string;
  transactionHash : option string;
  transactionIndex : option string }.
End RpcLogOutput.

Module RpcReceiptOutput.
Record t : Type := mk {
  blockHash : string;
  blockNumber : string;
  contractAddress : option string;
  cumulativeGasUsed : string;
  from : string;
  gasUsed : string;
  logs : list RpcLogOutput.t;
  logsBloom : string;
  status : string;
  to : option string;
  transactionHash : string;
  transactionIndex : string }.
End RpcReceiptOutput.

(* ===================================================================== *)
(** ** The RPC output builders *)
(* ===================================================================== *)

Section Builders.
Context `{EthereumJs}.

(** [tx.hash()]: not overridden by [FakeSenderTransaction]. *)
Definition tx_hash (tx : TypedTransaction) : Buffer :=
  Transaction_hash (fields tx).

(** [tx.getSenderAddress()], dispatched on the class of [tx]. *)
Definition tx_getSenderAddress (tx : TypedTransaction) : Result Buffer :=
  match tx with
  | SignedTransaction t => Transaction_getSenderAddress t
  | FakeSender f => Ok (FakeSenderTransaction._sender f)
  end.

(** [numberToRpcQuantity(x)] where [x] may be [undefined] at run time. *)
Definition numberToRpcQuantity_opt (x : option Z) : Result string :=
  match x with
  | Some n => numberToRpcQuantity n
  | None => Err (InvalidArgumentsError "numberToRpcQuantity: not a number")
  end.

(** [getRpcTransaction(tx, block, index?)], where [block] is a block or the
    string ["pending"] ([None] here). *)
Definition getRpcTransaction (tx : TypedTransaction) (block : option Block.t)
    (index : option nat) : Result RpcTransactionOutput.t :=
  (let t := fields tx in
   let? _ := assertHardhatInvariant (bool_decide (is_Some (Transaction.v t)))
               "tx should be signed" in
   let? _ := assertHardhatInvariant (bool_decide (is_Some (Transaction.r t)))
               "tx should be signed" in
   let? _ := assertHardhatInvariant (bool_decide (is_Some (Transaction.s t)))
               "tx should be signed" in
   let blockHash := match block with
                    | None => None
                    | Some b => Some (bufferToRpcData (Block_hash b) None)
                    end in
   let? blockNumber := match block with
                       | None => Ok None
                       | Some b =>
                           let? q := numberToRpcQuantity
                                       (BlockHeader.number (Block.header b)) in
                           Ok (Some q)
                       end in
   let? sender := tx_getSenderAddress tx in
   let? gas := numberToRpcQuantity (Transaction.gasLimit t) in
   let? gasPrice := numberToRpcQuantity (Transaction.gasPrice t) in
   let? nonce := numberToRpcQuantity (Transaction.nonce t) in
   let? transactionIndex := match index with
                            | Some i =>
                                let? q := numberToRpcQuantity (Z.of_nat i) in
                                Ok (Some q)
                            | None => Ok None
                            end in
   let? value := numberToRpcQuantity (Transaction.value t) in
   let? v := numberToRpcQuantity_opt (Transaction.v t) in
   let? r := numberToRpcQuantity_opt (Transaction.r t) in
   let? s := numberToRpcQuantity_opt (Transaction.s t) in
   Ok {| RpcTransactionOutput.blockHash := blockHash;
         RpcTransactionOutput.blockNumber := blockNumber;
         RpcTransactionOutput.from := bufferToRpcData sender None;
         RpcTransactionOutput.gas := gas;
         RpcTransactionOutput.gasPrice := gasPrice;
         RpcTransactionOutput.hash := bufferToRpcData (tx_hash tx) None;
         RpcTransactionOutput.input := bufferToRpcData (Transaction.data t) None;
         RpcTransactionOutput.nonce := nonce;
         RpcTransactionOutput.to :=
           (fun a => bufferToRpcData a None) <$> Transaction.to t;
         RpcTransactionOutput.transactionIndex := transactionIndex;
         RpcTransactionOutput.value := value;
         RpcTransactionOutput.v := v;
         RpcTransactionOutput.r := r;
         RpcTransactionOutput.s := s |})%result.

(** The first statement of [getRpcBlock]:
    [const transactions = includeTransactions ? ... : ...]. *)
Definition getRpcBlock_transactions (block : Block.t) (includeTransactions : bool)
  : Result (list string + list RpcTransactionOutput.t) :=
  (if includeTransactions
   then let? txs := rmapi (fun index tx => getRpcTransaction tx (Some block) (Some index))
                      (Block.transactions block) in
        Ok (inr txs)
   else Ok (inl (map (fun tx => bufferToRpcData (tx_hash tx) None)
                   (Block.transactions block))))%result.

(** [getRpcBlock(block, totalDifficulty, includeTransactions = true,
    pending = false)] *)
Definition getRpcBlock (block : Block.t) (totalDifficulty : BN)
    (includeTransactions pending : bool) : Result RpcBlockOutput.t :=
  (let h := Block.header block in
   let? transactions := getRpcBlock_transactions block includeTransactions in
   let? number := if pending then Ok None
                  else let? q := numberToRpcQuantity (BlockHeader.number h) in
                       Ok (Some q) in
   let? difficulty := numberToRpcQuantity (BlockHeader.difficulty h) in
   let? totalDifficulty := numberToRpcQuantity totalDifficulty in
   let? size := numberToRpcQuantity (Z.of_nat (length (Block_serialize block))) in
   let? gasLimit := numberToRpcQuantity (BlockHeader.gasLimit h) in
   let? gasUsed := numberToRpcQuantity (BlockHeader.gasUsed h) in
   let? timestamp := numberToRpcQuantity (BlockHeader.timestamp h) in
   Ok {| RpcBlockOutput.number := number;
         RpcBlockOutput.hash :=
           if pending then None else Some (bufferToRpcData (Block_hash block) None);
         RpcBlockOutput.parentHash := bufferToRpcData (BlockHeader.parentHash h) None;
         RpcBlockOutput.nonce :=
           if pending then None
           else Some (bufferToRpcData (BlockHeader.nonce h) (Some 8%nat));
         RpcBlockOutput.mixHash :=
           if pending then None
           else Some (bufferToRpcData (BlockHeader.mixHash h) (Some 32%nat));
         RpcBlockOutput.sha3Uncles := bufferToRpcData (BlockHeader.uncleHash h) None;
         RpcBlockOutput.logsBloom :=
           if pending then None else Some (bufferToRpcData (BlockHeader.bloom h) None);
         RpcBlockOutput.transactionsRoot :=
           bufferToRpcData (BlockHeader.transactionsTrie h) None;
         RpcBlockOutput.stateRoot := bufferToRpcData (BlockHeader.stateRoot h) None;
         RpcBlockOutput.receiptsRoot := bufferToRpcData (BlockHeader.receiptTrie h) None;
         RpcBlockOutput.miner := bufferToRpcData (BlockHeader.coinbase h) None;
         RpcBlockOutput.difficulty := difficulty;
         RpcBlockOutput.totalDifficulty := totalDifficulty;
         RpcBlockOutput.extraData := bufferToRpcData (BlockHeader.extraData h) None;
         RpcBlockOutput.size := size;
         RpcBlockOutput.gasLimit := gasLimit;
         RpcBlockOutput.gasUsed := gasUsed;
         RpcBlockOutput.timestamp := timestamp;
         RpcBlockOutput.transactions := transactions;
         RpcBlockOutput.uncles :=
           map (fun uh => bufferToRpcData (BlockHeader_hash uh) None)
             (Block.uncleHeaders block) |})%result.

(** [getRpcLogOutput(log, tx, block?, transactionIndex?, logIndex?)] *)
Definition getRpcLogOutput (log : Log.t) (tx : TypedTransaction)
    (block : option Block.t) (transactionIndex logIndex : option nat)
  : Result RpcLogOutput.t :=
  (let? logIndex := match logIndex with
                    | Some i => let? q := numberToRpcQuantity (Z.of_nat i) in Ok (Some q)
                    | None => Ok None
                    end in
   let? transactionIndex :=
     match transactionIndex with
     | Some i => let? q := numberToRpcQuantity (Z.of_nat i) in Ok (Some q)
     | None => Ok None
     end in
   let? blockNumber :=
     match block with
     | Some b => let? q := numberToRpcQuantity (BlockHeader.number (Block.header b)) in
                 Ok (Some q)
     | None => Ok None
     end in
   Ok {| RpcLogOutput.removed := false;
         RpcLogOutput.logIndex := logIndex;
         RpcLogOutput.transactionIndex := transactionIndex;
         RpcLogOutput.transactionHash :=
           match block with
           | Some _ => Some (bufferToRpcData (tx_hash tx) None)
           | None => None
           end;
         RpcLogOutput.blockHash :=
           match block with
           | Some b => Some (bufferToRpcData (Block_hash b) None)
           | None => None
           end;
         RpcLogOutput.blockNumber := blockNumber;
         RpcLogOutput.address := bufferToRpcData (Log.address log) None;
         RpcLogOutput.data := bufferToRpcData (Log.data log) None;
         RpcLogOutput.topics :=
           map (fun topic => bufferToRpcData topic None) (Log.topics log) |})%result.

(** Reading a member of [x] where [x] came from indexing an array and is
    [undefined] out of range. *)
Definition defined {A} (x : option A) (what : string) : Result A :=
  match x with
  | Some a => Ok a
  | None => Err (TypeError ("Cannot read properties of undefined: " ++ what))
  end.

(** One iteration of the loop of [getRpcReceipts], at index [i], with the
    running [cumulativeGasUsed] on entry. It returns the receipt it pushes
    and the running sum on exit. *)
Definition getRpcReceipts_body (block : Block.t) (runBlockResult : RunBlockResult.t)
    (i : nat) (cumulativeGasUsed : BN) : Result (RpcReceiptOutput.t * BN) :=
  (let tx := Block.transactions block !! i in
   let? result := defined (RunBlockResult.results runBlockResult !! i) "results[i]" in
   let receipt := RunBlockResult.receipts runBlockResult !! i in
   let? rc := defined receipt "receipt.gasUsed" in
   let cumulativeGasUsed := cumulativeGasUsed + BN_of_Buffer (TxReceipt.gasUsed rc) in
   let? logs := rmapi (fun logIndex log =>
                         let? tx := defined tx "tx.hash" in
                         getRpcLogOutput log tx (Some block) (Some i) (Some logIndex))
                  (TxReceipt.logs rc) in
   let? tx := defined tx "tx.hash" in
   let? transactionIndex := numberToRpcQuantity (Z.of_nat i) in
   let? blockNumber := numberToRpcQuantity (BlockHeader.number (Block.header block)) in
   let? sender := tx_getSenderAddress tx in
   let? cumulative := numberToRpcQuantity cumulativeGasUsed in
   let? gasUsed := numberToRpcQuantity (RunTxResult.gasUsed result) in
   let? status := numberToRpcQuantity_opt (TxReceipt.status rc) in
   Ok ({| RpcReceiptOutput.transactionHash := bufferToRpcData (tx_hash tx) None;
          RpcReceiptOutput.transactionIndex := transactionIndex;
          RpcReceiptOutput.blockHash := bufferToRpcData (Block_hash block) None;
          RpcReceiptOutput.blockNumber := blockNumber;
          RpcReceiptOutput.from := bufferToRpcData sender None;
          RpcReceiptOutput.to :=
            (fun a => bufferToRpcData a None) <$> Transaction.to (fields tx);
          RpcReceiptOutput.cumulativeGasUsed := cumulative;
          RpcReceiptOutput.gasUsed := gasUsed;
          RpcReceiptOutput.contractAddress :=
            (fun a => bufferToRpcData a None) <$> RunTxResult.createdAddress result;
          RpcReceiptOutput.logs := logs;
          RpcReceiptOutput.logsBloom := bufferToRpcData (TxReceipt.bitvector rc) None;
          RpcReceiptOutput.status := status |},
       cumulativeGasUsed))%result.

(** The loop [for (let i = 0; i < runBlockResult.results.length; i += 1)],
    with [n] iterations left, the index [i], the running sum and the receipts
    pushed so far. *)
Fixpoint getRpcReceipts_loop (block : Block.t) (runBlockResult : RunBlockResult.t)
    (n i : nat) (cumulativeGasUsed : BN) (receipts : list RpcReceiptOutput.t)
  : Result (list RpcReceiptOutput.t) :=
  match n with
  | O => Ok receipts
  | S n' =>
      (let? pushed := getRpcReceipts_body block runBlockResult i cumulativeGasUsed in
       getRpcReceipts_loop block runBlockResult n' (S i) (snd pushed)
         (receipts ++ [fst pushed]))%result
  end.

(** [getRpcReceipts(block, runBlockResult)] *)
Definition getRpcReceipts (block : Block.t) (runBlockResult : RunBlockResult.t)
  : Result (list RpcReceiptOutput.t) :=
  getRpcReceipts_loop block runBlockResult
    (length (RunBlockResult.results runBlockResult)) 0 0 [].

End Builders.

(* ===================================================================== *)
(** ** Persisted records and the builders that read them *)
(* ===================================================================== *)

(** [RpcLog], a decoded log record. Its declaration
    ([core/jsonrpc/types/output/log.ts]) is not among the sources; these are
    the fields that [toRpcLogOutput] reads, nullable where it tests for
    [null]. *)
Module RpcLog.
Record t : Type := mk {
  address : Buffer;
  blockHash : option Buffer;
  blockNumber : option BN;
  data : Buffer;
  transactionIndex : option BN;
  transactionHash : option Buffer;
  topics : list Buffer }.
End RpcLog.

(** [RpcTransactionReceipt], the decoded form of [rpcTransactionReceipt]. *)
Module RpcTransactionReceipt.
Record t : Type := mk {
  transactionHash : Buffer;
  transactionIndex : BN;
  blockHash : Buffer;
  blockNumber : BN;
  from : Buffer;
  to : option Buffer;
  cumulativeGasUsed : BN;
  gasUsed : BN;
  contractAddress : option Buffer;
  logs : list RpcLog.t;
  logsBloom : Buffer;
  status : BN }.
End RpcTransactionReceipt.

(** [RpcTransaction], a decoded transaction record. Its declaration
    ([core/jsonrpc/types/output/transaction.ts]) is not among the sources;
    these are the fields that [rpcToTxData] reads. *)
Module RpcTransaction.
Record t : Type := mk {
  gas : BN;
  gasPrice : BN;
  to : option Buffer;
  nonce : BN;
  input : Buffer;
  v : BN;
  r : BN;
  s : BN;
  value : BN }.
End RpcTransaction.

(** [x !== null ? numberToRpcQuantity(x) : null] *)
Definition nullable_quantity (x : option BN) : Result (option string) :=
  match x with
  | Some n => (let? q := numberToRpcQuantity n in Ok (Some q))%result
  | None => Ok None
  end.

(** [toRpcLogOutput(log, index?)] *)
Definition toRpcLogOutput (log : RpcLog.t) (index : option nat)
  : Result RpcLogOutput.t :=
  (let? blockNumber := nullable_quantity (RpcLog.blockNumber log) in
   let? logIndex := nullable_quantity (Z.of_nat <$> index) in
   let? transactionIndex := nullable_quantity (RpcLog.transactionIndex log) in
   Ok {| RpcLogOutput.removed := false;
         RpcLogOutput.address := bufferToRpcData (RpcLog.address log) None;
         RpcLogOutput.blockHash :=
           (fun b => bufferToRpcData b None) <$> RpcLog.blockHash log;
         RpcLogOutput.blockNumber := blockNumber;
         RpcLogOutput.data := bufferToRpcData (RpcLog.data log) None;
         RpcLogOutput.logIndex := logIndex;
         RpcLogOutput.transactionIndex := transactionIndex;
         RpcLogOutput.transactionHash :=
           (fun b => bufferToRpcData b None) <$> RpcLog.transactionHash log;
         RpcLogOutput.topics :=
           map (fun topic => bufferToRpcData topic None) (RpcLog.topics log) |})%result.

(** [toRpcReceiptOutput(receipt)]. [receipt.logs.map(toRpcLogOutput)] hands
    the position of each log to [toRpcLogOutput] as its [index]. *)
Definition toRpcReceiptOutput (receipt : RpcTransactionReceipt.t)
  : Result RpcReceiptOutput.t :=
  (let? blockNumber := numberToRpcQuantity (RpcTransactionReceipt.blockNumber receipt) in
   let? cumulativeGasUsed :=
     numberToRpcQuantity (RpcTransactionReceipt.cumulativeGasUsed receipt) in
   let? gasUsed := numberToRpcQuantity (RpcTransactionReceipt.gasUsed receipt) in
   let? logs := rmapi (fun index log => toRpcLogOutput log (Some index))
                  (RpcTransactionReceipt.logs receipt) in
   let? status := numberToRpcQuantity (RpcTransactionReceipt.status receipt) in
   let? transactionIndex :=
     numberToRpcQuantity (RpcTransactionReceipt.transactionIndex receipt) in
   Ok {| RpcReceiptOutput.blockHash :=
           bufferToRpcData (RpcTransactionReceipt.blockHash receipt) None;
         RpcReceiptOutput.blockNumber := blockNumber;
         RpcReceiptOutput.contractAddress :=
           (fun a => bufferToRpcData a None)
             <$> RpcTransactionReceipt.contractAddress receipt;
         RpcReceiptOutput.cumulativeGasUsed := cumulativeGasUsed;
         RpcReceiptOutput.from := bufferToRpcData (RpcTransactionReceipt.from receipt) None;
         RpcReceiptOutput.gasUsed := gasUsed;
         RpcReceiptOutput.logs := logs;
         RpcReceiptOutput.logsBloom :=
           bufferToRpcData (RpcTransactionReceipt.logsBloom receipt) None;
         RpcReceiptOutput.status := status;
         RpcReceiptOutput.to :=
           (fun a => bufferToRpcData a None) <$> RpcTransactionReceipt.to receipt;
         RpcReceiptOutput.transactionHash :=
           bufferToRpcData (RpcTransactionReceipt.transactionHash receipt) None;
         RpcReceiptOutput.transactionIndex := transactionIndex |})%result.

(** [rpcToTxData(rpcTransaction)]. The object it returns has all nine keys;
    [to] holds [undefined] for a [null] address. A [BN] goes into the data
    object as the integer it stands for. *)
Definition rpcToTxData (rpcTransaction : RpcTransaction.t) : TxData.t :=
  {| TxData.gasLimit := Present (Some (BNLike_number (RpcTransaction.gas rpcTransaction)));
     TxData.gasPrice :=
       Present (Some (BNLike_number (RpcTransaction.gasPrice rpcTransaction)));
     TxData.to := Present (RpcTransaction.to rpcTransaction);
     TxData.nonce := Present (Some (BNLike_number (RpcTransaction.nonce rpcTransaction)));
     TxData.data := Present (Some (RpcTransaction.input rpcTransaction));
     TxData.v := Present (Some (BNLike_number (RpcTransaction.v rpcTransaction)));
     TxData.r := Present (Some (BNLike_number (RpcTransaction.r rpcTransaction)));
     TxData.s := Present (Some (BNLike_number (RpcTransaction.s rpcTransaction)));
     TxData.value := Present (Some (BNLike_number (RpcTransaction.value rpcTransaction))) |}.

(* ===================================================================== *)
(** ** JavaScript values and the heap *)
(* ===================================================================== *)

Abbreviation loc := positive.

(** Values. [JRef] points to a mutable object or array in the heap: what a
    caller hands to a wrapper. [JArray] and [JObject] are array and object
    literals taken as immutable values: what a wrapper or the transport
    builds and nobody writes to afterwards. *)
#[warnings="-register-all"]
Inductive JsValue : Type :=
  | JUndefined
  | JNull
  | JBoolean (b : bool)
  | JNumber (n : Z)
  | JString (s : string)
  | JArray (elems : list JsValue)
  | JObject (props : list (string * JsValue))
  | JRef (l : loc).

(** A heap object: its string-keyed properties and, for an array, its
    elements. *)
Record HeapObject : Type := mkHeapObject {
  elements : option (list JsValue);
  properties : gmap string JsValue }.

Abbreviation Heap := (gmap loc HeapObject).

Definition is_undefined (v : JsValue) : bool :=
  match v with
  | JUndefined => true
  | _ => false
  end.

(** [v === "s"] *)
Definition is_string (v : JsValue) (s : string) : bool :=
  match v with
  | JString s' => String.eqb s' s
  | _ => false
  end.

Fixpoint assoc (k : string) (props : list (string * JsValue)) : option JsValue :=
  match props with
  | [] => None
  | (k', v) :: rest => if String.eqb k' k then Some v else assoc k rest
  end.

(** [v.k] *)
Definition get (h : Heap) (v : JsValue) (k : string) : Result JsValue :=
  match v with
  | JUndefined | JNull =>
      Err (TypeError ("Cannot read properties of undefined or null: " ++ k))
  | JRef l =>
      match h !! l with
      | Some o => Ok (default JUndefined (properties o !! k))
      | None => Err (TypeError "dangling reference")
      end
  | JObject props => Ok (default JUndefined (assoc k props))
  | _ => Ok JUndefined
  end.

(** [v.k = x] in strict mode: only a heap object can be written to. *)
Definition set (h : Heap) (v : JsValue) (k : string) (x : JsValue) : Result Heap :=
  match v with
  | JRef l =>
      match h !! l with
      | Some o => Ok (<[l := mkHeapObject (elements o) (<[k := x]> (properties o))]> h)
      | None => Err (TypeError "dangling reference")
      end
  | _ => Err (TypeError ("Cannot set property " ++ k))
  end.

(** The elements of [v] when [Array.isArray(v)]. *)
Definition array_elements (h : Heap) (v : JsValue) : option (list JsValue) :=
  match v with
  | JArray l => Some l
  | JRef l => h !! l ≫= elements
  | _ => None
  end.

(** [v[0]] *)
Definition first (h : Heap) (v : JsValue) : Result JsValue :=
  match array_elements h v with
  | Some l => Ok (default JUndefined (l !! 0%nat))
  | None =>
      match v with
      | JString (String c _) => Ok (JString (String c EmptyString))
      | JRef _ | JObject _ => get h v "0"
      | JUndefined | JNull => Err (TypeError "Cannot read properties of undefined or null: 0")
      | _ => Ok JUndefined
      end
  end.

(* ===================================================================== *)
(** ** Providers: the wrapped provider and the wrapper monad *)
(* ===================================================================== *)

(** How a request reached the wrapped provider: the caller's own request
    object passed on, or a request object the wrapper built. *)
Inductive Origin : Type :=
  | Forwarded
  | Built.

(** One call of [this._wrappedProvider.request]: the argument, the heap at
    that moment (what the argument pointed to), and the outcome. *)
Record Call : Type := mkCall {
  origin : Origin;
  request_args : JsValue;
  heap_then : Heap;
  response : Result JsValue }.

(** The wrapped [EIP1193Provider]: it has a state of its own, reads the
    request, and resolves or rejects. *)
Class EIP1193Provider (PS : Type) : Type :=
  provider_request : PS -> Heap -> JsValue -> PS * Result JsValue.

(** The state a wrapper of class [F] runs in: its own fields [this], the
    heap shared with the caller, the wrapped provider, and the calls made
    to it so far. *)
Record State (F PS : Type) : Type := mkState {
  this : F;
  heap : Heap;
  wrapped : PS;
  calls : list Call }.
Arguments mkState {F PS}.
Arguments this {F PS}.
Arguments heap {F PS}.
Arguments wrapped {F PS}.
Arguments calls {F PS}.

(** An [async] method: it changes the state and returns or throws. *)
Definition M (S A : Type) : Type := S -> Result A * S.

Definition ret {S A} (a : A) : M S A := fun st => (Ok a, st).

Definition throw {S A} (e : Exn) : M S A := fun st => (Err e, st).

Definition bind {S A B} (m : M S A) (k : A -> M S B) : M S B :=
  fun st =>
    match m st with
    | (Ok a, st') => k a st'
    | (Err e, st') => (Err e, st')
    end.

Definition lift {S A} (r : Result A) : M S A := fun st => (r, st).

Declare Scope wrapper_scope.
Delimit Scope wrapper_scope with wrapper.
Notation "x <- c ;; k" := (bind c (fun x => k))
  (at level 100, c at next level, right associativity) : wrapper_scope.
Notation "c ;; k" := (bind c (fun _ => k))
  (at level 100, right associativity) : wrapper_scope.

Section Wrapper.
Context {F PS : Type} `{EIP1193Provider PS}.

Definition get_this : M (State F PS) F := fun st => (Ok (this st), st).

Definition set_this (f : F) : M (State F PS) unit :=
  fun st => (Ok tt, mkState f (heap st) (wrapped st) (calls st)).

Definition get_heap : M (State F PS) Heap := fun st => (Ok (heap st), st).

Definition set_heap (h : Heap) : M (State F PS) unit :=
  fun st => (Ok tt, mkState (this st) h (wrapped st) (calls st)).

(** [await this._wrappedProvider.request(args)] *)
Definition wrapped_request (o : Origin) (args : JsValue) : M (State F PS) JsValue :=
  fun st =>
    let out := provider_request (wrapped st) (heap st) args in
    (snd out,
     mkState (this st) (heap st) (fst out)
       (calls st ++ [mkCall o args (heap st) (snd out)])).

(** Modelled from the spec: [_getParams] of [ProviderWrapper]
    ([core/providers/wrapper.ts]) is not among the sources. Section 3: a
    request is [{ method, params }] with [params] an ordered sequence. The
    helper hands back the [params] array of the request itself, an empty
    array when the request has none, and rejects [params] that is not an
    array. *)
Definition _getParams (args : JsValue) : M (State F PS) JsValue :=
  (h <- get_heap ;;
   params <- lift (get h args "params") ;;
   if is_undefined params then ret (JArray [])
   else match array_elements h params with
        | Some _ => ret params
        | None => throw (HardhatError INVALID_REQUEST_PARAMS)
        end)%wrapper.

(** The elements of an array that is known to be one. *)
Definition elements_of (params : JsValue) : M (State F PS) (list JsValue) :=
  (h <- get_heap ;;
   ret (default [] (array_elements h params)))%wrapper.

End Wrapper.

(* ===================================================================== *)
(** ** [LocalAccountsProvider] *)
(* ===================================================================== *)

(** [RpcTransactionRequest]: a transaction request after [validateParams]
    decoded it. *)
Module RpcTransactionRequest.
Record t : Type := mk {
  from : option Buffer;
  to : option Buffer;
  gas : option BN;
  gasPrice : option BN;
  value : option BN;
  data : option Buffer;
  nonce : option BN }.

(** [txRequest.nonce = n] on the decoded request. *)
Definition set_nonce (n : BN) (r : t) : t :=
  mk (from r) (to r) (gas r) (gasPrice r) (value r) (data r) (Some n).
End RpcTransactionRequest.

(** [new Common({ chain: chainId })] or [Common.forCustomChain(...)]. *)
Inductive Common : Type :=
  | Common_chain (chain : Z)
  | Common_forCustomChain (baseChain : string) (chainId networkId : Z)
      (hardfork : string).

(** What the local-accounts wrapper takes from elsewhere: [ethereumjs-util],
    [eth-sig-util], [@ethereumjs/tx] and [@ethereumjs/common], and the
    validators and decoders of [core/jsonrpc/types], which are not among the
    sources. Decoding yields a fresh value; it never hands back the object
    it was given. *)
Class Collaborators : Type := {
  toBuffer : string -> Result Buffer;
  privateToAddress : Buffer -> Result Buffer;
  hashPersonalMessage : Buffer -> Buffer;
  ecsign : Buffer -> Buffer -> Result (Z * Buffer * Buffer);
  toRpcSig : Z -> Buffer -> Buffer -> Result string;
  signTypedData_v4 : Buffer -> JsValue -> Result JsValue;
  chains_names : Z -> option string;
  (** [Transaction.fromTxData(txData, { common }).sign(privateKey).serialize()] *)
  sign_and_serialize :
    RpcTransactionRequest.t -> option BN -> Common -> Buffer -> Result Buffer;
  (** [validateParams(params, rpcAddress, rpcData)] *)
  validateParams_address_data :
    Heap -> list JsValue -> Result (option Buffer * option Buffer);
  (** [validateParams(params, rpcAddress, t.any)] *)
  validateParams_address_any :
    Heap -> list JsValue -> Result (option Buffer * JsValue);
  (** [validateParams(params, rpcTransactionRequest)] *)
  validateParams_transactionRequest :
    Heap -> list JsValue -> Result RpcTransactionRequest.t;
  rpcQuantityToBN : JsValue -> Result BN }.

(** [bufferToHex] of [ethereumjs-util]: [0x] and two lower-case hex digits
    per byte. *)
Definition bufferToHex (b : Buffer) : string := "0x" ++ hex_of_bytes b.

(** [String.prototype.toLowerCase], on ASCII. *)
Definition lower (c : ascii) : ascii :=
  let n := nat_of_ascii c in
  if (65 <=? n)%nat && (n <=? 90)%nat then ascii_of_nat (n + 32) else c.

Fixpoint toLowerCase (s : string) : string :=
  match s with
  | EmptyString => EmptyString
  | String c rest => String (lower c) (toLowerCase rest)
  end.

(** A JavaScript [Map] with string keys: the entries in insertion order. *)
Abbreviation JsMap V := (list (string * V)).

(** [map.set(k, v)]: an existing key keeps its place and takes the new
    value; a new key goes last. *)
Fixpoint Map_set {V} (k : string) (v : V) (m : JsMap V) : JsMap V :=
  match m with
  | [] => [(k, v)]
  | (k', v') :: rest =>
      if String.eqb k' k then (k', v) :: rest else (k', v') :: Map_set k v rest
  end.

(** [map.get(k)] *)
Fixpoint Map_get {V} (k : string) (m : JsMap V) : option V :=
  match m with
  | [] => None
  | (k', v) :: rest => if String.eqb k' k then Some v else Map_get k rest
  end.

(** [[...map.keys()]] *)
Definition Map_keys {V} (m : JsMap V) : list string := map fst m.

Module LocalAccountsProvider.

(** The fields of an instance: its own [_addressToPrivateKey] and the
    [_chainId] cache of [ProviderWrapperWithChainId]. *)
Record t : Type := mk {
  _addressToPrivateKey : JsMap Buffer;
  _chainId : option Z }.

Section Methods.
Context `{Collaborators} {PS : Type} `{EIP1193Provider PS}.

(** The loop of [_initializePrivateKeys] over the decoded keys. *)
Fixpoint _initializePrivateKeys_loop (privateKeys : list Buffer) (m : JsMap Buffer)
  : Result (JsMap Buffer) :=
  match privateKeys with
  | [] => Ok m
  | pk :: rest =>
      (let? a := privateToAddress pk in
       let address := toLowerCase (bufferToHex a) in
       _initializePrivateKeys_loop rest (Map_set address pk m))%result
  end.

(** [_initializePrivateKeys(localAccountsHexPrivateKeys)] *)
Definition _initializePrivateKeys (localAccountsHexPrivateKeys : list string)
    (m : JsMap Buffer) : Result (JsMap Buffer) :=
  (let? privateKeys := rmap_list toBuffer localAccountsHexPrivateKeys in
   _initializePrivateKeys_loop privateKeys m)%result.

(** [constructor(provider, localAccountsHexPrivateKeys)] *)
Definition constructor (localAccountsHexPrivateKeys : list string) : Result t :=
  (let? m := _initializePrivateKeys localAccountsHexPrivateKeys [] in
   Ok (mk m None))%result.

(** [_getPrivateKeyForAddress(address)] *)
Definition _getPrivateKeyForAddress (address : Buffer) : M (State t PS) Buffer :=
  (self <- get_this ;;
   match Map_get (bufferToHex address) (_addressToPrivateKey self) with
   | Some pk => ret pk
   | None => throw (HardhatError (NOT_LOCAL_ACCOUNT (bufferToHex address)))
   end)%wrapper.

(** [_getNonce(address)] *)
Definition _getNonce (address : Buffer) : M (State t PS) BN :=
  (response <- wrapped_request Built
                 (JObject [("method", JString "eth_getTransactionCount");
                           ("params", JArray [JString (bufferToHex address);
                                              JString "pending"])]) ;;
   lift (rpcQuantityToBN response))%wrapper.

(** Modelled from the spec: [_getChainId] of [ProviderWrapperWithChainId]
    ([core/providers/chainId.ts]) is not among the sources. Section 4.3: it
    caches the result of an [eth_chainId] call to the inner provider, and
    later calls return the cached value without a new round trip. *)
Definition _getChainId : M (State t PS) Z :=
  (self <- get_this ;;
   match _chainId self with
   | Some id => ret id
   | None =>
       response <- wrapped_request Built (JObject [("method", JString "eth_chainId")]) ;;
       id <- lift (rpcQuantityToBN response) ;;
       self <- get_this ;;
       set_this (mk (_addressToPrivateKey self) (Some id)) ;;
       ret id
   end)%wrapper.

(** [_getSignedTransaction(transactionRequest, chainId, privateKey)] *)
Definition _getSignedTransaction (transactionRequest : RpcTransactionRequest.t)
    (chainId : Z) (privateKey : Buffer) : M (State t PS) Buffer :=
  let gasLimit := RpcTransactionRequest.gas transactionRequest in
  let common :=
    match chains_names chainId with
    | Some _ => Common_chain chainId
    | None => Common_forCustomChain "mainnet" chainId chainId "istanbul"
    end in
  lift (sign_and_serialize transactionRequest gasLimit common privateKey).

(** The [eth_sign] branch of [request]: [Some] when it returns, [None] when
    control falls through to the rest of [request]. *)
Definition request_eth_sign (params : JsValue) : M (State t PS) (option JsValue) :=
  (elems <- elements_of params ;;
   if (0 <? length elems)%nat then
     h <- get_heap ;;
     decoded <- lift (validateParams_address_data h elems) ;;
     match fst decoded with
     | Some address =>
         match snd decoded with
         | None => throw (HardhatError ETHSIGN_MISSING_DATA_PARAM)
         | Some data =>
             privateKey <- _getPrivateKeyForAddress address ;;
             let messageHash := hashPersonalMessage data in
             signature <- lift (ecsign messageHash privateKey) ;;
             sig <- lift (toRpcSig (fst (fst signature)) (snd (fst signature))
                            (snd signature)) ;;
             ret (Some (JString sig))
         end
     | None => ret None
     end
   else ret None)%wrapper.

(** The [eth_signTypedData] branch of [request]. *)
Definition request_eth_signTypedData (params : JsValue)
  : M (State t PS) (option JsValue) :=
  (elems <- elements_of params ;;
   h <- get_heap ;;
   decoded <- lift (validateParams_address_any h elems) ;;
   match fst decoded with
   | Some address =>
       if is_undefined (snd decoded)
       then throw (HardhatError ETHSIGN_MISSING_DATA_PARAM)
       else
         privateKey <- _getPrivateKeyForAddress address ;;
         signed <- lift (signTypedData_v4 privateKey (snd decoded)) ;;
         ret (Some signed)
   | None => ret None
   end)%wrapper.

(** The end of the [eth_sendTransaction] branch, from
    [const privateKey = this._getPrivateKeyForAddress(txRequest.from!)] on. *)
Definition sign_and_send (txRequest : RpcTransactionRequest.t) (from : Buffer)
  : M (State t PS) JsValue :=
  (privateKey <- _getPrivateKeyForAddress from ;;
   chainId <- _getChainId ;;
   rawTransaction <- _getSignedTransaction txRequest chainId privateKey ;;
   wrapped_request Built
     (JObject [("method", JString "eth_sendRawTransaction");
               ("params", JArray [JString (bufferToHex rawTransaction)])]))%wrapper.

(** The [eth_sendTransaction] branch of [request], entered when
    [params.length > 0]. *)
Definition request_eth_sendTransaction (params : JsValue) : M (State t PS) JsValue :=
  (elems <- elements_of params ;;
   h <- get_heap ;;
   txRequest <- lift (validateParams_transactionRequest h elems) ;;
   match RpcTransactionRequest.gas txRequest with
   | None => throw (HardhatError (MISSING_TX_PARAM_TO_SIGN_LOCALLY "gas"))
   | Some _ =>
   match RpcTransactionRequest.from txRequest with
   | None => throw (HardhatError (MISSING_TX_PARAM_TO_SIGN_LOCALLY "from"))
   | Some from =>
   match RpcTransactionRequest.gasPrice txRequest with
   | None => throw (HardhatError (MISSING_TX_PARAM_TO_SIGN_LOCALLY "gasPrice"))
   | Some _ =>
       match RpcTransactionRequest.nonce txRequest with
       | None =>
           nonce <- _getNonce from ;;
           sign_and_send (RpcTransactionRequest.set_nonce nonce txRequest) from
       | Some _ => sign_and_send txRequest from
       end
   end end end)%wrapper.

(** [request(args)] *)
Definition request (args : JsValue) : M (State t PS) JsValue :=
  (h <- get_heap ;;
   method <- lift (get h args "method") ;;
   if is_string method "eth_accounts" || is_string method "eth_requestAccounts"
   then
     self <- get_this ;;
     ret (JArray (map JString (Map_keys (_addressToPrivateKey self))))
   else
     params <- _getParams args ;;
     signed <- (if is_string method "eth_sign"
                then request_eth_sign params else ret None) ;;
     match signed with
     | Some signature => ret signature
     | None =>
     typed <- (if is_string method "eth_signTypedData"
               then request_eth_signTypedData params else ret None) ;;
     match typed with
     | Some signature => ret signature
     | None =>
         elems <- elements_of params ;;
         if is_string method "eth_sendTransaction" && (0 <? length elems)%nat
         then request_eth_sendTransaction params
         else wrapped_request Forwarded args
     end end)%wrapper.

End Methods.
End LocalAccountsProvider.

(* ===================================================================== *)
(** ** [SenderProvider] and its two subclasses *)
(* ===================================================================== *)

Module SenderProvider.

(** The abstract method [_getSender]: a subclass with fields [F] says how a
    sender is found. *)
Class Subclass (F PS : Type) : Type :=
  _getSender : M (State F PS) JsValue.

Section Request.
Context {F PS : Type} `{EIP1193Provider PS} `{Subclass F PS}.

(** The body of [if (tx !== undefined && tx.from === undefined)]. *)
Definition fill_sender (method tx : JsValue) : M (State F PS) unit :=
  (senderAccount <- _getSender ;;
   if negb (is_undefined senderAccount) then
     h <- get_heap ;;
     h' <- lift (set h tx "from" senderAccount) ;;
     set_heap h'
   else if is_string method "eth_sendTransaction" then
     throw (HardhatError NO_REMOTE_ACCOUNT_AVAILABLE)
   else ret tt)%wrapper.

(** [request(args)] *)
Definition request (args : JsValue) : M (State F PS) JsValue :=
  (h <- get_heap ;;
   method <- lift (get h args "method") ;;
   params <- _getParams args ;;
   (if is_string method "eth_sendTransaction"
       || is_string method "eth_call"
       || is_string method "eth_estimateGas"
    then
      h <- get_heap ;;
      tx <- lift (first h params) ;;
      if negb (is_undefined tx) then
        from <- lift (get h tx "from") ;;
        if is_undefined from then fill_sender method tx else ret tt
      else ret tt
    else ret tt) ;;
   wrapped_request Forwarded args)%wrapper.

End Request.
End SenderProvider.

Module AutomaticSenderProvider.

(** The field [_firstAccount: string | undefined]. *)
Record t : Type := mk { _firstAccount : JsValue }.

(** A new instance: the field is not initialised. *)
Definition constructor : t := mk JUndefined.

Section Methods.
Context {PS : Type} `{EIP1193Provider PS}.

#[global] Instance getSender : SenderProvider.Subclass t PS :=
  (self <- get_this ;;
   (if is_undefined (_firstAccount self) then
      accounts <- wrapped_request Built (JObject [("method", JString "eth_accounts")]) ;;
      h <- get_heap ;;
      account <- lift (first h accounts) ;;
      set_this (mk account)
    else ret tt) ;;
   self <- get_this ;;
   ret (_firstAccount self))%wrapper.

Definition request : JsValue -> M (State t PS) JsValue := SenderProvider.request.

(** [_getSender] in the two steps that its [await] separates; another
    request may run between the two. The first step tests the cache and, if
    it is empty, sends the query: it yields the pending answer, or [None]
    when nothing was sent. *)
Definition _getSender_send : M (State t PS) (option (Result JsValue)) :=
  (self <- get_this ;;
   if is_undefined (_firstAccount self) then
     fun st =>
       let asked := wrapped_request Built (JObject [("method", JString "eth_accounts")]) st in
       (Ok (Some (fst asked)), snd asked)
   else ret None)%wrapper.

(** The second step, run when the answer has arrived: a rejection is
    thrown, an answer is stored; then the cache is returned. *)
Definition _getSender_receive (answer : option (Result JsValue)) : M (State t PS) JsValue :=
  ((match answer with
    | Some response =>
        accounts <- lift response ;;
        h <- get_heap ;;
        account <- lift (first h accounts) ;;
        set_this (mk account)
    | None => ret tt
    end) ;;
   self <- get_this ;;
   ret (_firstAccount self))%wrapper.

End Methods.
End AutomaticSenderProvider.

Module FixedSenderProvider.

(** The field [_sender: string], set by the constructor. *)
Record t : Type := mk { _sender : string }.

Definition constructor (sender : string) : t := mk sender.

Section Methods.
Context {PS : Type} `{EIP1193Provider PS}.

#[global] Instance getSender : SenderProvider.Subclass t PS :=
  (self <- get_this ;;
   ret (JString (_sender self)))%wrapper.

Definition request : JsValue -> M (State t PS) JsValue := SenderProvider.request.

End Methods.
End FixedSenderProvider.

(** Serving requests one after the other on the same instance; the outcomes
    are collected in order. *)
Fixpoint serve {S} (request : JsValue -> M S JsValue) (requests : list JsValue)
    (st : S) : list (Result JsValue) * S :=
  match requests with
  | [] => ([], st)
  | args :: rest =>
      let out := request args st in
      let outs := serve request rest (snd out) in
      (fst out :: fst outs, snd outs)
  end.

(* ===================================================================== *)
(** ** Concrete collaborators and inputs for the examples *)
(* ===================================================================== *)

Module Fixtures.

(** Stand-ins for the library: a hash that only looks at the nonce, a fixed
    block hash, and a sender recovery that always fails. *)
Definition lib : EthereumJs :=
  {| Transaction_hash t := [171%N; Z.to_N (Transaction.nonce t)];
     Transaction_getSenderAddress _ := Err (LibraryError "Invalid Signature");
     Block_hash _ := [190%N; 239%N];
     Block_serialize _ := [0%N; 0%N; 0%N; 0%N; 0%N];
     BlockHeader_hash _ := [205%N] |}.

(** The address [0x0a0a...0a]. *)
Definition sender : Buffer := repeat 10%N 20.

(** The data object [{ nonce: n, gasLimit: 21000 }]. *)
Definition fake_data (n : Z) : TxData.t :=
  {| TxData.nonce := Present (Some (BNLike_number n));
     TxData.gasPrice := Absent;
     TxData.gasLimit := Present (Some (BNLike_number 21000));
     TxData.to := Absent;
     TxData.value := Absent;
     TxData.data := Absent;
     TxData.v := Absent;
     TxData.r := Absent;
     TxData.s := Absent |}.

(** The transaction that [new FakeSenderTransaction(sender, fake_data n)]
    makes of a nonce that the library accepts. *)
Definition fake (n : Z) : FakeSenderTransaction.t :=
  {| FakeSenderTransaction.super :=
       {| Transaction.nonce := n;
          Transaction.gasPrice := 0;
          Transaction.gasLimit := 21000;
          Transaction.to := None;
          Transaction.value := 0;
          Transaction.data := [];
          Transaction.v := Some 27;
          Transaction.r := Some 1;
          Transaction.s := Some 2 |};
     FakeSenderTransaction._sender := sender |}.

Definition header : BlockHeader.t :=
  {| BlockHeader.parentHash := [1%N];
     BlockHeader.uncleHash := [2%N];
     BlockHeader.coinbase := [3%N];
     BlockHeader.stateRoot := [4%N];
     BlockHeader.transactionsTrie := [5%N];
     BlockHeader.receiptTrie := [6%N];
     BlockHeader.bloom := [7%N];
     BlockHeader.difficulty := 1;
     BlockHeader.number := 7;
     BlockHeader.gasLimit := 9500000;
     BlockHeader.gasUsed := 51000;
     BlockHeader.timestamp := 1000;
     BlockHeader.extraData := [];
     BlockHeader.mixHash := [8%N];
     BlockHeader.nonce := [66%N] |}.

(** A block with two transactions. *)
Definition block : Block.t :=
  {| Block.header := header;
     Block.transactions := [FakeSender (fake 0); FakeSender (fake 1)];
     Block.uncleHeaders := [] |}.

Definition log : Log.t :=
  {| Log.address := [12%N]; Log.topics := [[13%N]]; Log.data := [14%N] |}.

(** The two transactions used 21000 and 30000 gas. *)
Definition runBlockResult : RunBlockResult.t :=
  {| RunBlockResult.results :=
       [ {| RunTxResult.createdAddress := None; RunTxResult.gasUsed := 21000 |};
         {| RunTxResult.createdAddress := None; RunTxResult.gasUsed := 30000 |} ];
     RunBlockResult.receipts :=
       [ {| TxReceipt.gasUsed := [82%N; 8%N];
            TxReceipt.bitvector := [];
            TxReceipt.logs := [log];
            TxReceipt.variant := TxReceipt.PostByzantium 1 |};
         {| TxReceipt.gasUsed := [117%N; 48%N];
            TxReceipt.bitvector := [];
            TxReceipt.logs := [];
            TxReceipt.variant := TxReceipt.PostByzantium 1 |} ] |}.

(** *** Providers *)

Definition bytes_of_string (s : string) : Buffer :=
  map (fun c => N_of_ascii c) (list_ascii_of_string s).

(** Reading one property of a decoded transaction request. *)
Definition decode_bytes (h : Heap) (tx : JsValue) (k : string) : option Buffer :=
  match get h tx k with
  | Ok (JString s) => Some (bytes_of_string s)
  | _ => None
  end.

Definition decode_number (h : Heap) (tx : JsValue) (k : string) : option BN :=
  match get h tx k with
  | Ok (JNumber n) => Some n
  | _ => None
  end.

(** Stand-ins for the signing libraries and the validators: a key is the
    bytes of its hex string, its address the reversed key, a signature the
    concatenation of its inputs. *)
Definition collaborators : Collaborators :=
  {| toBuffer s := Ok (bytes_of_string s);
     privateToAddress pk := Ok (rev pk);
     hashPersonalMessage m := m;
     ecsign m pk := Ok (27, m, pk);
     toRpcSig _ r s := Ok (bufferToHex (r ++ s));
     signTypedData_v4 _ _ := Ok (JString "0x5157");
     chains_names id := if (id =? 1)%Z then Some "mainnet" else None;
     sign_and_serialize tx _ _ pk :=
       Ok (Z.to_N (default 0 (RpcTransactionRequest.nonce tx)) :: pk);
     validateParams_address_data h elems :=
       Ok (decode_bytes h (JArray elems) "0", decode_bytes h (JArray elems) "1");
     validateParams_address_any h elems :=
       Ok (None, default JUndefined (elems !! 1%nat));
     validateParams_transactionRequest h elems :=
       match elems with
       | [tx] =>
           Ok {| RpcTransactionRequest.from := decode_bytes h tx "from";
                 RpcTransactionRequest.to := decode_bytes h tx "to";
                 RpcTransactionRequest.gas := decode_number h tx "gas";
                 RpcTransactionRequest.gasPrice := decode_number h tx "gasPrice";
                 RpcTransactionRequest.value := decode_number h tx "value";
                 RpcTransactionRequest.data := decode_bytes h tx "data";
                 RpcTransactionRequest.nonce := decode_number h tx "nonce" |}
       | _ => Err (InvalidArgumentsError "expected one parameter")
       end;
     rpcQuantityToBN v :=
       match v with
       | JNumber n => Ok n
       | _ => Err (InvalidArgumentsError "not a quantity")
       end |}.

(** A transport that knows the accounts [accounts], counts the requests it
    gets, and answers every other method with a number. *)
Definition transport (accounts : list string) : EIP1193Provider nat :=
  fun n h args =>
    (S n,
     match get h args "method" with
     | Ok (JString "eth_accounts") => Ok (JArray (map JString accounts))
     | Ok (JString _) => Ok (JNumber 5)
     | _ => Err (ProviderError "invalid request")
     end).

(** The heap of a caller that holds one request, at location 1:
    [{ method, params: [tx] }], with the array at 2 and the transaction
    object [tx] at 3. *)
Definition caller_heap (method : string) (tx : gmap string JsValue) : Heap :=
  {[ 1%positive := mkHeapObject None
                     {[ "method" := JString method; "params" := JRef 2 ]};
     2%positive := mkHeapObject (Some [JRef 3]) ∅;
     3%positive := mkHeapObject None tx ]}.

Definition args : JsValue := JRef 1.

(** A caller's heap with a request that has no [params]. *)
Definition bare_heap (method : string) : Heap :=
  {[ 1%positive := mkHeapObject None {[ "method" := JString method ]} ]}.

(** Two requests of [eth_call] without [from]: the one of [caller_heap] at
    1, 2, 3 and another at 4, 5, 6. *)
Definition two_callers_heap : Heap :=
  <[ 4%positive := mkHeapObject None
                     {[ "method" := JString "eth_call"; "params" := JRef 5 ]} ]>
    (<[ 5%positive := mkHeapObject (Some [JRef 6]) ∅ ]>
       (<[ 6%positive := mkHeapObject None {[ "to" := JString "0xb0b" ]} ]>
          (caller_heap "eth_call" {[ "to" := JString "0xb0b" ]}))).

(** A wrapper with fields [f] that has served nothing yet. *)
Definition fresh {F} (f : F) (h : Heap) : State F nat := mkState f h 0%nat [].

(** [{ to: "0xb0b" }] *)
Definition tx_without_from : gmap string JsValue := {[ "to" := JString "0xb0b" ]}.

(** [{ from: "0xa11ce", gasPrice: 1, nonce: 0 }] and its variations. *)
Definition tx_to_sign (gas gasPrice nonce : option Z) : gmap string JsValue :=
  let add k (x : option Z) (m : gmap string JsValue) :=
    match x with
    | Some n => <[k := JNumber n]> m
    | None => m
    end in
  add "gas" gas (add "gasPrice" gasPrice (add "nonce" nonce
    {[ "from" := JString "0xa11ce"; "to" := JString "0xb0b" ]})).

(** The private key whose address, with these stand-ins, is what
    [bufferToHex] makes of ["0xa11ce"]. *)
Definition key_of_alice : string := "ec11ax0".

(** The wrapper that [new LocalAccountsProvider(provider, [key_of_alice])]
    builds with these stand-ins. *)
Definition local_accounts : LocalAccountsProvider.t :=
  LocalAccountsProvider.mk
    [("0x30786131316365", [101%N; 99%N; 49%N; 49%N; 97%N; 120%N; 48%N])] None.

End Fixtures.

(** Further inputs for the examples. *)
Module MoreFixtures.
Import Fixtures.

(** Stand-ins like [collaborators], with validators for the signing
    methods that take the address and the data from the first two
    parameters when these are strings. *)
Definition signing_collaborators : Collaborators :=
  {| toBuffer := @toBuffer collaborators;
     privateToAddress := @privateToAddress collaborators;
     hashPersonalMessage := @hashPersonalMessage collaborators;
     ecsign := @ecsign collaborators;
     toRpcSig := @toRpcSig collaborators;
     signTypedData_v4 := @signTypedData_v4 collaborators;
     chains_names := @chains_names collaborators;
     sign_and_serialize := @sign_and_serialize collaborators;
     validateParams_address_data h elems :=
       Ok (match elems !! 0%nat with
           | Some (JString a) => Some (bytes_of_string a)
           | _ => None
           end,
           match elems !! 1%nat with
           | Some (JString d) => Some (bytes_of_string d)
           | _ => None
           end);
     validateParams_address_any h elems :=
       Ok (match elems !! 0%nat with
           | Some (JString a) => Some (bytes_of_string a)
           | _ => None
           end,
           default JUndefined (elems !! 1%nat));
     validateParams_transactionRequest :=
       @validateParams_transactionRequest collaborators;
     rpcQuantityToBN := @rpcQuantityToBN collaborators |}.

(** The heap of a caller that holds the request
    [{ method, params: ["0xa11ce", "0xda7a"] }] at location 1. *)
Definition signing_heap (method : string) : Heap :=
  {[ 1%positive := mkHeapObject None
                     {[ "method" := JString method; "params" := JRef 2 ]};
     2%positive := mkHeapObject (Some [JString "0xa11ce"; JString "0xda7a"]) ∅ ]}.


(** A decoded transaction: a transfer of 1 wei with 21000 gas to the
    address [0x0b0b...0b], signed. *)
Definition rpcTransaction : RpcTransaction.t :=
  {| RpcTransaction.gas := 21000;
     RpcTransaction.gasPrice := 8;
     RpcTransaction.to := Some (repeat 11%N 20);
     RpcTransaction.nonce := 3;
     RpcTransaction.input := [];
     RpcTransaction.v := 28;
     RpcTransaction.r := 77;
     RpcTransaction.s := 88;
     RpcTransaction.value := 1 |}.

(** A receipt record with two logs. *)
Definition receipt : RpcTransactionReceipt.t :=
  {| RpcTransactionReceipt.transactionHash := [171%N; 0%N];
     RpcTransactionReceipt.transactionIndex := 0;
     RpcTransactionReceipt.blockHash := [190%N; 239%N];
     RpcTransactionReceipt.blockNumber := 7;
     RpcTransactionReceipt.from := sender;
     RpcTransactionReceipt.to := None;
     RpcTransactionReceipt.cumulativeGasUsed := 21000;
     RpcTransactionReceipt.gasUsed := 21000;
     RpcTransactionReceipt.contractAddress := None;
     RpcTransactionReceipt.logs :=
       [ {| RpcLog.address := [12%N];
            RpcLog.blockHash := Some [190%N; 239%N];
            RpcLog.blockNumber := Some 7;
            RpcLog.data := [14%N];
            RpcLog.transactionIndex := Some 0;
            RpcLog.transactionHash := Some [171%N; 0%N];
            RpcLog.topics := [[13%N]] |};
         {| RpcLog.address := [12%N];
            RpcLog.blockHash := None;
            RpcLog.blockNumber := None;
            RpcLog.data := [];
            RpcLog.transactionIndex := None;
            RpcLog.transactionHash := None;
            RpcLog.topics := [] |} ];
     RpcTransactionReceipt.logsBloom := [];
     RpcTransactionReceipt.status := 1 |}.

End MoreFixtures.

(* ===================================================================== *)
(** * Properties *)
(* ===================================================================== *)

(** ** Results and the codec *)

Lemma rbind_Ok {A B} (r : Result A) (k : A -> Result B) (b : B) :
  rbind r k = Ok b -> exists a, r = Ok a /\ k a = Ok b.
Proof. destruct r as [a|e]; simpl; [eauto | discriminate]. Qed.

Lemma numberToRpcQuantity_nonneg (n : Z) :
  0 <= n -> numberToRpcQuantity n = Ok (HexString.of_Z n).
Proof.
  intros Hn. unfold numberToRpcQuantity.
  destruct (Z.ltb_spec n 0); [lia | reflexivity].
Qed.

Lemma numberToRpcQuantity_Ok (n : Z) (q : string) :
  numberToRpcQuantity n = Ok q -> 0 <= n /\ q = HexString.of_Z n.
Proof.
  unfold numberToRpcQuantity. destruct (Z.ltb_spec n 0); [discriminate |].
  intros [= <-]. split; [lia | reflexivity].
Qed.

Lemma numberToRpcQuantity_of_nat (i : nat) :
  numberToRpcQuantity (Z.of_nat i) = Ok (HexString.of_Z (Z.of_nat i)).
Proof. apply numberToRpcQuantity_nonneg. lia. Qed.



Example numberToRpcQuantity_21000 : numberToRpcQuantity 21000 = Ok "0x5208".
Proof. reflexivity. Qed.

Example numberToRpcQuantity_zero : numberToRpcQuantity 0 = Ok "0x0".
Proof. reflexivity. Qed.

Example numberToRpcQuantity_negative : is_ok (numberToRpcQuantity (-1)) = false.
Proof. reflexivity. Qed.

Example bufferToRpcData_padded :
  bufferToRpcData [66%N] (Some 8%nat) = "0x0000000000000042".
Proof. reflexivity. Qed.

Example bufferToRpcData_empty : bufferToRpcData [] None = "0x".
Proof. reflexivity. Qed.

Example BN_of_Buffer_21000 : BN_of_Buffer [82%N; 8%N] = 21000.
Proof. reflexivity. Qed.

(** ** The base constructor of [@ethereumjs/tx] *)

Lemma rbind_Err {A B} (r : Result A) (k : A -> Result B) (e : Exn) :
  rbind r k = Err e -> r = Err e \/ exists a, r = Ok a /\ k a = Err e.
Proof.
  destruct r as [a|e']; simpl; intros Hk; [right; eauto | left; congruence].
Qed.

Lemma validateCannotExceedMaxInteger_Ok (values : list (string * option BN)) :
  _validateCannotExceedMaxInteger values = Ok tt <->
  Forall (fun kv => forall n, snd kv = Some n -> n <= MAX_INTEGER) values.
Proof.
  induction values as [|[key [n|]] rest IH]; cbn [_validateCannotExceedMaxInteger].
  - split; [constructor | reflexivity].
  - destruct (Z.ltb_spec MAX_INTEGER n) as [Hlt|Hle].
    + split; [discriminate |]. intros Hall.
      apply Forall_cons_1 in Hall. destruct Hall as [Hn _].
      specialize (Hn n eq_refl). lia.
    + rewrite IH. split.
      * intros Hrest. constructor; [| exact Hrest]. intros m [= <-]. exact Hle.
      * intros Hall. apply Forall_cons_1 in Hall. apply Hall.
  - rewrite IH. split.
    + intros Hrest. constructor; [| exact Hrest]. intros m Hm. discriminate Hm.
    + intros Hall. apply Forall_cons_1 in Hall. apply Hall.
Qed.

Lemma validateCannotExceedMaxInteger_unit (values : list (string * option BN)) (u : unit) :
  _validateCannotExceedMaxInteger values = Ok u <->
  Forall (fun kv => forall n, snd kv = Some n -> n <= MAX_INTEGER) values.
Proof. destruct u. apply validateCannotExceedMaxInteger_Ok. Qed.

Lemma validateCannotExceedMaxInteger_Err (values : list (string * option BN)) (e : Exn) :
  _validateCannotExceedMaxInteger values = Err e -> exists msg, e = LibraryError msg.
Proof.
  induction values as [|[key [n|]] rest IH]; cbn [_validateCannotExceedMaxInteger];
    [discriminate | | exact IH].
  destruct (MAX_INTEGER <? n)%Z; [| exact IH]. intros [= <-]. eauto.
Qed.

Lemma BN_of_BNLike_Err (x : option BNLike) (e : Exn) :
  BN_of_BNLike x = Err e -> exists msg, e = LibraryError msg.
Proof.
  destruct x as [[n|b]|]; cbn [BN_of_BNLike]; try discriminate.
  destruct (n <? 0)%Z; [| discriminate]. intros [= <-]. eauto.
Qed.

Lemma signature_field_Err (x : option BNLike) (e : Exn) :
  signature_field x = Err e -> exists msg, e = LibraryError msg.
Proof.
  unfold signature_field. intros Hx. apply rbind_Err in Hx.
  destruct Hx as [Hx | [n [_ Hx]]]; [| discriminate Hx].
  apply (BN_of_BNLike_Err _ _ Hx).
Qed.

Lemma Address_constructor_Ok (buf a : Buffer) :
  Address_constructor buf = Ok a <-> length buf = 20%nat /\ a = buf.
Proof.
  unfold Address_constructor. destruct (Nat.eqb_spec (length buf) 20) as [H20|H20].
  - split; [intros [= <-]; auto | intros [_ ->]; reflexivity].
  - split; [discriminate | intros [Hl _]; contradiction].
Qed.

Lemma Address_constructor_Err (buf : Buffer) (e : Exn) :
  Address_constructor buf = Err e ->
  length buf <> 20%nat /\ e = LibraryError "Invalid address length".
Proof.
  unfold Address_constructor. destruct (Nat.eqb_spec (length buf) 20) as [H20|H20];
    [discriminate |]. intros [= <-]. auto.
Qed.

(** Whatever the base constructor throws comes from the library, when the
    check of [v] is the one of [FakeSenderTransaction]. *)
Lemma Transaction_constructor_Err (d : TxData.t) (e : Exn) :
  Transaction_constructor FakeSenderTransaction.prototype_validateTxV d = Err e ->
  exists msg, e = LibraryError msg.
Proof.
  unfold Transaction_constructor. intros Hd.
  repeat match type of Hd with
         | rbind _ _ = Err _ =>
             apply rbind_Err in Hd; destruct Hd as [Hd | [? [_ Hd]]]
         end;
    try (apply signature_field_Err in Hd; exact Hd);
    try (apply BN_of_BNLike_Err in Hd; exact Hd);
    try (apply validateCannotExceedMaxInteger_Err in Hd; exact Hd);
    try discriminate Hd.
  destruct (0 <? length _)%nat; [| discriminate Hd].
  apply rbind_Err in Hd. destruct Hd as [Hd | [? [_ Hd]]]; [| discriminate Hd].
  apply Address_constructor_Err in Hd. destruct Hd as [_ ->]. eauto.
Qed.

(** ** [FakeSenderTransaction] *)

Module FakeSenderTransactionProperties.
Import FakeSenderTransaction.

(** What [to] of a transaction is, given the [to] of the data object. *)
Definition recipient_built (given : option Buffer) (to : option Buffer) : Prop :=
  match default [] given with
  | [] => to = None
  | toB => length toB = 20%nat /\ to = Some toB
  end.

(** When the constructor returns, and what: every field of the transaction
    is the field of [{ v: 27, r: 1, s: 2, ...data }] as the library reads
    it, the recipient has 20 bytes and no number exceeds [MAX_INTEGER]. *)
Lemma constructor_spec (sender : Buffer) (data : option TxData.t) (tx : t) :
  let d := super_data (default TxData.empty data) in
  constructor sender data = Ok tx <->
  _sender tx = sender /\
  signature_field (read (TxData.v d)) = Ok (Transaction.v (super tx)) /\
  signature_field (read (TxData.r d)) = Ok (Transaction.r (super tx)) /\
  signature_field (read (TxData.s d)) = Ok (Transaction.s (super tx)) /\
  BN_of_BNLike (read (TxData.nonce d)) = Ok (Transaction.nonce (super tx)) /\
  BN_of_BNLike (read (TxData.gasPrice d)) = Ok (Transaction.gasPrice (super tx)) /\
  BN_of_BNLike (read (TxData.gasLimit d)) = Ok (Transaction.gasLimit (super tx)) /\
  recipient_built (read (TxData.to d)) (Transaction.to (super tx)) /\
  BN_of_BNLike (read (TxData.value d)) = Ok (Transaction.value (super tx)) /\
  Transaction.data (super tx) = default [] (read (TxData.data d)) /\
  Forall (fun kv => forall n, snd kv = Some n -> n <= MAX_INTEGER)
    [("nonce", Some (Transaction.nonce (super tx)));
     ("gasPrice", Some (Transaction.gasPrice (super tx)));
     ("gasLimit", Some (Transaction.gasLimit (super tx)));
     ("value", Some (Transaction.value (super tx)));
     ("r", Transaction.r (super tx)); ("s", Transaction.s (super tx))].
Proof.
  intros d. unfold constructor, Transaction_constructor. fold d. split.
  - intros Hc.
    apply rbind_Ok in Hc. destruct Hc as [x [Hx Hc]]. injection Hc as <-.
    repeat (apply rbind_Ok in Hx; destruct Hx as [? [? Hx]]).
    injection Hx as <-. cbn [super _sender Transaction.v Transaction.r Transaction.s
      Transaction.nonce Transaction.gasPrice Transaction.gasLimit Transaction.to
      Transaction.value Transaction.data].
    match goal with
    | Hm : _validateCannotExceedMaxInteger _ = Ok _ |- _ =>
        apply validateCannotExceedMaxInteger_unit in Hm
    end.
    repeat (split; [first [reflexivity | assumption] |]).
    split; [| split; [assumption | split; [reflexivity | assumption]]].
    unfold recipient_built.
    match goal with
    | Hto : (if (0 <? length ?toB)%nat then _ else _) = Ok ?to |- _ =>
        destruct toB as [|x toB'] eqn:HtoB; cbn [length Nat.ltb Nat.leb] in Hto
    end.
    + congruence.
    + match goal with
      | Hto : rbind _ _ = Ok _ |- _ =>
          apply rbind_Ok in Hto; destruct Hto as [a [Ha Hto]];
          apply Address_constructor_Ok in Ha; destruct Ha as [Hlen ->];
          injection Hto as <-
      end.
      split; [exact Hlen | reflexivity].
  - intros (Hsender & Hv & Hr & Hs & Hnonce & Hprice & Hlimit & Hto & Hvalue & Hdata & Hmax).
    rewrite Hv, Hr, Hs, Hnonce, Hprice, Hlimit, Hvalue. cbn [rbind].
    apply validateCannotExceedMaxInteger_Ok in Hmax. rewrite Hmax.
    unfold recipient_built in Hto.
    destruct (default [] (read (TxData.to d))) as [|x toB'] eqn:HtoB;
      cbn [length Nat.ltb Nat.leb rbind prototype_validateTxV].
    + destruct tx as [[] ?]; cbn in *. congruence.
    + destruct Hto as [Hlen Hto].
      assert (Ha : Address_constructor (x :: toB') = Ok (x :: toB'))
        by (apply Address_constructor_Ok; auto).
      rewrite Ha. cbn [rbind].
      destruct tx as [[] ?]; cbn in *. congruence.
Qed.

(** The transaction of the examples is the one the constructor makes. *)
Lemma fake_constructed (n : Z) :
  0 <= n <= MAX_INTEGER ->
  constructor Fixtures.sender (Some (Fixtures.fake_data n)) = Ok (Fixtures.fake n).
Proof.
  intros [H0 Hmax]. apply constructor_spec.
  cbn -[MAX_INTEGER Z.ltb Z.le].
  destruct (Z.ltb_spec n 0) as [Hneg|_]; [lia |].
  repeat (split; [reflexivity |]).
  repeat constructor; cbn [snd]; intros m Hm; injection Hm as <-;
    first [exact Hmax | vm_compute; discriminate].
Qed.

(** A data object that has no [v], [r], [s] keys gets the placeholders. *)
Lemma constructor_placeholders (sender : Buffer) (data : TxData.t) (tx : t) :
  TxData.v data = Absent -> TxData.r data = Absent -> TxData.s data = Absent ->
  constructor sender (Some data) = Ok tx ->
  Transaction.v (super tx) = Some 27 /\
  Transaction.r (super tx) = Some 1 /\
  Transaction.s (super tx) = Some 2.
Proof.
  intros Hv Hr Hs Htx. apply constructor_spec in Htx.
  destruct Htx as (_ & Hv' & Hr' & Hs' & _).
  cbn [default from_option id super_data TxData.v TxData.r TxData.s] in Hv', Hr', Hs'.
  rewrite Hv in Hv'. rewrite Hr in Hr'. rewrite Hs in Hs'.
  cbn in Hv', Hr', Hs'. repeat split; congruence.
Qed.

(** So does a transaction built without a data object. *)
Lemma constructor_default (sender : Buffer) :
  exists tx,
    constructor sender None = Ok tx /\
    Transaction.v (super tx) = Some 27 /\
    Transaction.r (super tx) = Some 1 /\
    Transaction.s (super tx) = Some 2.
Proof. eexists. split; [vm_compute; reflexivity |]. cbn. auto. Qed.

(** A key that is present wins over the placeholder, also when it holds
    [undefined]: the transaction then has no [v]. *)
Lemma constructor_explicit_v (sender : Buffer) (data : TxData.t) (x : option BNLike)
    (tx : t) :
  TxData.v data = Present x ->
  constructor sender (Some data) = Ok tx ->
  signature_field x = Ok (Transaction.v (super tx)).
Proof.
  intros Hv Htx. apply constructor_spec in Htx.
  destruct Htx as (_ & Hv' & _).
  cbn [default from_option id super_data TxData.v] in Hv'. rewrite Hv in Hv'. exact Hv'.
Qed.

(** C2, as it holds. The signing operations [sign] and [getMessageToSign],
    the public-key recovery [getSenderPublicKey] and
    [getMessageToVerifySignature] throw an [InternalError] on every
    transaction. [verifySignature] does not throw: it returns [true]. The
    outcome of each of the five is the same on all transactions, so none
    of them looks at a signature. *)
Theorem signature_operations (tx : t) :
  (exists msg, call tx sign = Err (InternalError msg)) /\
  (exists msg, call tx getMessageToSign = Err (InternalError msg)) /\
  (exists msg, call tx getSenderPublicKey = Err (InternalError msg)) /\
  (exists msg, call tx getMessageToVerifySignature = Err (InternalError msg)) /\
  call tx verifySignature = Ok (RetBoolean true) /\
  (forall tx' : t,
     call tx' sign = call tx sign /\
     call tx' getMessageToSign = call tx getMessageToSign /\
     call tx' getSenderPublicKey = call tx getSenderPublicKey /\
     call tx' getMessageToVerifySignature = call tx getMessageToVerifySignature /\
     call tx' verifySignature = call tx verifySignature).
Proof.
  repeat split; try (eexists; reflexivity).
Qed.

(** C2 as stated fails: the signature-validation operation
    [verifySignature] returns normally on a fake-sender transaction. *)
Lemma verifySignature_does_not_fail :
  call (Fixtures.fake 0) verifySignature = Ok (RetBoolean true) /\
  ~ (forall (tx : t) (m : Method),
       In m [sign; getSenderPublicKey; verifySignature] ->
       exists e, call tx m = Err e).
Proof.
  split; [reflexivity |].
  intros Hall.
  destruct (Hall (Fixtures.fake 0) verifySignature) as [e He].
  - simpl. auto.
  - discriminate He.
Qed.

(** The arrays of values that the library takes: the recipient is empty or
    has 20 bytes, and [nonce], [gasPrice], [gasLimit], [value], [r] and [s]
    do not exceed [MAX_INTEGER]. *)
Definition library_accepts (values : list Buffer) : Prop :=
  (forall to, values !! 3%nat = Some to -> to = [] \/ length to = 20%nat) /\
  (forall i b, In i [0; 1; 2; 4; 7; 8]%nat -> values !! i = Some b ->
               BN_of_Buffer b <= MAX_INTEGER).

(** A signature value of the array, as the transaction holds it. *)
Definition signature_value (b : option Buffer) : option BN :=
  match b with
  | Some (x :: rest) => Some (BN_of_Buffer (x :: rest))
  | _ => None
  end.

(** The transaction made of the first six values and the signature values
    that follow them, if any. *)
Definition transaction_of_values (nonce gasPrice gasLimit to value data : Buffer)
    (sig : list Buffer) : Transaction.t :=
  {| Transaction.nonce := BN_of_Buffer nonce;
     Transaction.gasPrice := BN_of_Buffer gasPrice;
     Transaction.gasLimit := BN_of_Buffer gasLimit;
     Transaction.to := match to with [] => None | _ => Some to end;
     Transaction.value := BN_of_Buffer value;
     Transaction.data := data;
     Transaction.v := signature_value (sig !! 0%nat);
     Transaction.r := signature_value (sig !! 1%nat);
     Transaction.s := signature_value (sig !! 2%nat) |}.

Lemma signature_field_Buffer (b : option Buffer) :
  signature_field (BNLike_Buffer <$> b) = Ok (signature_value b).
Proof. destruct b as [[|x rest]|]; reflexivity. Qed.

(** [fromSenderAndValuesArray] on an array of six or nine values: it
    returns exactly when the library takes the values, and then it returns
    the transaction made of them. *)
Lemma fromSenderAndValuesArray_values (sender nonce gasPrice gasLimit to value data : Buffer)
    (sig : list Buffer) (tx : t) :
  sig = [] \/ length sig = 3%nat ->
  let values := nonce :: gasPrice :: gasLimit :: to :: value :: data :: sig in
  fromSenderAndValuesArray sender values = Ok tx <->
  library_accepts values /\
  tx = {| super := transaction_of_values nonce gasPrice gasLimit to value data sig;
          _sender := sender |}.
Proof.
  intros Hsig values.
  assert (Hcall : fromSenderAndValuesArray sender values
                  = constructor sender (Some
                      {| TxData.nonce := Present (Some (BNLike_Buffer nonce));
                         TxData.gasPrice := Present (Some (BNLike_Buffer gasPrice));
                         TxData.gasLimit := Present (Some (BNLike_Buffer gasLimit));
                         TxData.to := Present (match to with [] => None | _ => Some to end);
                         TxData.value := Present (Some (BNLike_Buffer value));
                         TxData.data := Present (Some data);
                         TxData.v := Present (BNLike_Buffer <$> sig !! 0%nat);
                         TxData.r := Present (BNLike_Buffer <$> sig !! 1%nat);
                         TxData.s := Present (BNLike_Buffer <$> sig !! 2%nat) |})).
  { subst values. destruct Hsig as [-> | Hsig].
    - destruct to; reflexivity.
    - destruct sig as [|v [|r [|s [|? ?]]]]; try discriminate Hsig.
      destruct to; reflexivity. }
  rewrite Hcall, constructor_spec.
  cbn [default from_option id super_data spread read TxData.nonce TxData.gasPrice TxData.gasLimit
       TxData.to TxData.value TxData.data TxData.v TxData.r TxData.s BN_of_BNLike].
  rewrite !signature_field_Buffer.
  assert (Hto : forall t', recipient_built (match to with [] => None | _ => Some to end) t'
                           <-> (to = [] \/ length to = 20%nat) /\
                               t' = match to with [] => None | _ => Some to end).
  { intros t'. unfold recipient_built. destruct to as [|x to']; cbn [default from_option id].
    - split; [intros ->; auto | intros [_ ->]; reflexivity].
    - split; [intros [Hl ->]; auto | intros [[Hl|Hl] ->]; [discriminate Hl | auto]]. }
  rewrite Hto. unfold library_accepts. subst values. split.
  - intros (Hsender & Hv & Hr & Hs & Hnonce & Hprice & Hlimit & [Hrec Hto'] & Hvalue
            & Hdata & Hmax).
    injection Hv as Hv. injection Hr as Hr. injection Hs as Hs.
    injection Hnonce as Hnonce. injection Hprice as Hprice. injection Hlimit as Hlimit.
    injection Hvalue as Hvalue.
    split; [split |].
    + intros to0 [= <-]. exact Hrec.
    + rewrite <- Hnonce, <- Hprice, <- Hlimit, <- Hvalue, <- Hr, <- Hs in Hmax.
      repeat (apply Forall_cons_1 in Hmax; let H := fresh "Hm" in destruct Hmax as [H Hmax]).
      cbn [snd] in *.
      intros i b Hi Hb. cbn [In] in Hi.
      destruct Hi as [<- | [<- | [<- | [<- | [<- | [<- | []]]]]]]; cbn in Hb.
      * injection Hb as <-. apply Hm. reflexivity.
      * injection Hb as <-. apply Hm0. reflexivity.
      * injection Hb as <-. apply Hm1. reflexivity.
      * injection Hb as <-. apply Hm2. reflexivity.
      * destruct Hsig as [-> | Hsig]; [discriminate Hb |].
        destruct sig as [|v [|r [|s [|? ?]]]]; try discriminate Hsig.
        cbn in Hb. injection Hb as <-.
        destruct r as [|x r]; [vm_compute; discriminate | apply Hm3; reflexivity].
      * destruct Hsig as [-> | Hsig]; [discriminate Hb |].
        destruct sig as [|v [|r [|s [|? ?]]]]; try discriminate Hsig.
        cbn in Hb. injection Hb as <-.
        destruct s as [|x s]; [vm_compute; discriminate | apply Hm4; reflexivity].
    + destruct tx as [[] ?]; cbn in *. unfold transaction_of_values. congruence.
  - intros [[Hrec Hmax] ->].
    cbn [super _sender transaction_of_values Transaction.nonce Transaction.gasPrice
         Transaction.gasLimit Transaction.to Transaction.value Transaction.data
         Transaction.v Transaction.r Transaction.s].
    repeat (split; [reflexivity |]).
    split; [split; [apply (Hrec to); reflexivity | reflexivity] |].
    repeat (split; [reflexivity |]).
    repeat constructor; cbn [snd].
    + intros n [= <-]. apply (Hmax 0%nat); [cbn; auto | reflexivity].
    + intros n [= <-]. apply (Hmax 1%nat); [cbn; auto | reflexivity].
    + intros n [= <-]. apply (Hmax 2%nat); [cbn; auto | reflexivity].
    + intros n [= <-]. apply (Hmax 4%nat); [cbn; auto | reflexivity].
    + intros n Hn. destruct (sig !! 1%nat) as [[|x r]|] eqn:Hr; try discriminate Hn.
      injection Hn as <-. apply (Hmax 7%nat); [cbn; auto 10 | exact Hr].
    + intros n Hn. destruct (sig !! 2%nat) as [[|x s]|] eqn:Hs; try discriminate Hn.
      injection Hn as <-. apply (Hmax 8%nat); [cbn; auto 10 | exact Hs].
Qed.

(** C10, at the input that breaks it. An array of six values has no [v],
    [r], [s], but the data object built from it has the three keys, holding
    [undefined]; they displace the placeholders. An array of six values is
    taken exactly when the library takes its recipient and numbers; the
    transaction is then left without [v], [r], [s], and building its RPC
    output trips the first assertion. *)
Theorem six_values_leave_transaction_unsigned
    (sender : Buffer) (values : list Buffer) :
  length values = 6%nat ->
  ((exists tx, fromSenderAndValuesArray sender values = Ok tx) <->
   library_accepts values) /\
  (forall tx,
     fromSenderAndValuesArray sender values = Ok tx ->
     Transaction.v (super tx) = None /\
     Transaction.r (super tx) = None /\
     Transaction.s (super tx) = None /\
     forall (lib : EthereumJs) (block : option Block.t) (index : option nat),
       getRpcTransaction (FakeSender tx) block index
       = Err (HardhatError (ASSERTION_ERROR "tx should be signed"))).
Proof.
  intros Hlen.
  destruct values as [|nonce [|gasPrice [|gasLimit [|to [|value [|data [|? ?]]]]]]];
    try discriminate Hlen.
  pose proof (fromSenderAndValuesArray_values sender nonce gasPrice gasLimit to value data
                []) as Hspec.
  cbv zeta in Hspec. split.
  - split.
    + intros [tx Htx]. apply Hspec in Htx; [apply Htx | auto].
    + intros Hacc. eexists. apply Hspec; [auto |]. split; [exact Hacc | reflexivity].
  - intros tx Htx. apply Hspec in Htx; [| auto]. destruct Htx as [_ ->].
    repeat split; reflexivity.
Qed.

(** On the six values [1, 2, 3, <empty>, 5, 6], which the library takes. *)
Lemma six_values_leave_transaction_unsigned_witness :
  exists tx,
    fromSenderAndValuesArray Fixtures.sender
      [[1%N]; [2%N]; [3%N]; []; [5%N]; [6%N]] = Ok tx /\
    Transaction.v (super tx) = None /\
    Transaction.r (super tx) = None /\
    Transaction.s (super tx) = None /\
    forall (lib : EthereumJs) (block : option Block.t) (index : option nat),
      getRpcTransaction (FakeSender tx) block index
      = Err (HardhatError (ASSERTION_ERROR "tx should be signed")).
Proof.
  destruct (six_values_leave_transaction_unsigned Fixtures.sender
              [[1%N]; [2%N]; [3%N]; []; [5%N]; [6%N]] eq_refl) as [Haccepted Hunsigned].
  destruct (proj2 Haccepted) as [tx Htx].
  - split.
    + intros to [= <-]. left. reflexivity.
    + intros i b Hi Hb. cbn [In] in Hi.
      destruct Hi as [<- | [<- | [<- | [<- | [<- | [<- | []]]]]]];
        cbn in Hb; try discriminate Hb; injection Hb as <-; vm_compute; discriminate.
  - exists tx. split; [exact Htx | apply (Hunsigned tx Htx)].
Defined.

(** With nine values the signature fields are the ones given. *)
Example nine_values_keep_signature :
  (let? tx := fromSenderAndValuesArray Fixtures.sender
                [[1%N]; [2%N]; [3%N]; []; [5%N]; [6%N]; [28%N]; [7%N]; [8%N]] in
   Ok (Transaction.v (super tx), Transaction.r (super tx), Transaction.s (super tx)))%result
  = Ok (Some 28, Some 7, Some 8).
Proof. vm_compute. reflexivity. Qed.

(** A recipient of one byte is no address: the library throws. *)
Example one_byte_recipient_rejected :
  fromSenderAndValuesArray Fixtures.sender [[1%N]; [2%N]; [3%N]; [7%N]; [5%N]; [6%N]]
  = Err (LibraryError "Invalid address length").
Proof. vm_compute. reflexivity. Qed.

(** An empty [v] among nine values leaves the transaction without [v]. *)
Example empty_v_is_undefined :
  (let? tx := fromSenderAndValuesArray Fixtures.sender
                [[1%N]; [2%N]; [3%N]; []; [5%N]; [6%N]; []; [7%N]; [8%N]] in
   Ok (Transaction.v (super tx)))%result
  = Ok None.
Proof. vm_compute. reflexivity. Qed.

End FakeSenderTransactionProperties.

(** ** The RPC output builders *)

Section BuilderProperties.
Context `{EthereumJs}.

(** C4, as it holds. For every block whose numeric header fields and total
    difficulty are not negative and whose transaction list can be built,
    the output built with [pending = true] has [number], [hash], [nonce],
    [mixHash] and [logsBloom] null, and every other header field is
    populated from the block. *)
Theorem getRpcBlock_pending (block : Block.t) (totalDifficulty : BN)
    (includeTransactions : bool)
    (transactions : list string + list RpcTransactionOutput.t) :
  let h := Block.header block in
  0 <= BlockHeader.difficulty h ->
  0 <= totalDifficulty ->
  0 <= BlockHeader.gasLimit h ->
  0 <= BlockHeader.gasUsed h ->
  0 <= BlockHeader.timestamp h ->
  getRpcBlock_transactions block includeTransactions = Ok transactions ->
  getRpcBlock block totalDifficulty includeTransactions true
  = Ok {| RpcBlockOutput.number := None;
          RpcBlockOutput.hash := None;
          RpcBlockOutput.nonce := None;
          RpcBlockOutput.mixHash := None;
          RpcBlockOutput.logsBloom := None;
          RpcBlockOutput.parentHash := bufferToRpcData (BlockHeader.parentHash h) None;
          RpcBlockOutput.sha3Uncles := bufferToRpcData (BlockHeader.uncleHash h) None;
          RpcBlockOutput.transactionsRoot :=
            bufferToRpcData (BlockHeader.transactionsTrie h) None;
          RpcBlockOutput.stateRoot := bufferToRpcData (BlockHeader.stateRoot h) None;
          RpcBlockOutput.receiptsRoot := bufferToRpcData (BlockHeader.receiptTrie h) None;
          RpcBlockOutput.miner := bufferToRpcData (BlockHeader.coinbase h) None;
          RpcBlockOutput.difficulty := HexString.of_Z (BlockHeader.difficulty h);
          RpcBlockOutput.totalDifficulty := HexString.of_Z totalDifficulty;
          RpcBlockOutput.extraData := bufferToRpcData (BlockHeader.extraData h) None;
          RpcBlockOutput.size :=
            HexString.of_Z (Z.of_nat (length (Block_serialize block)));
          RpcBlockOutput.gasLimit := HexString.of_Z (BlockHeader.gasLimit h);
          RpcBlockOutput.gasUsed := HexString.of_Z (BlockHeader.gasUsed h);
          RpcBlockOutput.timestamp := HexString.of_Z (BlockHeader.timestamp h);
          RpcBlockOutput.transactions := transactions;
          RpcBlockOutput.uncles :=
            map (fun uh => bufferToRpcData (BlockHeader_hash uh) None)
              (Block.uncleHeaders block) |}.
Proof.
  intros h Hd Htd Hgl Hgu Hts Htxs.
  unfold getRpcBlock. fold h. rewrite Htxs. cbn [rbind].
  rewrite !numberToRpcQuantity_nonneg by (assumption || lia).
  reflexivity.
Qed.

(** The same block built as a mined block has all five fields. *)
Lemma getRpcBlock_mined (block : Block.t) (totalDifficulty : BN)
    (includeTransactions : bool) (out : RpcBlockOutput.t) :
  getRpcBlock block totalDifficulty includeTransactions false = Ok out ->
  is_Some (RpcBlockOutput.number out) /\
  is_Some (RpcBlockOutput.hash out) /\
  is_Some (RpcBlockOutput.nonce out) /\
  is_Some (RpcBlockOutput.mixHash out) /\
  is_Some (RpcBlockOutput.logsBloom out).
Proof.
  unfold getRpcBlock. intros Hout.
  repeat (apply rbind_Ok in Hout; destruct Hout as [? [? Hout]]).
  injection Hout as <-. simpl.
  match goal with
  | Hq : rbind _ _ = Ok _ |- _ =>
      apply rbind_Ok in Hq; destruct Hq as [? [? Hq]]; injection Hq as <-
  end.
  repeat split; eexists; reflexivity.
Qed.

(** [rmapi_from] applies the callback to every element with its index. *)
Lemma rmapi_from_lookup {A B} (f : nat -> A -> Result B) (l : list A) (k : nat)
    (out : list B) :
  rmapi_from k f l = Ok out ->
  length out = length l /\
  forall j y, out !! j = Some y -> exists x, l !! j = Some x /\ f (k + j)%nat x = Ok y.
Proof.
  revert k out. induction l as [|x l IH]; intros k out Hout; simpl in Hout.
  - injection Hout as <-. split; [reflexivity |]. intros j y Hj. discriminate Hj.
  - apply rbind_Ok in Hout. destruct Hout as [y0 [Hy0 Hout]].
    apply rbind_Ok in Hout. destruct Hout as [ys [Hys Hout]].
    injection Hout as <-.
    destruct (IH _ _ Hys) as [Hlen Hrest].
    split; [simpl; congruence |].
    intros [|j] y Hj; simpl in Hj.
    + injection Hj as <-. exists x. rewrite Nat.add_0_r. auto.
    + destruct (Hrest j y Hj) as [x' [Hx' Hf]].
      exists x'. split; [exact Hx' |]. rewrite <- Hf. f_equal. lia.
Qed.

Lemma rmapi_from_total {A B} (f : nat -> A -> Result B) (l : list A) (k : nat) :
  (forall j x, l !! j = Some x -> is_ok (f (k + j)%nat x) = true) ->
  is_ok (rmapi_from k f l) = true.
Proof.
  revert k. induction l as [|x l IH]; intros k Hall; simpl; [reflexivity |].
  pose proof (Hall 0%nat x eq_refl) as Hx. rewrite Nat.add_0_r in Hx.
  destruct (f k x) as [y|e]; [| discriminate Hx]. simpl.
  assert (Hrest : is_ok (rmapi_from (S k) f l) = true).
  { apply IH. intros j x' Hj. specialize (Hall (S j) x' Hj).
    replace (S k + j)%nat with (k + S j)%nat by lia. exact Hall. }
  destruct (rmapi_from (S k) f l); [reflexivity | discriminate Hrest].
Qed.

(** Inside [getRpcBlock] a transaction is built from the block and its
    index, whatever [pending] is. *)
Lemma getRpcTransaction_position (tx : TypedTransaction) (block : Block.t)
    (index : nat) (out : RpcTransactionOutput.t) :
  getRpcTransaction tx (Some block) (Some index) = Ok out ->
  RpcTransactionOutput.transactionIndex out = Some (HexString.of_Z (Z.of_nat index)) /\
  RpcTransactionOutput.blockHash out = Some (bufferToRpcData (Block_hash block) None) /\
  RpcTransactionOutput.blockNumber out
  = Some (HexString.of_Z (BlockHeader.number (Block.header block))).
Proof.
  unfold getRpcTransaction. intros Hout.
  repeat (apply rbind_Ok in Hout; destruct Hout as [? [? Hout]]).
  injection Hout as <-. simpl.
  rewrite numberToRpcQuantity_of_nat in *.
  repeat match goal with
         | Hq : rbind ?r _ = Ok _ |- _ =>
             apply rbind_Ok in Hq; destruct Hq as [? [? Hq]]
         | Hq : numberToRpcQuantity _ = Ok _ |- _ =>
             apply numberToRpcQuantity_Ok in Hq; destruct Hq as [? ->]
         | Hq : Ok _ = Ok _ |- _ => injection Hq as <-
         end.
  auto.
Qed.

End BuilderProperties.

(** C4 as stated fails on a pending block with two transactions: the
    transactions carry their index, the block hash and the block number,
    and the header field [number] is null. *)
Lemma getRpcBlock_pending_counterexample :
  exists out txo rest,
    @getRpcBlock Fixtures.lib Fixtures.block 10 true true = Ok out /\
    RpcBlockOutput.hash out = None /\
    RpcBlockOutput.number out = None /\
    RpcBlockOutput.transactions out = inr (txo :: rest) /\
    RpcTransactionOutput.transactionIndex txo = Some "0x0" /\
    RpcTransactionOutput.blockHash txo = Some "0xbeef" /\
    RpcTransactionOutput.blockNumber txo = Some "0x7".
Proof.
  do 3 eexists. split; [reflexivity |]. simpl. repeat split; reflexivity.
Qed.

(** [getRpcBlock_pending] on the block of the examples, with transaction
    hashes only. *)
Lemma getRpcBlock_pending_witness :
  exists out,
    @getRpcBlock Fixtures.lib Fixtures.block 10 false true = Ok out /\
    RpcBlockOutput.number out = None /\
    RpcBlockOutput.hash out = None /\
    RpcBlockOutput.nonce out = None /\
    RpcBlockOutput.mixHash out = None /\
    RpcBlockOutput.logsBloom out = None /\
    RpcBlockOutput.parentHash out = "0x01" /\
    RpcBlockOutput.gasUsed out = "0xc738" /\
    RpcBlockOutput.transactions out = inl ["0xab00"; "0xab01"].
Proof.
  eexists. split.
  - apply (@getRpcBlock_pending Fixtures.lib Fixtures.block 10 false
             (inl ["0xab00"; "0xab01"])); simpl; try lia; reflexivity.
  - simpl. repeat split; reflexivity.
Defined.

(** ** Receipts *)

Section ReceiptProperties.
Context `{EthereumJs}.

(** The sum of the [gasUsed] fields of a list of VM receipts. *)
Local Abbreviation gas_sum l :=
  (foldr Z.add 0 (map (fun rc => BN_of_Buffer (TxReceipt.gasUsed rc)) l)).


Lemma gas_sum_snoc (l : list TxReceipt.t) (rc : TxReceipt.t) :
  gas_sum (l ++ [rc]) = gas_sum l + BN_of_Buffer (TxReceipt.gasUsed rc).
Proof. induction l as [|x l IH]; simpl; lia. Qed.

Lemma gas_sum_take_S (l : list TxReceipt.t) (i : nat) (rc : TxReceipt.t) :
  l !! i = Some rc ->
  gas_sum (take (S i) l) = gas_sum (take i l) + BN_of_Buffer (TxReceipt.gasUsed rc).
Proof. intros Hi. rewrite (take_S_r l i rc Hi). apply gas_sum_snoc. Qed.




Section WellFormed.
Variables (block : Block.t) (runBlockResult : RunBlockResult.t).
Let results := RunBlockResult.results runBlockResult.
Let receipts := RunBlockResult.receipts runBlockResult.
Let txs := Block.transactions block.

Hypothesis Hnumber : 0 <= BlockHeader.number (Block.header block).
Hypothesis Hsender :
  forall i tx, (i < length results)%nat -> txs !! i = Some tx ->
               is_ok (tx_getSenderAddress tx) = true.
Hypothesis HgasUsed :
  forall i res, results !! i = Some res -> 0 <= RunTxResult.gasUsed res.
Hypothesis Hstatus :
  forall i rc, (i < length results)%nat -> receipts !! i = Some rc ->
               exists st, TxReceipt.variant rc = TxReceipt.PostByzantium st /\ 0 <= st.



End WellFormed.
End ReceiptProperties.


(** The example of the specification: two transactions that used 21000
    and 30000 gas. *)
Example getRpcReceipts_two_transactions `{EthereumJs} :
  (let? out := getRpcReceipts Fixtures.block Fixtures.runBlockResult in
   Ok (map RpcReceiptOutput.cumulativeGasUsed out,
       map RpcReceiptOutput.gasUsed out,
       map RpcReceiptOutput.status out))%result
  = Ok (["0x5208"; "0xc738"], ["0x5208"; "0x7530"], ["0x1"; "0x1"]).
Proof. reflexivity. Qed.



(** ** The wrapper monad *)

Section MonadProperties.
Context {S A B : Type}.

Lemma bind_Ok (m : M S A) (k : A -> M S B) (st st' : S) (a : A) :
  m st = (Ok a, st') -> bind m k st = k a st'.
Proof. intros Hm. unfold bind. rewrite Hm. reflexivity. Qed.

Lemma bind_Err (m : M S A) (k : A -> M S B) (st st' : S) (e : Exn) :
  m st = (Err e, st') -> bind m k st = (Err e, st').
Proof. intros Hm. unfold bind. rewrite Hm. reflexivity. Qed.

End MonadProperties.

(** [m] leaves the heap as it found it. *)
Definition preserves_heap {F PS A} (m : M (State F PS) A) : Prop :=
  forall st, heap (snd (m st)) = heap st.

Section HeapPreservation.
Context {F PS : Type} `{EIP1193Provider PS}.

Lemma preserves_heap_ret {A} (a : A) : preserves_heap (F:=F) (PS:=PS) (ret a).
Proof. intros st. reflexivity. Qed.

Lemma preserves_heap_throw {A} (e : Exn) :
  preserves_heap (F:=F) (PS:=PS) (A:=A) (throw e).
Proof. intros st. reflexivity. Qed.

Lemma preserves_heap_lift {A} (r : Result A) : preserves_heap (F:=F) (PS:=PS) (lift r).
Proof. intros st. reflexivity. Qed.

Lemma preserves_heap_get_this : preserves_heap (F:=F) (PS:=PS) get_this.
Proof. intros st. reflexivity. Qed.

Lemma preserves_heap_set_this (f : F) : preserves_heap (PS:=PS) (set_this f).
Proof. intros st. reflexivity. Qed.

Lemma preserves_heap_get_heap : preserves_heap (F:=F) (PS:=PS) get_heap.
Proof. intros st. reflexivity. Qed.

Lemma preserves_heap_wrapped_request (o : Origin) (args : JsValue) :
  preserves_heap (F:=F) (wrapped_request o args).
Proof. intros st. reflexivity. Qed.

Lemma preserves_heap_bind {A B} (m : M (State F PS) A) (k : A -> M (State F PS) B) :
  preserves_heap m -> (forall a, preserves_heap (k a)) -> preserves_heap (bind m k).
Proof.
  intros Hm Hk st. unfold bind. specialize (Hm st).
  destruct (m st) as [[a|e] st']; simpl in Hm.
  - rewrite Hk. exact Hm.
  - exact Hm.
Qed.

Lemma preserves_heap_getParams (args : JsValue) :
  preserves_heap (F:=F) (PS:=PS) (_getParams args).
Proof.
  unfold _getParams.
  apply preserves_heap_bind; [apply preserves_heap_get_heap | intros h].
  apply preserves_heap_bind; [apply preserves_heap_lift | intros params].
  destruct (is_undefined params); [apply preserves_heap_ret |].
  destruct (array_elements h params);
    [apply preserves_heap_ret | apply preserves_heap_throw].
Qed.

Lemma preserves_heap_elements_of (params : JsValue) :
  preserves_heap (F:=F) (PS:=PS) (elements_of params).
Proof.
  unfold elements_of.
  apply preserves_heap_bind; [apply preserves_heap_get_heap | intros h].
  apply preserves_heap_ret.
Qed.

End HeapPreservation.

Create HintDb heap.
#[export] Hint Resolve preserves_heap_ret preserves_heap_throw preserves_heap_lift
  preserves_heap_get_this preserves_heap_set_this preserves_heap_get_heap
  preserves_heap_wrapped_request preserves_heap_getParams
  preserves_heap_elements_of : heap.

(** Walks down a computation built from [bind], case distinctions and the
    primitives. *)
Ltac preserves_heap :=
  repeat first
    [ progress auto with heap
    | apply preserves_heap_bind; [| intros ?]
    | match goal with
      | |- preserves_heap (match ?x with _ => _ end) => destruct x
      | |- preserves_heap (if ?b then _ else _) => destruct b
      end ].

(** ** [LocalAccountsProvider] *)

Section LocalAccountsProperties.
Context `{Collaborators} {PS : Type} `{EIP1193Provider PS}.
Import LocalAccountsProvider.

Lemma preserves_heap_request (args : JsValue) :
  preserves_heap (request (PS:=PS) args).
Proof.
  unfold request, request_eth_sign, request_eth_signTypedData,
    request_eth_sendTransaction, sign_and_send, _getNonce, _getChainId,
    _getPrivateKeyForAddress, _getSignedTransaction.
  preserves_heap.
Qed.

Lemma getParams_array {F} (st : State F PS) (args params : JsValue)
    (elems : list JsValue) :
  get (heap st) args "params" = Ok params ->
  array_elements (heap st) params = Some elems ->
  _getParams args st = (Ok params, st).
Proof.
  intros Hparams Helems. unfold _getParams, bind, get_heap, lift.
  rewrite Hparams.
  destruct params; simpl in *; try discriminate Helems; rewrite ?Helems; reflexivity.
Qed.

Lemma elements_of_array {F} (st : State F PS) (params : JsValue)
    (elems : list JsValue) :
  array_elements (heap st) params = Some elems ->
  elements_of params st = (Ok elems, st).
Proof.
  intros Helems. unfold elements_of, bind, get_heap, ret. rewrite Helems. reflexivity.
Qed.

(** An [eth_sendTransaction] request with at least one parameter reaches
    the signing branch. *)
Lemma request_reaches_sendTransaction (st : State t PS) (args params : JsValue)
    (elems : list JsValue) :
  get (heap st) args "method" = Ok (JString "eth_sendTransaction") ->
  get (heap st) args "params" = Ok params ->
  array_elements (heap st) params = Some elems ->
  elems <> [] ->
  request args st = request_eth_sendTransaction params st.
Proof.
  intros Hmethod Hparams Helems Hne.
  unfold request.
  rewrite (bind_Ok get_heap _ st st (heap st) eq_refl).
  rewrite (bind_Ok (lift _) _ st st _ (f_equal (fun r => (r, st)) Hmethod)).
  cbn [is_string String.eqb Ascii.eqb Bool.eqb orb andb].
  rewrite (bind_Ok _ _ st st params (getParams_array st args params elems Hparams Helems)).
  rewrite (bind_Ok (ret None) _ st st None eq_refl).
  rewrite (bind_Ok (ret None) _ st st None eq_refl).
  rewrite (bind_Ok _ _ st st elems (elements_of_array st params elems Helems)).
  destruct elems as [|x elems]; [contradiction |]. reflexivity.
Qed.

Lemma request_eth_sendTransaction_validated (st : State t PS) (params : JsValue)
    (elems : list JsValue) (txRequest : RpcTransactionRequest.t) :
  array_elements (heap st) params = Some elems ->
  validateParams_transactionRequest (heap st) elems = Ok txRequest ->
  request_eth_sendTransaction params st
  = match RpcTransactionRequest.gas txRequest with
    | None => throw (HardhatError (MISSING_TX_PARAM_TO_SIGN_LOCALLY "gas"))
    | Some _ =>
    match RpcTransactionRequest.from txRequest with
    | None => throw (HardhatError (MISSING_TX_PARAM_TO_SIGN_LOCALLY "from"))
    | Some from =>
    match RpcTransactionRequest.gasPrice txRequest with
    | None => throw (HardhatError (MISSING_TX_PARAM_TO_SIGN_LOCALLY "gasPrice"))
    | Some _ =>
        match RpcTransactionRequest.nonce txRequest with
        | None =>
            (nonce <- _getNonce from ;;
             sign_and_send (RpcTransactionRequest.set_nonce nonce txRequest) from)%wrapper
        | Some _ => sign_and_send txRequest from
        end
    end end end st.
Proof.
  intros Helems Hvalid. unfold request_eth_sendTransaction.
  rewrite (bind_Ok _ _ st st elems (elements_of_array st params elems Helems)).
  rewrite (bind_Ok get_heap _ st st (heap st) eq_refl).
  rewrite (bind_Ok (lift _) _ st st _ (f_equal (fun r => (r, st)) Hvalid)).
  reflexivity.
Qed.

(** C1. An [eth_sendTransaction] request whose validated transaction
    request lacks [gas], [from] or [gasPrice] fails with
    [MISSING_TX_PARAM_TO_SIGN_LOCALLY] naming a field that is missing (the
    first of the three in that order), and the state is the one before the
    request: nothing was sent to the wrapped provider. *)
Theorem missing_field_fails_before_any_call (st : State t PS)
    (args params : JsValue) (elems : list JsValue)
    (txRequest : RpcTransactionRequest.t) :
  get (heap st) args "method" = Ok (JString "eth_sendTransaction") ->
  get (heap st) args "params" = Ok params ->
  array_elements (heap st) params = Some elems ->
  elems <> [] ->
  validateParams_transactionRequest (heap st) elems = Ok txRequest ->
  RpcTransactionRequest.gas txRequest = None \/
  RpcTransactionRequest.from txRequest = None \/
  RpcTransactionRequest.gasPrice txRequest = None ->
  exists field,
    request args st = (Err (HardhatError (MISSING_TX_PARAM_TO_SIGN_LOCALLY field)), st) /\
    (field = "gas" /\ RpcTransactionRequest.gas txRequest = None \/
     field = "from" /\ RpcTransactionRequest.from txRequest = None \/
     field = "gasPrice" /\ RpcTransactionRequest.gasPrice txRequest = None) /\
    field = match RpcTransactionRequest.gas txRequest,
                  RpcTransactionRequest.from txRequest with
            | None, _ => "gas"
            | Some _, None => "from"
            | Some _, Some _ => "gasPrice"
            end.
Proof.
  intros Hmethod Hparams Helems Hne Hvalid Hmissing.
  rewrite (request_reaches_sendTransaction st args params elems Hmethod Hparams Helems Hne).
  rewrite (request_eth_sendTransaction_validated st params elems txRequest Helems Hvalid).
  destruct (RpcTransactionRequest.gas txRequest) as [g|] eqn:Hgas.
  - destruct (RpcTransactionRequest.from txRequest) as [f|] eqn:Hfrom.
    + destruct (RpcTransactionRequest.gasPrice txRequest) as [p|] eqn:Hprice.
      * destruct Hmissing as [Hm | [Hm | Hm]]; discriminate Hm.
      * exists "gasPrice". split; [reflexivity |]. split; [auto | reflexivity].
    + exists "from". split; [reflexivity |]. split; [auto | reflexivity].
  - exists "gas". split; [reflexivity |]. split; [auto | reflexivity].
Qed.

End LocalAccountsProperties.

Section LocalAccountsRegistry.
Context `{Collaborators}.
Import LocalAccountsProvider.

Lemma lower_idempotent (c : ascii) : lower (lower c) = lower c.
Proof. destruct c as [[] [] [] [] [] [] [] []]; reflexivity. Qed.

Lemma toLowerCase_idempotent (s : string) : toLowerCase (toLowerCase s) = toLowerCase s.
Proof.
  induction s as [|c s IH]; simpl; [reflexivity |].
  rewrite lower_idempotent, IH. reflexivity.
Qed.

Lemma Map_keys_set {V} (k : string) (v : V) (m : JsMap V) :
  Map_keys (Map_set k v m)
  = if decide (k ∈ Map_keys m) then Map_keys m else (Map_keys m ++ [k])%list.
Proof.
  induction m as [|[k' v'] m IH]; simpl.
  - destruct (decide (k ∈ [])) as [Hin|_]; [inversion Hin | reflexivity].
  - destruct (String.eqb_spec k' k) as [->|Hne]; simpl.
    + destruct (decide (k ∈ k :: Map_keys m)) as [_|Hnin]; [reflexivity |].
      exfalso. apply Hnin. left.
    + fold (Map_keys (Map_set k v m)). rewrite IH. fold (Map_keys m).
      destruct (decide (k ∈ Map_keys m)) as [Hin|Hnin];
        destruct (decide (k ∈ k' :: Map_keys m)) as [Hin'|Hnin']; try reflexivity.
      * exfalso. apply Hnin'. right. exact Hin.
      * exfalso. apply elem_of_cons in Hin'. destruct Hin' as [->|Hin']; auto.
Qed.

Lemma Map_get_set {V} (k a : string) (v : V) (m : JsMap V) :
  Map_get a (Map_set k v m) = if String.eqb k a then Some v else Map_get a m.
Proof.
  induction m as [|[k' v'] m IH]; simpl.
  - reflexivity.
  - destruct (String.eqb_spec k' k) as [->|Hne]; simpl.
    + destruct (String.eqb_spec k a); reflexivity.
    + rewrite IH. destruct (String.eqb_spec k' a) as [->|Hne'].
      * destruct (String.eqb_spec k a) as [->|_]; [contradiction | reflexivity].
      * reflexivity.
Qed.

Lemma Map_keys_get {V} (a : string) (m : JsMap V) :
  a ∈ Map_keys m <-> is_Some (Map_get a m).
Proof.
  induction m as [|[k v] m IH]; simpl.
  - split; [intros Hin; inversion Hin | intros [x Hx]; discriminate Hx].
  - fold (Map_keys m). rewrite elem_of_cons, IH.
    destruct (String.eqb_spec k a) as [->|Hne].
    + split; [eauto | auto].
    + split; [intros [->|Hs]; [contradiction | exact Hs] | auto].
Qed.

Lemma NoDup_Map_keys_set {V} (k : string) (v : V) (m : JsMap V) :
  NoDup (Map_keys m) -> NoDup (Map_keys (Map_set k v m)).
Proof.
  intros Hnd. rewrite Map_keys_set.
  destruct (decide (k ∈ Map_keys m)) as [Hin|Hnin]; [exact Hnd |].
  apply NoDup_app. split; [exact Hnd |]. split.
  - intros x Hx Hx'. apply list_elem_of_singleton in Hx'. subst x. contradiction.
  - apply NoDup_singleton.
Qed.

Lemma rmap_list_elem_of {A B} (f : A -> Result B) (l : list A) (l' : list B) :
  rmap_list f l = Ok l' ->
  forall y, y ∈ l' <-> exists x, x ∈ l /\ f x = Ok y.
Proof.
  revert l'. induction l as [|x l IH]; intros l' Hl'; simpl in Hl'.
  - injection Hl' as <-. intros y. split; [intros Hy; inversion Hy |].
    intros [x [Hx _]]. inversion Hx.
  - apply rbind_Ok in Hl'. destruct Hl' as [y0 [Hy0 Hl']].
    apply rbind_Ok in Hl'. destruct Hl' as [ys [Hys Hl']].
    injection Hl' as <-. intros y. rewrite elem_of_cons, (IH ys Hys y). split.
    + intros [->|[x' [Hx' Hf]]].
      * exists x. split; [left | exact Hy0].
      * exists x'. split; [right; exact Hx' | exact Hf].
    + intros [x' [Hx' Hf]]. apply elem_of_cons in Hx'. destruct Hx' as [->|Hx'].
      * left. congruence.
      * right. eauto.
Qed.

(** The address under which [_initializePrivateKeys] files a key. *)
Definition address_of (pk : Buffer) (address : string) : Prop :=
  exists raw, privateToAddress pk = Ok raw /\ address = toLowerCase (bufferToHex raw).

Lemma initializePrivateKeys_loop_spec (pks : list Buffer) (m m' : JsMap Buffer) :
  _initializePrivateKeys_loop pks m = Ok m' ->
  (NoDup (Map_keys m) -> NoDup (Map_keys m')) /\
  (forall a, a ∈ Map_keys m' <->
             a ∈ Map_keys m \/ exists pk, pk ∈ pks /\ address_of pk a) /\
  (forall a pk, Map_get a m' = Some pk ->
                Map_get a m = Some pk \/ (pk ∈ pks /\ address_of pk a)).
Proof.
  revert m m'. induction pks as [|pk pks IH]; intros m m' Hloop;
    cbn [_initializePrivateKeys_loop] in Hloop.
  - injection Hloop as <-. split; [auto |]. split; [| auto].
    intros a. split; [auto |]. intros [Ha|[pk [Hpk _]]]; [exact Ha | inversion Hpk].
  - apply rbind_Ok in Hloop. destruct Hloop as [raw [Hraw Hloop]].
    destruct (IH _ _ Hloop) as [Hnd [Hkeys Hget]].
    split; [| split].
    + intros Hm. apply Hnd. apply NoDup_Map_keys_set. exact Hm.
    + intros a. rewrite Hkeys, Map_keys_set. split.
      * intros [Ha|[pk' [Hpk' Haddr]]].
        -- destruct (decide (_ ∈ Map_keys m)) as [_|_]; [left; exact Ha |].
           apply elem_of_app in Ha. destruct Ha as [Ha|Ha]; [left; exact Ha |].
           apply list_elem_of_singleton in Ha. right. exists pk.
           split; [left | exists raw; auto].
        -- right. exists pk'. split; [right; exact Hpk' | exact Haddr].
      * intros [Ha|[pk' [Hpk' Haddr]]].
        -- left. destruct (decide (_ ∈ Map_keys m)); [exact Ha |].
           apply elem_of_app. left. exact Ha.
        -- apply elem_of_cons in Hpk'. destruct Hpk' as [->|Hpk'].
           ++ left. destruct Haddr as [raw' [Hraw' ->]].
              assert (raw' = raw) by congruence. subst raw'.
              destruct (decide (_ ∈ Map_keys m)) as [Hin|_]; [exact Hin |].
              apply elem_of_app. right. apply list_elem_of_singleton. reflexivity.
           ++ right. eauto.
    + intros a pk' Ha. destruct (Hget a pk' Ha) as [Hset|[Hpk' Haddr]].
      * rewrite Map_get_set in Hset.
        destruct (String.eqb_spec (toLowerCase (bufferToHex raw)) a) as [<-|_].
        -- injection Hset as <-. right. split; [left | exists raw; auto].
        -- left. exact Hset.
      * right. split; [right; exact Hpk' | exact Haddr].
Qed.

End LocalAccountsRegistry.

Section LocalAccountsRequests.
Context `{Collaborators} {PS : Type} `{EIP1193Provider PS}.
Import LocalAccountsProvider.

(** C6. On a wrapper constructed from the private keys [keys], a request
    with method [eth_accounts] or [eth_requestAccounts] returns an array of
    distinct addresses: exactly the lower-cased [bufferToHex] of
    [privateToAddress] of each key. Every address returned is in lower case
    and is filed in the registry with a key it is derived from. The state is
    the one before the request: nothing was sent to the wrapped provider. *)
Theorem eth_accounts_returns_registry (keys : list string) (self : t)
    (st : State t PS) (args : JsValue) (method : string) :
  constructor keys = Ok self ->
  _addressToPrivateKey (this st) = _addressToPrivateKey self ->
  get (heap st) args "method" = Ok (JString method) ->
  method = "eth_accounts" \/ method = "eth_requestAccounts" ->
  exists addresses,
    request args st = (Ok (JArray (map JString addresses)), st) /\
    NoDup addresses /\
    (forall a, a ∈ addresses <->
       exists key pk raw,
         key ∈ keys /\ toBuffer key = Ok pk /\ privateToAddress pk = Ok raw /\
         a = toLowerCase (bufferToHex raw)) /\
    (forall a, a ∈ addresses -> toLowerCase a = a) /\
    (forall a, a ∈ addresses ->
       exists pk raw,
         Map_get a (_addressToPrivateKey self) = Some pk /\
         privateToAddress pk = Ok raw /\ a = toLowerCase (bufferToHex raw)).
Proof.
  intros Hnew Hthis Hmethod Hacc.
  unfold constructor in Hnew.
  apply rbind_Ok in Hnew. destruct Hnew as [m [Hm Hnew]]. injection Hnew as <-.
  unfold _initializePrivateKeys in Hm.
  apply rbind_Ok in Hm. destruct Hm as [pks [Hpks Hloop]].
  destruct (initializePrivateKeys_loop_spec pks [] m Hloop) as [Hnd [Hkeys Hget]].
  pose proof (rmap_list_elem_of toBuffer keys pks Hpks) as Hdecoded.
  assert (Hiff : forall a, a ∈ Map_keys m <->
            exists key pk raw,
              key ∈ keys /\ toBuffer key = Ok pk /\ privateToAddress pk = Ok raw /\
              a = toLowerCase (bufferToHex raw)).
  { intros a. rewrite Hkeys. split.
    - intros [Ha|[pk [Hpk [raw [Hraw ->]]]]]; [inversion Ha |].
      apply Hdecoded in Hpk. destruct Hpk as [key [Hkey Hbuf]].
      exists key, pk, raw. auto.
    - intros [key [pk [raw [Hkey [Hbuf [Hraw ->]]]]]]. right.
      exists pk. split; [apply Hdecoded; eauto | exists raw; auto]. }
  exists (Map_keys m). split; [| split; [| split; [| split]]].
  - unfold request.
    rewrite (bind_Ok get_heap _ st st (heap st) eq_refl).
    rewrite (bind_Ok (lift _) _ st st _ (f_equal (fun r => (r, st)) Hmethod)).
    assert (Hb : is_string (JString method) "eth_accounts"
                 || is_string (JString method) "eth_requestAccounts" = true)
      by (destruct Hacc as [-> | ->]; reflexivity).
    rewrite Hb.
    rewrite (bind_Ok get_this _ st st (this st) eq_refl).
    rewrite Hthis. reflexivity.
  - apply Hnd. constructor.
  - exact Hiff.
  - intros a Ha. apply Hiff in Ha.
    destruct Ha as [key [pk [raw [_ [_ [_ ->]]]]]]. apply toLowerCase_idempotent.
  - intros a Ha. simpl.
    destruct (proj1 (Map_keys_get a m) Ha) as [pk Hpk].
    destruct (Hget a pk Hpk) as [Hempty|[_ [raw [Hraw ->]]]]; [discriminate Hempty |].
    exists pk, raw. auto.
Qed.

End LocalAccountsRequests.

Example constructor_of_alice :
  @LocalAccountsProvider.constructor Fixtures.collaborators [Fixtures.key_of_alice]
  = Ok Fixtures.local_accounts.
Proof. reflexivity. Qed.

(** [eth_accounts_returns_registry] on a wrapper that holds one key. *)
Lemma eth_accounts_returns_registry_witness :
  exists addresses,
    @LocalAccountsProvider.request Fixtures.collaborators nat
      (Fixtures.transport []) Fixtures.args
      (Fixtures.fresh Fixtures.local_accounts (Fixtures.bare_heap "eth_accounts"))
    = (Ok (JArray (map JString addresses)),
       Fixtures.fresh Fixtures.local_accounts (Fixtures.bare_heap "eth_accounts")) /\
    NoDup addresses /\
    forall a, a ∈ addresses -> toLowerCase a = a.
Proof.
  destruct (@eth_accounts_returns_registry Fixtures.collaborators nat
              (Fixtures.transport []) [Fixtures.key_of_alice] Fixtures.local_accounts
              (Fixtures.fresh Fixtures.local_accounts (Fixtures.bare_heap "eth_accounts"))
              Fixtures.args "eth_accounts")
    as [addresses [Hrequest [Hnd [_ [Hlower _]]]]].
  - reflexivity.
  - reflexivity.
  - vm_compute. reflexivity.
  - left. reflexivity.
  - exists addresses. split; [exact Hrequest |]. split; [exact Hnd | exact Hlower].
Defined.

Example eth_accounts_of_alice :
  fst (@LocalAccountsProvider.request Fixtures.collaborators nat
         (Fixtures.transport []) Fixtures.args
         (Fixtures.fresh Fixtures.local_accounts (Fixtures.bare_heap "eth_accounts")))
  = Ok (JArray [JString "0x30786131316365"]).
Proof. vm_compute. reflexivity. Qed.

(** ** Invariants of a wrapper and the calls it makes *)

(** [m] keeps the invariant [I] of the state, and every call it makes to
    the wrapped provider satisfies [P]; the calls made before stay as they
    are. *)
Definition maintains {F PS A} (I : State F PS -> Prop) (P : Call -> Prop)
    (m : M (State F PS) A) : Prop :=
  forall st, I st ->
    I (snd (m st)) /\
    exists new, calls (snd (m st)) = (calls st ++ new)%list /\ Forall P new.

Section Maintains.
Context {F PS : Type} `{EIP1193Provider PS}.
Variables (I : State F PS -> Prop) (P : Call -> Prop).

Lemma maintains_pure {A} (m : M (State F PS) A) :
  (forall st, snd (m st) = st) -> maintains I P m.
Proof.
  intros Hm st HI. rewrite Hm. split; [exact HI |].
  exists []. rewrite app_nil_r. split; [reflexivity | constructor].
Qed.

Lemma maintains_ret {A} (a : A) : maintains I P (ret a).
Proof. apply maintains_pure. reflexivity. Qed.

Lemma maintains_throw {A} (e : Exn) : maintains (A:=A) I P (throw e).
Proof. apply maintains_pure. reflexivity. Qed.

Lemma maintains_lift {A} (r : Result A) : maintains I P (lift r).
Proof. apply maintains_pure. reflexivity. Qed.

Lemma maintains_get_this : maintains I P get_this.
Proof. apply maintains_pure. reflexivity. Qed.

Lemma maintains_get_heap : maintains I P get_heap.
Proof. apply maintains_pure. reflexivity. Qed.

Lemma maintains_bind {A B} (m : M (State F PS) A) (k : A -> M (State F PS) B) :
  maintains I P m -> (forall a, maintains I P (k a)) -> maintains I P (bind m k).
Proof.
  intros Hm Hk st HI. unfold bind. destruct (Hm st HI) as [HI' [new [Hcalls Hnew]]].
  destruct (m st) as [[a|e] st']; simpl in HI', Hcalls.
  - destruct (Hk a st' HI') as [HI'' [new' [Hcalls' Hnew']]].
    split; [exact HI'' |].
    exists (new ++ new')%list. rewrite Hcalls', Hcalls, app_assoc.
    split; [reflexivity | apply Forall_app; auto].
  - split; [exact HI' |]. exists new. auto.
Qed.

Lemma maintains_getParams (args : JsValue) : maintains I P (_getParams args).
Proof.
  unfold _getParams.
  apply maintains_bind; [apply maintains_get_heap | intros h].
  apply maintains_bind; [apply maintains_lift | intros params].
  destruct (is_undefined params); [apply maintains_ret |].
  destruct (array_elements h params); [apply maintains_ret | apply maintains_throw].
Qed.

Lemma maintains_elements_of (params : JsValue) : maintains I P (elements_of params).
Proof.
  unfold elements_of.
  apply maintains_bind; [apply maintains_get_heap | intros h]. apply maintains_ret.
Qed.

(** The three ways to change the state need [I] to survive the change. *)
Lemma maintains_wrapped_request (o : Origin) (args : JsValue) :
  (forall st ps r, I st ->
     I (mkState (this st) (heap st) ps (calls st ++ [mkCall o args (heap st) r]))) ->
  (forall h r, P (mkCall o args h r)) ->
  maintains I P (wrapped_request o args).
Proof.
  intros HI HP st Hst. split; [apply HI; exact Hst |].
  eexists. split; [reflexivity |]. constructor; [apply HP | constructor].
Qed.

Lemma maintains_set_heap (h : Heap) :
  (forall st, I st -> I (mkState (this st) h (wrapped st) (calls st))) ->
  maintains I P (set_heap h).
Proof.
  intros HI st Hst. split; [apply HI; exact Hst |].
  exists []. simpl. rewrite app_nil_r. split; [reflexivity | constructor].
Qed.

Lemma maintains_set_this (f : F) :
  (forall st, I st -> I (mkState f (heap st) (wrapped st) (calls st))) ->
  maintains I P (set_this f).
Proof.
  intros HI st Hst. split; [apply HI; exact Hst |].
  exists []. simpl. rewrite app_nil_r. split; [reflexivity | constructor].
Qed.

End Maintains.

Create HintDb calls.
#[export] Hint Resolve maintains_ret maintains_throw maintains_lift maintains_get_this
  maintains_get_heap maintains_getParams maintains_elements_of : calls.

(** Walks down a computation; what is left are the changes of the state. *)
Ltac maintains :=
  repeat first
    [ progress auto with calls
    | apply maintains_bind; [| intros ?]
    | match goal with
      | |- maintains _ _ (match ?x with _ => _ end) => destruct x
      | |- maintains _ _ (if ?b then _ else _) => destruct b
      end ].

(** The method of the request of a call, as the wrapped provider saw it. *)
Definition method_of (c : Call) : Result JsValue :=
  get (heap_then c) (request_args c) "method".

Section NonceResolution.
Context `{Collaborators} {PS : Type} `{EIP1193Provider PS}.
Import LocalAccountsProvider.

(** Signing and sending asks for the chain id at most and sends the raw
    transaction; it never asks for a transaction count. *)
Lemma sign_and_send_issues (txRequest : RpcTransactionRequest.t) (from : Buffer) :
  maintains (PS:=PS) (fun _ => True)
    (fun c => method_of c <> Ok (JString "eth_getTransactionCount"))
    (sign_and_send txRequest from).
Proof.
  unfold sign_and_send, _getPrivateKeyForAddress, _getChainId, _getSignedTransaction.
  maintains;
    solve [ apply maintains_set_this; auto
          | apply maintains_wrapped_request;
            [auto | intros h r; unfold method_of; simpl; discriminate] ].
Qed.

(** What is left of the [eth_sendTransaction] branch once the query for the
    nonce has been answered with [answer]. *)
Definition sign_and_send_after (answer : Result JsValue)
    (txRequest : RpcTransactionRequest.t) (from : Buffer) : M (State t PS) JsValue :=
  (response <- lift answer ;;
   nonce <- lift (rpcQuantityToBN response) ;;
   sign_and_send (RpcTransactionRequest.set_nonce nonce txRequest) from)%wrapper.

(** With the key of the sender at hand and the chain id resolved, signing
    and sending hands the request as it stands to the signing library and
    sends the signed bytes in a new request. *)
Lemma sign_and_send_signed (st st' : State t PS) (txRequest : RpcTransactionRequest.t)
    (from privateKey : Buffer) (chainId : Z) :
  Map_get (bufferToHex from) (_addressToPrivateKey (this st)) = Some privateKey ->
  _getChainId st = (Ok chainId, st') ->
  sign_and_send txRequest from st
  = match sign_and_serialize txRequest (RpcTransactionRequest.gas txRequest)
            (match chains_names chainId with
             | Some _ => Common_chain chainId
             | None => Common_forCustomChain "mainnet" chainId chainId "istanbul"
             end) privateKey with
    | Ok rawTransaction =>
        wrapped_request Built
          (JObject [("method", JString "eth_sendRawTransaction");
                    ("params", JArray [JString (bufferToHex rawTransaction)])]) st'
    | Err e => (Err e, st')
    end.
Proof.
  intros Hkey Hchain. unfold sign_and_send.
  assert (Hpk : _getPrivateKeyForAddress from st = (Ok privateKey, st)).
  { unfold _getPrivateKeyForAddress.
    rewrite (bind_Ok get_this _ st st (this st) eq_refl). rewrite Hkey. reflexivity. }
  rewrite (bind_Ok _ _ st st privateKey Hpk).
  rewrite (bind_Ok _ _ st st' chainId Hchain).
  unfold _getSignedTransaction, bind, lift.
  destruct (sign_and_serialize _ _ _ _); reflexivity.
Qed.

(** C7. For an [eth_sendTransaction] request with [gas], [from] and
    [gasPrice]. Without a [nonce], the first thing sent to the wrapped
    provider is [eth_getTransactionCount] for the sender and ["pending"],
    and no other call of the request has that method. If the query fails or
    its answer is no quantity, the request fails the same way; otherwise the
    decoded answer is the nonce of the transaction that is signed: what the
    signing library gets is the request with that nonce and its other
    fields as they were. With a [nonce], the request is signed as it is,
    with the nonce supplied, and no call has that method. *)
Theorem nonce_resolved_by_one_query (st : State t PS) (args params : JsValue)
    (elems : list JsValue) (txRequest : RpcTransactionRequest.t)
    (gas gasPrice : BN) (from : Buffer) :
  get (heap st) args "method" = Ok (JString "eth_sendTransaction") ->
  get (heap st) args "params" = Ok params ->
  array_elements (heap st) params = Some elems ->
  elems <> [] ->
  validateParams_transactionRequest (heap st) elems = Ok txRequest ->
  RpcTransactionRequest.gas txRequest = Some gas ->
  RpcTransactionRequest.from txRequest = Some from ->
  RpcTransactionRequest.gasPrice txRequest = Some gasPrice ->
  let query :=
    JObject [("method", JString "eth_getTransactionCount");
             ("params", JArray [JString (bufferToHex from); JString "pending"])] in
  let asked := provider_request (wrapped st) (heap st) query in
  let st1 := mkState (this st) (heap st) (fst asked)
               (calls st ++ [mkCall Built query (heap st) (snd asked)]) in
  let common chainId :=
    match chains_names chainId with
    | Some _ => Common_chain chainId
    | None => Common_forCustomChain "mainnet" chainId chainId "istanbul"
    end in
  let send rawTransaction :=
    wrapped_request Built
      (JObject [("method", JString "eth_sendRawTransaction");
                ("params", JArray [JString (bufferToHex rawTransaction)])]) in
  match RpcTransactionRequest.nonce txRequest with
  | None =>
      (forall e, snd asked = Err e -> request args st = (Err e, st1)) /\
      (forall response e,
         snd asked = Ok response -> rpcQuantityToBN response = Err e ->
         request args st = (Err e, st1)) /\
      (forall response nonce privateKey chainId st2,
         snd asked = Ok response -> rpcQuantityToBN response = Ok nonce ->
         Map_get (bufferToHex from) (_addressToPrivateKey (this st)) = Some privateKey ->
         _getChainId st1 = (Ok chainId, st2) ->
         request args st
         = match sign_and_serialize
                   {| RpcTransactionRequest.from := Some from;
                      RpcTransactionRequest.to := RpcTransactionRequest.to txRequest;
                      RpcTransactionRequest.gas := Some gas;
                      RpcTransactionRequest.gasPrice := Some gasPrice;
                      RpcTransactionRequest.value := RpcTransactionRequest.value txRequest;
                      RpcTransactionRequest.data := RpcTransactionRequest.data txRequest;
                      RpcTransactionRequest.nonce := Some nonce |}
                   (Some gas) (common chainId) privateKey with
           | Ok rawTransaction => send rawTransaction st2
           | Err e => (Err e, st2)
           end) /\
      exists rest,
        calls (snd (request args st))
        = (calls st ++ mkCall Built query (heap st) (snd asked) :: rest)%list /\
        Forall (fun c => method_of c <> Ok (JString "eth_getTransactionCount")) rest
  | Some nonce =>
      (forall privateKey chainId st2,
         Map_get (bufferToHex from) (_addressToPrivateKey (this st)) = Some privateKey ->
         _getChainId st = (Ok chainId, st2) ->
         request args st
         = match sign_and_serialize
                   {| RpcTransactionRequest.from := Some from;
                      RpcTransactionRequest.to := RpcTransactionRequest.to txRequest;
                      RpcTransactionRequest.gas := Some gas;
                      RpcTransactionRequest.gasPrice := Some gasPrice;
                      RpcTransactionRequest.value := RpcTransactionRequest.value txRequest;
                      RpcTransactionRequest.data := RpcTransactionRequest.data txRequest;
                      RpcTransactionRequest.nonce := Some nonce |}
                   (Some gas) (common chainId) privateKey with
           | Ok rawTransaction => send rawTransaction st2
           | Err e => (Err e, st2)
           end) /\
      exists new,
        calls (snd (request args st)) = (calls st ++ new)%list /\
        Forall (fun c => method_of c <> Ok (JString "eth_getTransactionCount")) new
  end.
Proof.
  intros Hmethod Hparams Helems Hne Hvalid Hgas Hfrom Hprice query asked st1 common send.
  rewrite (request_reaches_sendTransaction st args params elems Hmethod Hparams Helems Hne).
  rewrite (request_eth_sendTransaction_validated st params elems txRequest Helems Hvalid).
  rewrite Hgas, Hfrom, Hprice.
  destruct (RpcTransactionRequest.nonce txRequest) as [nonce|] eqn:Hnonce.
  - split; [| apply sign_and_send_issues; exact Logic.I].
    intros privateKey chainId st2 Hkey Hchain.
    rewrite (sign_and_send_signed st st2 txRequest from privateKey chainId Hkey Hchain).
    rewrite Hgas. destruct txRequest; cbn in *. subst. reflexivity.
  - assert (Hquery : _getNonce from st
                     = (match snd asked with
                        | Ok response => rpcQuantityToBN response
                        | Err e => Err e
                        end, st1)).
    { unfold _getNonce, bind, wrapped_request, lift. fold query. fold asked.
      destruct (snd asked); reflexivity. }
    split; [| split; [| split]].
    + intros e He. rewrite He in Hquery. apply (bind_Err _ _ _ _ _ Hquery).
    + intros response e Hresponse He. rewrite Hresponse, He in Hquery.
      apply (bind_Err _ _ _ _ _ Hquery).
    + intros response nonce privateKey chainId st2 Hresponse Hdecoded Hkey Hchain.
      rewrite Hresponse, Hdecoded in Hquery.
      rewrite (bind_Ok _ _ st st1 nonce Hquery).
      rewrite (sign_and_send_signed st1 st2 _ from privateKey chainId Hkey Hchain).
      destruct txRequest; cbn in *. subst. reflexivity.
    + assert (Hrest : maintains (PS:=PS) (fun _ => True)
                (fun c => method_of c <> Ok (JString "eth_getTransactionCount"))
                (fun st' => sign_and_send_after (snd asked) txRequest from st')).
      { unfold sign_and_send_after.
        apply maintains_bind; [apply maintains_lift | intros response].
        apply maintains_bind; [apply maintains_lift | intros nonce].
        apply sign_and_send_issues. }
      assert (Heq : (nonce <- _getNonce from ;;
                     sign_and_send (RpcTransactionRequest.set_nonce nonce txRequest)
                       from)%wrapper st
                    = sign_and_send_after (snd asked) txRequest from st1).
      { unfold sign_and_send_after, _getNonce, bind, wrapped_request, lift.
        fold query. fold asked. fold st1.
        destruct (snd asked) as [response|e]; reflexivity. }
      rewrite Heq.
      destruct (Hrest st1 Logic.I) as [_ [rest [Hcalls Hforall]]].
      exists rest. rewrite Hcalls. subst st1. cbn [calls]. rewrite <- app_assoc.
      split; [reflexivity | exact Hforall].
Qed.

End NonceResolution.

(** [missing_field_fails_before_any_call] on
    [{ from, to, gasPrice: 1, nonce: 0 }], which has no [gas]. *)
Lemma missing_field_fails_before_any_call_witness :
  let st := Fixtures.fresh Fixtures.local_accounts
              (Fixtures.caller_heap "eth_sendTransaction"
                 (Fixtures.tx_to_sign None (Some 1) (Some 0))) in
  exists field,
    @LocalAccountsProvider.request Fixtures.collaborators nat
      (Fixtures.transport []) Fixtures.args st
    = (Err (HardhatError (MISSING_TX_PARAM_TO_SIGN_LOCALLY field)), st) /\
    field = "gas".
Proof.
  intros st.
  destruct (@missing_field_fails_before_any_call Fixtures.collaborators nat
              (Fixtures.transport []) st Fixtures.args (JRef 2) [JRef 3]
              {| RpcTransactionRequest.from := Some (Fixtures.bytes_of_string "0xa11ce");
                 RpcTransactionRequest.to := Some (Fixtures.bytes_of_string "0xb0b");
                 RpcTransactionRequest.gas := None;
                 RpcTransactionRequest.gasPrice := Some 1;
                 RpcTransactionRequest.value := None;
                 RpcTransactionRequest.data := None;
                 RpcTransactionRequest.nonce := Some 0 |})
    as [field [Hrequest [_ Hfield]]].
  - vm_compute. reflexivity.
  - vm_compute. reflexivity.
  - vm_compute. reflexivity.
  - discriminate.
  - vm_compute. reflexivity.
  - left. reflexivity.
  - exists field. split; [exact Hrequest | exact Hfield].
Defined.

(** [nonce_resolved_by_one_query] on
    [{ from, to, gas: 21000, gasPrice: 1 }], which has no [nonce]: the
    wrapped provider answers the query with 5, and the bytes sent start with
    the 5 that the stand-in for the signing library makes of the nonce. *)
Lemma nonce_resolved_by_one_query_witness :
  let st := Fixtures.fresh Fixtures.local_accounts
              (Fixtures.caller_heap "eth_sendTransaction"
                 (Fixtures.tx_to_sign (Some 21000) (Some 1) None)) in
  let out := @LocalAccountsProvider.request Fixtures.collaborators nat
               (Fixtures.transport []) Fixtures.args st in
  map request_args (calls (snd out))
  = [ JObject [("method", JString "eth_getTransactionCount");
               ("params", JArray [JString "0x30786131316365"; JString "pending"])];
      JObject [("method", JString "eth_chainId")];
      JObject [("method", JString "eth_sendRawTransaction");
               ("params", JArray [JString "0x0565633131617830"])] ] /\
  exists rest,
    calls (snd out)
    = mkCall Built
        (JObject [("method", JString "eth_getTransactionCount");
                  ("params", JArray [JString "0x30786131316365"; JString "pending"])])
        (heap st) (Ok (JNumber 5)) :: rest /\
    Forall (fun c => method_of c <> Ok (JString "eth_getTransactionCount")) rest.
Proof.
  intros st out.
  destruct (@nonce_resolved_by_one_query Fixtures.collaborators nat
              (Fixtures.transport []) st Fixtures.args (JRef 2) [JRef 3]
              {| RpcTransactionRequest.from := Some (Fixtures.bytes_of_string "0xa11ce");
                 RpcTransactionRequest.to := Some (Fixtures.bytes_of_string "0xb0b");
                 RpcTransactionRequest.gas := Some 21000;
                 RpcTransactionRequest.gasPrice := Some 1;
                 RpcTransactionRequest.value := None;
                 RpcTransactionRequest.data := None;
                 RpcTransactionRequest.nonce := None |}
              21000 1 (Fixtures.bytes_of_string "0xa11ce"))
    as [_ [_ [Hsigned [rest [Hcalls Hrest]]]]].
  - vm_compute. reflexivity.
  - vm_compute. reflexivity.
  - vm_compute. reflexivity.
  - discriminate.
  - vm_compute. reflexivity.
  - reflexivity.
  - reflexivity.
  - reflexivity.
  - split.
    + unfold out.
      rewrite (Hsigned (JNumber 5) 5
                 [101%N; 99%N; 49%N; 49%N; 97%N; 120%N; 48%N] 5
                 (mkState (LocalAccountsProvider.mk
                             (LocalAccountsProvider._addressToPrivateKey
                                Fixtures.local_accounts) (Some 5))
                    (heap st) 2%nat
                    (calls st ++
                     [mkCall Built
                        (JObject [("method", JString "eth_getTransactionCount");
                                  ("params", JArray [JString "0x30786131316365";
                                                     JString "pending"])])
                        (heap st) (Ok (JNumber 5));
                      mkCall Built (JObject [("method", JString "eth_chainId")])
                        (heap st) (Ok (JNumber 5))])));
        try (vm_compute; reflexivity).
    + exists rest. split; [exact Hcalls | exact Hrest].
Defined.

(** ** [SenderProvider] *)

Section SenderProperties.
Context {F PS : Type} `{EIP1193Provider PS} `{SenderProvider.Subclass F PS}.
Import SenderProvider.

Lemma getParams_state (args : JsValue) (st : State F PS) :
  snd (_getParams args st) = st.
Proof.
  unfold _getParams, bind, get_heap, lift.
  destruct (get (heap st) args "params") as [params|e]; [| reflexivity].
  destruct (is_undefined params); [reflexivity |].
  destruct (array_elements (heap st) params); reflexivity.
Qed.

Lemma first_of_array (h : Heap) (params : JsValue) (elems : list JsValue) :
  array_elements h params = Some elems ->
  first h params = Ok (default JUndefined (elems !! 0%nat)).
Proof. intros Helems. unfold first. rewrite Helems. reflexivity. Qed.

(** A request of one of the three methods whose transaction object has no
    [from] resolves a sender and then passes the request on. *)
Lemma request_without_from (st : State F PS) (args params tx : JsValue)
    (elems : list JsValue) (method : string) :
  get (heap st) args "method" = Ok (JString method) ->
  method = "eth_sendTransaction" \/ method = "eth_call" \/ method = "eth_estimateGas" ->
  get (heap st) args "params" = Ok params ->
  array_elements (heap st) params = Some elems ->
  elems !! 0%nat = Some tx ->
  is_undefined tx = false ->
  get (heap st) tx "from" = Ok JUndefined ->
  request args st
  = (fill_sender (JString method) tx ;; wrapped_request Forwarded args)%wrapper st.
Proof.
  intros Hmethod Hm Hparams Helems Htx Hdef Hfrom.
  unfold request.
  rewrite (bind_Ok get_heap _ st st (heap st) eq_refl).
  rewrite (bind_Ok (lift _) _ st st _ (f_equal (fun r => (r, st)) Hmethod)).
  rewrite (bind_Ok _ _ st st params (getParams_array st args params elems Hparams Helems)).
  assert (Hb : is_string (JString method) "eth_sendTransaction"
               || is_string (JString method) "eth_call"
               || is_string (JString method) "eth_estimateGas" = true)
    by (destruct Hm as [-> | [-> | ->]]; reflexivity).
  rewrite Hb.
  unfold bind at 1.
  rewrite (bind_Ok get_heap _ st st (heap st) eq_refl).
  rewrite (first_of_array _ _ _ Helems), Htx. cbn [default].
  rewrite (bind_Ok (lift (Ok tx)) _ st st tx eq_refl).
  rewrite Hdef. cbn [negb].
  rewrite (bind_Ok (lift _) _ st st _ (f_equal (fun r => (r, st)) Hfrom)).
  reflexivity.
Qed.

(** C8. A request with method [eth_sendTransaction], [eth_call] or
    [eth_estimateGas] whose first parameter is an object without [from]
    asks the subclass for a sender. If that yields an address, the address
    is written to [from] and the request is passed on; if it yields
    [undefined], [eth_sendTransaction] fails with
    [NO_REMOTE_ACCOUNT_AVAILABLE] and nothing is passed on, while
    [eth_call] and [eth_estimateGas] are passed on without a [from]; if
    it fails, the request fails the same way. *)
Theorem sender_injected_or_required (st : State F PS) (args params : JsValue)
    (elems : list JsValue) (method : string) (l : loc) (o : HeapObject) :
  get (heap st) args "method" = Ok (JString method) ->
  method = "eth_sendTransaction" \/ method = "eth_call" \/ method = "eth_estimateGas" ->
  get (heap st) args "params" = Ok params ->
  array_elements (heap st) params = Some elems ->
  elems !! 0%nat = Some (JRef l) ->
  heap st !! l = Some o ->
  get (heap st) (JRef l) "from" = Ok JUndefined ->
  heap (snd (_getSender st)) = heap st ->
  let resolved := _getSender st in
  match fst resolved with
  | Ok sender =>
      if is_undefined sender then
        if String.eqb method "eth_sendTransaction" then
          request args st
          = (Err (HardhatError NO_REMOTE_ACCOUNT_AVAILABLE), snd resolved)
        else
          request args st = wrapped_request Forwarded args (snd resolved) /\
          get (heap (snd resolved)) (JRef l) "from" = Ok JUndefined
      else
        let injected :=
          mkState (this (snd resolved))
            (<[l := mkHeapObject (elements o) (<["from" := sender]> (properties o))]>
               (heap st))
            (wrapped (snd resolved)) (calls (snd resolved)) in
        request args st = wrapped_request Forwarded args injected /\
        get (heap injected) (JRef l) "from" = Ok sender
  | Err e => request args st = (Err e, snd resolved)
  end.
Proof.
  intros Hmethod Hm Hparams Helems Htx Ho Hfrom Hheap resolved.
  rewrite (request_without_from st args params (JRef l) elems method
             Hmethod Hm Hparams Helems Htx eq_refl Hfrom).
  unfold fill_sender, bind. subst resolved.
  destruct (_getSender st) as [[sender|e] st1]; cbn [fst snd] in *; [| reflexivity].
  destruct (is_undefined sender); cbn [negb].
  - cbn [is_string]. destruct (String.eqb method "eth_sendTransaction").
    + reflexivity.
    + split; [reflexivity |]. rewrite Hheap. exact Hfrom.
  - unfold get_heap, lift, set, set_heap. rewrite Hheap, Ho.
    split; [reflexivity |].
    cbn [heap get]. rewrite lookup_insert_eq. cbn [properties].
    rewrite lookup_insert_eq. reflexivity.
Qed.

(** What a sender-default wrapper may do to the heap while it serves
    [args]: nothing, or write a sender to [from] of the object that is the
    first parameter of the request. *)
Definition only_from_written (args : JsValue) (st st' : State F PS) : Prop :=
  heap st' = heap st \/
  exists params l o sender,
    fst (_getParams args st) = Ok params /\
    first (heap st) params = Ok (JRef l) /\
    heap st !! l = Some o /\
    get (heap st) (JRef l) "from" = Ok JUndefined /\
    is_undefined sender = false /\
    heap st' = <[l := mkHeapObject (elements o) (<["from" := sender]> (properties o))]>
                 (heap st).

(** An invariant that the subclass keeps, that does not depend on the heap
    and that survives passing a request on, is kept by [request]. *)
Lemma request_maintains (I : State F PS -> Prop) (P : Call -> Prop) (args : JsValue) :
  maintains I P _getSender ->
  (forall st h, I st -> I (mkState (this st) h (wrapped st) (calls st))) ->
  (forall st ps r, I st ->
     I (mkState (this st) (heap st) ps
          (calls st ++ [mkCall Forwarded args (heap st) r]))) ->
  (forall h r, P (mkCall Forwarded args h r)) ->
  maintains I P (request args).
Proof.
  intros Hsender Hheap Hforward HP.
  unfold request, fill_sender.
  maintains;
    solve [ exact Hsender
          | apply maintains_set_heap; intros; apply Hheap; assumption
          | apply maintains_wrapped_request; assumption ].
Qed.

(** What serving [args] comes to, for a sender-default wrapper whose sender
    resolution sends only calls that satisfy [Q]: the caller's own request
    object is passed on, from a state in which at most the sender has been
    written to the caller's transaction object, and the outcome is the
    outcome of that call; or the request fails before anything is passed
    on, with the heap as it was. *)
Definition forwards_or_fails (Q : Call -> Prop) (args : JsValue) (st : State F PS)
    (out : Result JsValue * State F PS) : Prop :=
  (exists st1,
     out = wrapped_request Forwarded args st1 /\
     only_from_written args st st1 /\
     exists new, calls st1 = (calls st ++ new)%list /\ Forall Q new) \/
  (exists e st1,
     out = (Err e, st1) /\
     heap st1 = heap st /\
     exists new, calls st1 = (calls st ++ new)%list /\ Forall Q new).

Lemma request_forwards_or_fails (Q : Call -> Prop) (args : JsValue) (st : State F PS) :
  preserves_heap _getSender ->
  maintains (fun _ => True) Q _getSender ->
  forwards_or_fails Q args st (request args st).
Proof.
  intros Hheap Hcalls.
  assert (Hnone : exists new : list Call, calls st = (calls st ++ new)%list /\ Forall Q new).
  { exists []. rewrite app_nil_r. split; [reflexivity | constructor]. }
  assert (Hfail : forall e, forwards_or_fails Q args st (Err e, st)).
  { intros e. right. exists e, st. auto. }
  assert (Hpass : forwards_or_fails Q args st (wrapped_request Forwarded args st)).
  { left. exists st. split; [reflexivity |]. split; [left; reflexivity | exact Hnone]. }
  unfold request, bind at 1, get_heap.
  unfold bind at 1, lift.
  destruct (get (heap st) args "method") as [method|e]; [| apply Hfail].
  unfold bind at 1.
  pose proof (getParams_state args st) as Hst.
  destruct (_getParams args st) as [[params|e] st0] eqn:Hparams;
    cbn [snd] in Hst; subst st0; [| apply Hfail].
  unfold bind at 1.
  destruct (is_string method "eth_sendTransaction" || is_string method "eth_call"
            || is_string method "eth_estimateGas"); [| exact Hpass].
  unfold bind at 1. unfold bind at 1.
  destruct (first (heap st) params) as [tx|e] eqn:Htx; [| apply Hfail].
  destruct (is_undefined tx) eqn:Hdef; cbn [negb]; [exact Hpass |].
  unfold bind at 1.
  destruct (get (heap st) tx "from") as [from|e] eqn:Hfrom; [| apply Hfail].
  destruct (is_undefined from) eqn:Hundef; [| exact Hpass].
  unfold fill_sender, bind at 1.
  pose proof (Hheap st) as Hh.
  destruct (Hcalls st Logic.I) as [_ Hnew].
  destruct (_getSender st) as [[sender|e] st1]; cbn [snd] in Hh, Hnew.
  2: { right. exists e, st1. auto. }
  destruct (is_undefined sender) eqn:Hs; cbn [negb].
  - destruct (is_string method "eth_sendTransaction").
    + right. eexists _, st1. split; [reflexivity |]. auto.
    + left. exists st1. split; [reflexivity |]. split; [left; exact Hh | exact Hnew].
  - unfold bind at 1. unfold bind at 1. unfold get_heap, lift, set.
    assert (Hstop : forall e, forwards_or_fails Q args st (Err e, st1)).
    { intros e. right. exists e, st1. auto. }
    destruct tx; try apply Hstop.
    rewrite Hh.
    destruct (heap st !! l) as [o|] eqn:Ho; [| apply Hstop].
    left. eexists. split; [reflexivity |]. cbn [heap calls]. split; [| exact Hnew].
    right. exists params, l, o, sender. rewrite Hparams. cbn [fst].
    destruct from; try discriminate Hundef.
    repeat split; auto.
Qed.

End SenderProperties.

Lemma serve_maintains {F PS} (I : State F PS -> Prop) (P : Call -> Prop)
    (request : JsValue -> M (State F PS) JsValue) :
  (forall args, maintains I P (request args)) ->
  forall requests st, I st ->
    I (snd (serve request requests st)) /\
    exists new, calls (snd (serve request requests st)) = (calls st ++ new)%list /\
                Forall P new.
Proof.
  intros Hrequest requests. induction requests as [|args requests IH]; intros st HI.
  - simpl. split; [exact HI |]. exists []. rewrite app_nil_r. split; [reflexivity | constructor].
  - simpl. destruct (Hrequest args st HI) as [HI' [new [Hcalls Hnew]]].
    destruct (IH _ HI') as [HI'' [new' [Hcalls' Hnew']]].
    split; [exact HI'' |]. exists (new ++ new')%list.
    rewrite Hcalls', Hcalls, app_assoc. split; [reflexivity | apply Forall_app; auto].
Qed.

(** ** The two sender-default wrappers and the caller's request *)

Section Variants.
Context {PS : Type} `{EIP1193Provider PS}.

Lemma AutomaticSenderProvider_getSender_preserves_heap :
  preserves_heap (AutomaticSenderProvider.getSender (PS:=PS)).
Proof. unfold AutomaticSenderProvider.getSender. preserves_heap. Qed.

Lemma FixedSenderProvider_getSender_preserves_heap :
  preserves_heap (FixedSenderProvider.getSender (PS:=PS)).
Proof. unfold FixedSenderProvider.getSender. preserves_heap. Qed.

(** The only call that sender resolution makes in the first-account variant
    is its own [eth_accounts] query; the fixed variant makes none. *)
Lemma AutomaticSenderProvider_getSender_calls :
  maintains (PS:=PS) (fun _ => True)
    (fun c => origin c = Built /\
              request_args c = JObject [("method", JString "eth_accounts")])
    AutomaticSenderProvider.getSender.
Proof.
  unfold AutomaticSenderProvider.getSender.
  maintains;
    solve [ apply maintains_set_this; auto
          | apply maintains_wrapped_request; [auto | intros h r; simpl; auto] ].
Qed.

Lemma FixedSenderProvider_getSender_calls :
  maintains (PS:=PS) (fun _ => True) (fun _ => False) FixedSenderProvider.getSender.
Proof. unfold FixedSenderProvider.getSender. maintains. Qed.

(** The fixed variant always yields its address and asks nobody. *)
Lemma FixedSenderProvider_getSender (st : State FixedSenderProvider.t PS) :
  SenderProvider._getSender st
  = (Ok (JString (FixedSenderProvider._sender (this st))), st).
Proof. reflexivity. Qed.

End Variants.

(** Every request object that the local-accounts wrapper hands to the
    wrapped provider is the caller's own, passed on as it is, or an object
    literal of the wrapper. *)
Lemma LocalAccountsProvider_request_objects `{Collaborators} {PS : Type}
    `{EIP1193Provider PS} (args : JsValue) :
  maintains (F:=LocalAccountsProvider.t) (PS:=PS) (fun _ => True)
    (fun c => origin c = Forwarded /\ request_args c = args \/
              origin c = Built /\ exists props, request_args c = JObject props)
    (LocalAccountsProvider.request args).
Proof.
  unfold LocalAccountsProvider.request, LocalAccountsProvider.request_eth_sign,
    LocalAccountsProvider.request_eth_signTypedData,
    LocalAccountsProvider.request_eth_sendTransaction,
    LocalAccountsProvider.sign_and_send, LocalAccountsProvider._getNonce,
    LocalAccountsProvider._getChainId, LocalAccountsProvider._getPrivateKeyForAddress,
    LocalAccountsProvider._getSignedTransaction.
  maintains;
    solve [ apply maintains_set_this; auto
          | apply maintains_wrapped_request; [auto | intros h r; simpl; eauto] ].
Qed.

(** C3, as it holds. The local-accounts wrapper leaves the heap of the
    caller as it is, whatever the request, and what it sends on is the
    caller's request or a new object. A sender-default wrapper of either
    kind never sends a rewritten copy of the caller's request: it passes on
    the caller's own request object, after leaving the heap as it is or
    writing the sender to [from] of the caller's transaction object, in
    place, and the outcome is the outcome of that call; or it fails before
    anything is passed on, with the heap as it was. The only request object
    it builds is the [eth_accounts] query of the first-account variant; the
    fixed variant sends nothing of its own. *)
Theorem caller_request_mutation `{Collaborators} {PS : Type} `{EIP1193Provider PS} :
  (forall args (st : State LocalAccountsProvider.t PS),
     heap (snd (LocalAccountsProvider.request args st)) = heap st /\
     exists new,
       calls (snd (LocalAccountsProvider.request args st)) = (calls st ++ new)%list /\
       Forall (fun c => origin c = Forwarded /\ request_args c = args \/
                        origin c = Built /\ exists props, request_args c = JObject props)
         new) /\
  (forall args (st : State AutomaticSenderProvider.t PS),
     forwards_or_fails
       (fun c => origin c = Built /\
                 request_args c = JObject [("method", JString "eth_accounts")])
       args st (AutomaticSenderProvider.request args st)) /\
  (forall args (st : State FixedSenderProvider.t PS),
     forwards_or_fails (fun _ => False) args st (FixedSenderProvider.request args st)).
Proof.
  split; [| split].
  - intros args st. split; [apply preserves_heap_request |].
    apply (LocalAccountsProvider_request_objects args st Logic.I).
  - intros args st. apply request_forwards_or_fails.
    + apply AutomaticSenderProvider_getSender_preserves_heap.
    + apply AutomaticSenderProvider_getSender_calls.
  - intros args st. apply request_forwards_or_fails.
    + apply FixedSenderProvider_getSender_preserves_heap.
    + apply FixedSenderProvider_getSender_calls.
Qed.

(** C3 as stated fails: a fixed-sender wrapper that serves an [eth_call]
    without [from] writes its address into the caller's transaction
    object, and the request it passes on is the caller's own object. *)
Lemma sender_default_writes_to_caller_object :
  let st := Fixtures.fresh (FixedSenderProvider.constructor "0xf00")
              (Fixtures.caller_heap "eth_call" Fixtures.tx_without_from) in
  let out := @FixedSenderProvider.request nat (Fixtures.transport [])
               Fixtures.args st in
  get (heap st) (JRef 3) "from" = Ok JUndefined /\
  get (heap (snd out)) (JRef 3) "from" = Ok (JString "0xf00") /\
  map request_args (calls (snd out)) = [Fixtures.args] /\
  heap (snd out) <> heap st.
Proof.
  intros st out.
  assert (Hbefore : get (heap st) (JRef 3) "from" = Ok JUndefined)
    by (vm_compute; reflexivity).
  assert (Hafter : get (heap (snd out)) (JRef 3) "from" = Ok (JString "0xf00"))
    by (vm_compute; reflexivity).
  split; [exact Hbefore |]. split; [exact Hafter |].
  split; [vm_compute; reflexivity |].
  intros Heq. rewrite Heq, Hbefore in Hafter. discriminate Hafter.
Qed.

(** [sender_injected_or_required] on a fixed-sender wrapper and an
    [eth_sendTransaction] without [from]. *)
Lemma sender_injected_or_required_witness :
  let st := Fixtures.fresh (FixedSenderProvider.constructor "0xf00")
              (Fixtures.caller_heap "eth_sendTransaction" Fixtures.tx_without_from) in
  exists injected,
    @FixedSenderProvider.request nat (Fixtures.transport []) Fixtures.args st
    = wrapped_request (H:=Fixtures.transport []) Forwarded Fixtures.args injected /\
    get (heap injected) (JRef 3) "from" = Ok (JString "0xf00").
Proof.
  intros st.
  pose proof (@sender_injected_or_required FixedSenderProvider.t nat
                (Fixtures.transport []) FixedSenderProvider.getSender
                st Fixtures.args (JRef 2) [JRef 3] "eth_sendTransaction" 3%positive
                (mkHeapObject None Fixtures.tx_without_from)) as Hthm.
  cbv zeta in Hthm. rewrite FixedSenderProvider_getSender in Hthm.
  cbn [fst snd is_undefined] in Hthm.
  eexists. apply Hthm.
  - vm_compute. reflexivity.
  - left. reflexivity.
  - vm_compute. reflexivity.
  - vm_compute. reflexivity.
  - reflexivity.
  - vm_compute. reflexivity.
  - vm_compute. reflexivity.
  - reflexivity.
Defined.

(** ** [AutomaticSenderProvider]: the first account *)

(** The call asks for [eth_accounts]. *)
Definition is_accounts_query (c : Call) : bool :=
  match method_of c with
  | Ok method => is_string method "eth_accounts"
  | Err _ => false
  end.

(** The call is a query of the wrapper whose answer has a first element:
    the query that gives the wrapper its first account. *)
Definition obtained_account (c : Call) : bool :=
  match origin c, response c with
  | Built, Ok accounts =>
      match first (heap_then c) accounts with
      | Ok account => negb (is_undefined account)
      | Err _ => false
      end
  | _, _ => false
  end.

Definition count (f : Call -> bool) (cs : list Call) : nat :=
  length (List.filter f cs).

Lemma count_app (f : Call -> bool) (cs cs' : list Call) :
  count f (cs ++ cs') = (count f cs + count f cs')%nat.
Proof. unfold count. rewrite List.filter_app, length_app. reflexivity. Qed.

Section FirstAccount.
Context {PS : Type} `{EIP1193Provider PS}.
Import AutomaticSenderProvider.

(** With an account in the cache, [_getSender] returns it and changes
    nothing. *)
Lemma getSender_cached (st : State t PS) :
  is_undefined (_firstAccount (this st)) = false ->
  SenderProvider._getSender st = (Ok (_firstAccount (this st)), st).
Proof.
  intros Hcached. unfold SenderProvider._getSender, getSender.
  rewrite (bind_Ok get_this _ st st (this st) eq_refl).
  rewrite Hcached.
  rewrite (bind_Ok (ret tt) _ st st tt eq_refl).
  rewrite (bind_Ok get_this _ st st (this st) eq_refl).
  reflexivity.
Qed.

(** The cache holds [self], and this never changes. *)
Lemma getSender_maintains_cache (self : t) :
  is_undefined (_firstAccount self) = false ->
  maintains (PS:=PS) (fun st => this st = self) (fun c => origin c = Forwarded)
    SenderProvider._getSender.
Proof.
  intros Hcached st Hthis.
  rewrite getSender_cached by (rewrite Hthis; exact Hcached).
  split; [exact Hthis |]. exists []. rewrite app_nil_r. split; [reflexivity | constructor].
Qed.

(** At most one query has obtained an account, and none has as long as
    the cache is empty. *)
Definition one_account_obtained (st : State t PS) : Prop :=
  (is_undefined (_firstAccount (this st)) = true ->
   count obtained_account (calls st) = 0%nat) /\
  (count obtained_account (calls st) <= 1)%nat.

Lemma getSender_maintains_one_account :
  maintains (PS:=PS) one_account_obtained (fun _ => True) SenderProvider._getSender.
Proof.
  intros st [Hempty Hone].
  assert (Hcalls : forall new : list Call,
             exists new', (calls st ++ new)%list = (calls st ++ new')%list /\
                          Forall (fun _ : Call => True) new').
  { intros new. exists new. split; [reflexivity |]. apply Forall_forall. auto. }
  destruct (is_undefined (_firstAccount (this st))) eqn:Hcache.
  - specialize (Hempty eq_refl).
    unfold SenderProvider._getSender, getSender.
    rewrite (bind_Ok get_this _ st st (this st) eq_refl).
    rewrite Hcache.
    unfold bind, wrapped_request, get_heap, lift, set_this, get_this, ret.
    cbn [fst snd heap this calls wrapped].
    set (query := JObject [("method", JString "eth_accounts")]).
    destruct (provider_request (wrapped st) (heap st) query) as [ps [accounts|e]] eqn:Hq;
      cbn [fst snd].
    + destruct (first (heap st) accounts) as [account|e] eqn:Hfirst;
        cbn [fst snd this calls].
      * split; [| apply Hcalls].
        unfold one_account_obtained. cbn [this calls _firstAccount].
        rewrite count_app, Hempty. unfold count at 1 2.
        cbn [List.filter obtained_account origin response heap_then].
        rewrite Hfirst.
        destruct (is_undefined account); cbn [negb length]; split; auto; discriminate.
      * split; [| apply Hcalls].
        unfold one_account_obtained. cbn [this calls].
        rewrite count_app, Hempty. unfold count at 1 2.
        cbn [List.filter obtained_account origin response heap_then].
        rewrite Hfirst. cbn [length]. split; auto.
    + split; [| apply Hcalls].
      unfold one_account_obtained. cbn [this calls].
      rewrite count_app, Hempty. unfold count at 1 2.
      cbn [List.filter obtained_account origin response length]. split; auto.
  - rewrite getSender_cached by exact Hcache.
    cbn [snd].
    split; [split; [intros Hc; rewrite Hcache in Hc; discriminate Hc | exact Hone] |].
    exists []. rewrite app_nil_r. split; [reflexivity | constructor].
Qed.

Lemma one_account_obtained_forward (args : JsValue) (st : State t PS) (ps : PS)
    (r : Result JsValue) :
  one_account_obtained st ->
  one_account_obtained
    (mkState (this st) (heap st) ps (calls st ++ [mkCall Forwarded args (heap st) r])).
Proof.
  intros [Hempty Hone]. unfold one_account_obtained. cbn [this calls].
  rewrite count_app. unfold count at 2 4. cbn [List.filter obtained_account origin length].
  rewrite !Nat.add_0_r. split; assumption.
Qed.

(** Sender resolution that nothing interrupts is the two steps one after
    the other. *)
Lemma getSender_steps (st : State t PS) :
  SenderProvider._getSender st
  = (answer <- _getSender_send ;; _getSender_receive answer)%wrapper st.
Proof.
  unfold SenderProvider._getSender, getSender, _getSender_send, _getSender_receive.
  unfold bind, get_this, wrapped_request, lift, ret. cbn [fst snd this].
  destruct (is_undefined (_firstAccount (this st))); [| reflexivity].
  destruct (snd (provider_request (wrapped st) (heap st) _)); reflexivity.
Qed.

(** With an empty cache, sender resolution sends one query. An answer with
    a first element fills the cache with it; any other outcome leaves the
    cache empty. *)
Lemma getSender_empty (st : State t PS) :
  is_undefined (_firstAccount (this st)) = true ->
  let query := JObject [("method", JString "eth_accounts")] in
  let asked := provider_request (wrapped st) (heap st) query in
  let call := mkCall Built query (heap st) (snd asked) in
  let resolved := SenderProvider._getSender st in
  calls (snd resolved) = (calls st ++ [call])%list /\
  heap (snd resolved) = heap st /\
  (obtained_account call = true ->
   exists account,
     is_undefined account = false /\
     fst resolved = Ok account /\
     this (snd resolved) = mk account) /\
  (obtained_account call = false ->
   is_undefined (_firstAccount (this (snd resolved))) = true) /\
  (forall e, snd asked = Err e ->
             resolved = (Err e, mkState (this st) (heap st) (fst asked)
                                  (calls st ++ [call]))).
Proof.
  intros Hempty query asked call resolved. subst resolved.
  unfold SenderProvider._getSender, getSender.
  rewrite (bind_Ok get_this _ st st (this st) eq_refl).
  rewrite Hempty.
  unfold bind, wrapped_request, get_heap, lift, set_this, get_this, ret.
  cbn [fst snd heap this calls wrapped]. fold query. fold asked. fold call.
  unfold obtained_account. cbn [origin response heap_then call].
  destruct (snd asked) as [accounts|e]; cbn [fst snd calls heap this].
  - destruct (first (heap st) accounts) as [account|e]; cbn [fst snd calls heap this].
    + split; [reflexivity |]. split; [reflexivity |].
      destruct (is_undefined account) eqn:Haccount; cbn [negb _firstAccount].
      * split; [discriminate |]. split; [intros _; exact Haccount | discriminate].
      * split; [intros _; exists account; auto |]. split; discriminate.
    + split; [reflexivity |]. split; [reflexivity |].
      split; [discriminate |]. split; [intros _; exact Hempty | discriminate].
  - split; [reflexivity |]. split; [reflexivity |].
    split; [discriminate |]. split; [intros _; exact Hempty |].
    intros e' He. injection He as <-. reflexivity.
Qed.

(** The first step of sender resolution on an empty cache: the query is
    sent and the cache is left alone. *)
Lemma getSender_send_empty (st : State t PS) :
  is_undefined (_firstAccount (this st)) = true ->
  let query := JObject [("method", JString "eth_accounts")] in
  let asked := provider_request (wrapped st) (heap st) query in
  _getSender_send st
  = (Ok (Some (snd asked)),
     mkState (this st) (heap st) (fst asked)
       (calls st ++ [mkCall Built query (heap st) (snd asked)])).
Proof.
  intros Hempty query asked. unfold _getSender_send.
  rewrite (bind_Ok get_this _ st st (this st) eq_refl). rewrite Hempty. reflexivity.
Qed.

(** C9, as it holds. With an account in the cache, sender resolution
    returns it and sends nothing. From then on, whatever requests the
    wrapper serves, the cache stays as it is and every call to the wrapped
    provider is a request of the caller passed on. Over the life of a
    wrapper that serves its requests one after the other, at most one of its
    queries obtains an account. With an empty cache, sender resolution sends
    one query; if the query fails or its answer has no first element, the
    cache stays empty and the next sender resolution sends the query again.
    Sender resolution is two steps with an [await] between them, and a
    second resolution that starts before the first has its answer finds the
    cache empty and sends a query of its own. *)
Theorem first_account_cached :
  (forall st : State t PS,
     is_undefined (_firstAccount (this st)) = false ->
     SenderProvider._getSender st = (Ok (_firstAccount (this st)), st)) /\
  (forall (requests : list JsValue) (st : State t PS),
     is_undefined (_firstAccount (this st)) = false ->
     this (snd (serve request requests st)) = this st /\
     exists new,
       calls (snd (serve request requests st)) = (calls st ++ new)%list /\
       Forall (fun c => origin c = Forwarded) new) /\
  (forall (requests : list JsValue) (st : State t PS),
     this st = constructor ->
     calls st = [] ->
     (count obtained_account (calls (snd (serve request requests st))) <= 1)%nat) /\
  (forall st : State t PS,
     is_undefined (_firstAccount (this st)) = true ->
     let query := JObject [("method", JString "eth_accounts")] in
     let asked := provider_request (wrapped st) (heap st) query in
     let call := mkCall Built query (heap st) (snd asked) in
     let st' := snd (SenderProvider._getSender st) in
     calls st' = (calls st ++ [call])%list /\
     (obtained_account call = true ->
      exists account,
        is_undefined account = false /\
        fst (SenderProvider._getSender st) = Ok account /\
        this st' = mk account) /\
     (forall e, snd asked = Err e ->
        SenderProvider._getSender st
        = (Err e, mkState (this st) (heap st) (fst asked) (calls st ++ [call]))) /\
     (obtained_account call = false ->
      is_undefined (_firstAccount (this st')) = true /\
      exists again,
        calls (snd (SenderProvider._getSender st')) = (calls st ++ [call; again])%list /\
        origin again = Built /\ request_args again = query)) /\
  (forall st : State t PS,
     SenderProvider._getSender st
     = (answer <- _getSender_send ;; _getSender_receive answer)%wrapper st) /\
  (forall st : State t PS,
     is_undefined (_firstAccount (this st)) = true ->
     let query := JObject [("method", JString "eth_accounts")] in
     let first_sent := _getSender_send st in
     let second_sent := _getSender_send (snd first_sent) in
     exists r1 r2 h1 h2,
       fst first_sent = Ok (Some r1) /\
       fst second_sent = Ok (Some r2) /\
       calls (snd second_sent)
       = (calls st ++ [mkCall Built query h1 r1; mkCall Built query h2 r2])%list).
Proof.
  split; [exact getSender_cached | split; [| split; [| split; [| split]]]].
  - intros requests st Hcached.
    apply (serve_maintains (fun st' => this st' = this st) (fun c => origin c = Forwarded)
             request); [| reflexivity].
    intros args. apply request_maintains.
    + apply getSender_maintains_cache. exact Hcached.
    + intros st' h Hst'. exact Hst'.
    + intros st' ps r Hst'. exact Hst'.
    + intros h r. reflexivity.
  - intros requests st Hnew Hcalls.
    apply (serve_maintains one_account_obtained (fun _ => True) request).
    + intros args. apply request_maintains.
      * apply getSender_maintains_one_account.
      * intros st' h Hst'. exact Hst'.
      * intros st' ps r Hst'. apply one_account_obtained_forward. exact Hst'.
      * intros h r. exact Logic.I.
    + unfold one_account_obtained. rewrite Hcalls. cbn. split; auto.
  - intros st Hempty query asked call st'.
    destruct (getSender_empty st Hempty) as (Hcalls & Hheap & Hobtained & Hnone & Hfailed).
    fold query asked call st' in Hcalls, Hheap, Hobtained, Hnone, Hfailed.
    split; [exact Hcalls |]. split; [exact Hobtained |]. split; [exact Hfailed |].
    intros Hnot. specialize (Hnone Hnot). split; [exact Hnone |].
    destruct (getSender_empty st' Hnone) as (Hcalls' & _).
    cbv zeta in Hcalls'. rewrite Hcalls', Hcalls, <- app_assoc.
    eexists. split; [reflexivity |]. split; reflexivity.
  - exact getSender_steps.
  - intros st Hempty query first_sent second_sent.
    subst first_sent second_sent.
    rewrite (getSender_send_empty st Hempty). cbn [fst snd].
    rewrite getSender_send_empty by exact Hempty. cbn [fst snd heap wrapped calls].
    do 4 eexists. split; [reflexivity |]. split; [reflexivity |].
    rewrite <- app_assoc. reflexivity.
Qed.

End FirstAccount.

(** C9 as stated fails: when the wrapped provider has no accounts, each
    of two [eth_call] requests without [from] sends an [eth_accounts]
    query. *)
Lemma first_account_queried_again :
  let st := Fixtures.fresh AutomaticSenderProvider.constructor
              (Fixtures.caller_heap "eth_call" Fixtures.tx_without_from) in
  let out := serve (@AutomaticSenderProvider.request nat (Fixtures.transport []))
               [Fixtures.args; Fixtures.args] st in
  count is_accounts_query (calls (snd out)) = 2%nat /\
  map origin (calls (snd out)) = [Built; Forwarded; Built; Forwarded] /\
  ~ (count is_accounts_query (calls (snd out)) <= 1)%nat.
Proof.
  intros st out.
  assert (Hcount : count is_accounts_query (calls (snd out)) = 2%nat)
    by (vm_compute; reflexivity).
  split; [exact Hcount |]. split; [vm_compute; reflexivity |].
  rewrite Hcount. lia.
Qed.

(** With an account to be had, one query is enough for two requests. *)
Example first_account_queried_once :
  let st := Fixtures.fresh AutomaticSenderProvider.constructor Fixtures.two_callers_heap in
  let out := serve (@AutomaticSenderProvider.request nat (Fixtures.transport ["0xa11ce"]))
               [JRef 1; JRef 4] st in
  map origin (calls (snd out)) = [Built; Forwarded; Forwarded] /\
  get (heap (snd out)) (JRef 3) "from" = Ok (JString "0xa11ce") /\
  get (heap (snd out)) (JRef 6) "from" = Ok (JString "0xa11ce").
Proof. vm_compute. auto. Qed.

(** Two resolutions that overlap on a wrapped provider that has an account:
    both send the query, and both queries obtain the account. *)
Example first_account_obtained_twice :
  let st := Fixtures.fresh AutomaticSenderProvider.constructor Fixtures.two_callers_heap in
  let send := @AutomaticSenderProvider._getSender_send nat
                (Fixtures.transport ["0xa11ce"]) in
  let out := (a <- send ;;
              b <- send ;;
              x <- AutomaticSenderProvider._getSender_receive a ;;
              y <- AutomaticSenderProvider._getSender_receive b ;;
              ret (x, y))%wrapper st in
  fst out = Ok (JString "0xa11ce", JString "0xa11ce") /\
  count is_accounts_query (calls (snd out)) = 2%nat /\
  count obtained_account (calls (snd out)) = 2%nat.
Proof. vm_compute. auto. Qed.

(** [first_account_cached] on a wrapper that holds an account, and on two
    requests served one after the other by a new wrapper whose wrapped
    provider has an account: one query obtains it. *)
Lemma first_account_cached_witness :
  let st := Fixtures.fresh (AutomaticSenderProvider.mk (JString "0xa11ce"))
              (Fixtures.caller_heap "eth_call" Fixtures.tx_without_from) in
  let served :=
    serve (@AutomaticSenderProvider.request nat (Fixtures.transport ["0xa11ce"]))
      [JRef 1; JRef 4]
      (Fixtures.fresh AutomaticSenderProvider.constructor Fixtures.two_callers_heap) in
  @SenderProvider._getSender _ _ (@AutomaticSenderProvider.getSender nat
                                    (Fixtures.transport []))
    st = (Ok (JString "0xa11ce"), st) /\
  (count obtained_account (calls (snd served)) <= 1)%nat /\
  count obtained_account (calls (snd served)) = 1%nat /\
  count is_accounts_query (calls (snd served)) = 1%nat.
Proof.
  intros st served.
  destruct (@first_account_cached nat (Fixtures.transport [])) as [Hcached _].
  destruct (@first_account_cached nat (Fixtures.transport ["0xa11ce"]))
    as [_ [_ [Hlife _]]].
  split; [| split; [| split]].
  - apply (Hcached st). reflexivity.
  - apply Hlife; reflexivity.
  - vm_compute. reflexivity.
  - vm_compute. reflexivity.
Defined.

(* ===================================================================== *)
(** * More properties of the builders *)
(* ===================================================================== *)

Section MoreBuilderProperties.
Context `{EthereumJs}.

Lemma getRpcTransaction_signed (tx : TypedTransaction) (block : option Block.t)
    (index : option nat) (out : RpcTransactionOutput.t) :
  getRpcTransaction tx block index = Ok out ->
  is_Some (Transaction.v (fields tx)) /\
  is_Some (Transaction.r (fields tx)) /\
  is_Some (Transaction.s (fields tx)).
Proof.
  unfold getRpcTransaction. intros Hout.
  destruct (Transaction.v (fields tx)); [| discriminate Hout].
  destruct (Transaction.r (fields tx)); [| discriminate Hout].
  destruct (Transaction.s (fields tx)); [| discriminate Hout].
  repeat split; eexists; reflexivity.
Qed.

(** What a transaction output says of the transaction itself. *)
Lemma getRpcTransaction_content (tx : TypedTransaction) (block : option Block.t)
    (index : option nat) (out : RpcTransactionOutput.t) :
  getRpcTransaction tx block index = Ok out ->
  RpcTransactionOutput.hash out = bufferToRpcData (tx_hash tx) None /\
  RpcTransactionOutput.input out = bufferToRpcData (Transaction.data (fields tx)) None /\
  RpcTransactionOutput.to out
  = (fun a => bufferToRpcData a None) <$> Transaction.to (fields tx) /\
  RpcTransactionOutput.nonce out = HexString.of_Z (Transaction.nonce (fields tx)).
Proof.
  unfold getRpcTransaction. intros Hout.
  repeat (apply rbind_Ok in Hout; destruct Hout as [? [? Hout]]).
  injection Hout as <-. cbn.
  repeat match goal with
         | Hq : numberToRpcQuantity _ = Ok _ |- _ =>
             apply numberToRpcQuantity_Ok in Hq; destruct Hq as [? ->]
         end.
  auto.
Qed.

(** A block output with full transactions has one transaction output per
    transaction of the block, in the order of the block: the output at
    position [i] is what [getRpcTransaction] makes of the transaction at
    position [i], the block and [i]. It has the hash, the input, the
    recipient and the nonce of that transaction and carries the index [i],
    the hash of the block and its number, whether the block is pending or
    not; every transaction of the block is signed. *)
Theorem getRpcBlock_full_transactions (block : Block.t) (totalDifficulty : BN)
    (pending : bool) (out : RpcBlockOutput.t) :
  getRpcBlock block totalDifficulty true pending = Ok out ->
  exists txs,
    RpcBlockOutput.transactions out = inr txs /\
    length txs = length (Block.transactions block) /\
    forall i tx, Block.transactions block !! i = Some tx ->
      exists txo,
        txs !! i = Some txo /\
        getRpcTransaction tx (Some block) (Some i) = Ok txo /\
        RpcTransactionOutput.hash txo = bufferToRpcData (tx_hash tx) None /\
        RpcTransactionOutput.input txo
        = bufferToRpcData (Transaction.data (fields tx)) None /\
        RpcTransactionOutput.to txo
        = (fun a => bufferToRpcData a None) <$> Transaction.to (fields tx) /\
        RpcTransactionOutput.nonce txo = HexString.of_Z (Transaction.nonce (fields tx)) /\
        is_Some (Transaction.v (fields tx)) /\
        is_Some (Transaction.r (fields tx)) /\
        is_Some (Transaction.s (fields tx)) /\
        RpcTransactionOutput.transactionIndex txo = Some (HexString.of_Z (Z.of_nat i)) /\
        RpcTransactionOutput.blockHash txo
        = Some (bufferToRpcData (Block_hash block) None) /\
        RpcTransactionOutput.blockNumber txo
        = Some (HexString.of_Z (BlockHeader.number (Block.header block))).
Proof.
  unfold getRpcBlock. intros Hout.
  apply rbind_Ok in Hout. destruct Hout as [transactions [Htxs Hout]].
  assert (Hfield : RpcBlockOutput.transactions out = transactions).
  { repeat (apply rbind_Ok in Hout; destruct Hout as [? [? Hout]]).
    injection Hout as <-. reflexivity. }
  clear Hout. unfold getRpcBlock_transactions in Htxs.
  apply rbind_Ok in Htxs. destruct Htxs as [txs [Hmap Htxs]]. injection Htxs as <-.
  apply rmapi_from_lookup in Hmap. destruct Hmap as [Hlen Hmap].
  exists txs. split; [exact Hfield |]. split; [exact Hlen |].
  intros i tx Hi.
  destruct (lookup_lt_is_Some_2 txs i) as [txo Htxo].
  { rewrite Hlen. apply lookup_lt_Some with tx. exact Hi. }
  destruct (Hmap i txo Htxo) as [tx' [Htx' Hbuilt]].
  rewrite Hi in Htx'. injection Htx' as <-. cbn [Nat.add] in Hbuilt.
  exists txo. split; [exact Htxo |]. split; [exact Hbuilt |].
  destruct (getRpcTransaction_content _ _ _ _ Hbuilt) as (Hhash & Hinput & Hto & Hnonce).
  destruct (getRpcTransaction_signed _ _ _ _ Hbuilt) as (Hv & Hr & Hs).
  destruct (getRpcTransaction_position _ _ _ _ Hbuilt) as (Hindex & Hbh & Hbn).
  repeat (split; [assumption |]). assumption.
Qed.

Lemma length_hex_of_bytes (b : Buffer) :
  String.length (hex_of_bytes b) = (2 * length b)%nat.
Proof.
  induction b as [|x b IH]; [reflexivity |].
  change (String.length (hex_of_bytes (x :: b)))
    with (S (S (String.length (hex_of_bytes b)))).
  rewrite IH. simpl. lia.
Qed.

Lemma length_bufferToRpcData (b : Buffer) (pad : nat) :
  String.length (bufferToRpcData b (Some pad)) = (2 + 2 * Nat.max pad (length b))%nat.
Proof.
  unfold bufferToRpcData, padToLength.
  change (String.length ("0x" ++ ?s)) with (S (S (String.length s))).
  rewrite length_hex_of_bytes, length_app, repeat_length.
  lia.
Qed.

(** The output of a block that is not pending has [number], [hash] and
    [logsBloom], a [nonce] of at least 8 bytes and a [mixHash] of at least
    32 bytes: shorter header values are padded, so that the strings have
    18 and 66 characters. *)
Theorem getRpcBlock_mined_fixed_width (block : Block.t) (totalDifficulty : BN)
    (includeTransactions : bool) (out : RpcBlockOutput.t) :
  getRpcBlock block totalDifficulty includeTransactions false = Ok out ->
  let h := Block.header block in
  RpcBlockOutput.number out = Some (HexString.of_Z (BlockHeader.number h)) /\
  RpcBlockOutput.hash out = Some (bufferToRpcData (Block_hash block) None) /\
  RpcBlockOutput.logsBloom out = Some (bufferToRpcData (BlockHeader.bloom h) None) /\
  exists nonce mixHash,
    RpcBlockOutput.nonce out = Some nonce /\
    RpcBlockOutput.mixHash out = Some mixHash /\
    String.length nonce = (2 + 2 * Nat.max 8 (length (BlockHeader.nonce h)))%nat /\
    String.length mixHash = (2 + 2 * Nat.max 32 (length (BlockHeader.mixHash h)))%nat.
Proof.
  intros Hout h. subst h. unfold getRpcBlock in Hout.
  repeat (apply rbind_Ok in Hout; destruct Hout as [? [? Hout]]).
  injection Hout as <-. cbn.
  match goal with
  | Hq : rbind _ _ = Ok _ |- _ =>
      apply rbind_Ok in Hq; destruct Hq as [q [Hq Hq']]; injection Hq' as <-;
      apply numberToRpcQuantity_Ok in Hq; destruct Hq as [_ ->]
  end.
  split; [reflexivity |]. split; [reflexivity |]. split; [reflexivity |].
  do 2 eexists. split; [reflexivity |]. split; [reflexivity |].
  split; apply length_bufferToRpcData.
Qed.

(** A fake-sender transaction can be made of a decoded RPC transaction
    whose recipient, if any, has 20 bytes and whose numbers the library
    takes, and it gives that transaction back when it is built as a pending
    transaction: the same gas, gas price, nonce, value, input, recipient
    and [v], [r], [s] (the placeholders do not displace them), no position,
    and as [from] the sender it was given. *)
Theorem rpcToTxData_round_trip (sender : Buffer) (rpcTransaction : RpcTransaction.t) :
  0 <= RpcTransaction.gas rpcTransaction <= MAX_INTEGER ->
  0 <= RpcTransaction.gasPrice rpcTransaction <= MAX_INTEGER ->
  0 <= RpcTransaction.nonce rpcTransaction <= MAX_INTEGER ->
  0 <= RpcTransaction.value rpcTransaction <= MAX_INTEGER ->
  0 <= RpcTransaction.v rpcTransaction ->
  0 <= RpcTransaction.r rpcTransaction <= MAX_INTEGER ->
  0 <= RpcTransaction.s rpcTransaction <= MAX_INTEGER ->
  (forall a, RpcTransaction.to rpcTransaction = Some a -> length a = 20%nat) ->
  exists tx,
    FakeSenderTransaction.constructor sender (Some (rpcToTxData rpcTransaction)) = Ok tx /\
    getRpcTransaction (FakeSender tx) None None
    = Ok {| RpcTransactionOutput.blockHash := None;
            RpcTransactionOutput.blockNumber := None;
            RpcTransactionOutput.from := bufferToRpcData sender None;
            RpcTransactionOutput.gas := HexString.of_Z (RpcTransaction.gas rpcTransaction);
            RpcTransactionOutput.gasPrice :=
              HexString.of_Z (RpcTransaction.gasPrice rpcTransaction);
            RpcTransactionOutput.hash := bufferToRpcData (tx_hash (FakeSender tx)) None;
            RpcTransactionOutput.input :=
              bufferToRpcData (RpcTransaction.input rpcTransaction) None;
            RpcTransactionOutput.nonce :=
              HexString.of_Z (RpcTransaction.nonce rpcTransaction);
            RpcTransactionOutput.r := HexString.of_Z (RpcTransaction.r rpcTransaction);
            RpcTransactionOutput.s := HexString.of_Z (RpcTransaction.s rpcTransaction);
            RpcTransactionOutput.to :=
              (fun a => bufferToRpcData a None) <$> RpcTransaction.to rpcTransaction;
            RpcTransactionOutput.transactionIndex := None;
            RpcTransactionOutput.v := HexString.of_Z (RpcTransaction.v rpcTransaction);
            RpcTransactionOutput.value :=
              HexString.of_Z (RpcTransaction.value rpcTransaction) |}.
Proof.
  intros [Hgas Hgas'] [Hprice Hprice'] [Hnonce Hnonce'] [Hvalue Hvalue'] Hv [Hr Hr']
    [Hs Hs'] Hto.
  assert (Hnumber : forall n, 0 <= n -> BN_of_BNLike (Some (BNLike_number n)) = Ok n).
  { intros n Hn. cbn [BN_of_BNLike]. destruct (Z.ltb_spec n 0); [lia | reflexivity]. }
  assert (Hsignature : forall n, 0 <= n ->
                                 signature_field (Some (BNLike_number n)) = Ok (Some n)).
  { intros n Hn. unfold signature_field. rewrite (Hnumber n Hn). reflexivity. }
  exists {| FakeSenderTransaction.super :=
              {| Transaction.nonce := RpcTransaction.nonce rpcTransaction;
                 Transaction.gasPrice := RpcTransaction.gasPrice rpcTransaction;
                 Transaction.gasLimit := RpcTransaction.gas rpcTransaction;
                 Transaction.to := RpcTransaction.to rpcTransaction;
                 Transaction.value := RpcTransaction.value rpcTransaction;
                 Transaction.data := RpcTransaction.input rpcTransaction;
                 Transaction.v := Some (RpcTransaction.v rpcTransaction);
                 Transaction.r := Some (RpcTransaction.r rpcTransaction);
                 Transaction.s := Some (RpcTransaction.s rpcTransaction) |};
            FakeSenderTransaction._sender := sender |}.
  split.
  - apply FakeSenderTransactionProperties.constructor_spec.
    cbn [default from_option id FakeSenderTransaction.super_data rpcToTxData spread read
         TxData.nonce TxData.gasPrice TxData.gasLimit TxData.to TxData.value TxData.data
         TxData.v TxData.r TxData.s FakeSenderTransaction.super
         FakeSenderTransaction._sender
         Transaction.nonce Transaction.gasPrice Transaction.gasLimit Transaction.to
         Transaction.value Transaction.data Transaction.v Transaction.r Transaction.s].
    rewrite !Hsignature, !Hnumber by assumption.
    repeat (split; [reflexivity |]).
    split; [| split; [reflexivity | split; [reflexivity |]]].
    + unfold FakeSenderTransactionProperties.recipient_built.
      destruct (RpcTransaction.to rpcTransaction) as [[|x a]|] eqn:Hrecipient;
        cbn [default from_option id].
      * specialize (Hto [] eq_refl). discriminate Hto.
      * split; [apply Hto; reflexivity | reflexivity].
      * reflexivity.
    + repeat constructor; cbn [snd]; intros n Hn; injection Hn as <-; assumption.
  - unfold getRpcTransaction. cbn.
    rewrite !numberToRpcQuantity_nonneg by assumption.
    reflexivity.
Qed.

End MoreBuilderProperties.

(** What [fromSenderAndValuesArray] throws on an array of six or nine
    values comes from the library. *)
Lemma fromSenderAndValuesArray_Err (sender : Buffer) (values : list Buffer) (e : Exn) :
  (length values = 6 \/ length values = 9)%nat ->
  FakeSenderTransaction.fromSenderAndValuesArray sender values = Err e ->
  exists msg, e = LibraryError msg.
Proof.
  intros Hlen. unfold FakeSenderTransaction.fromSenderAndValuesArray.
  assert (Hguard : negb (length values =? 6)%nat && negb (length values =? 9)%nat = false)
    by (destruct Hlen as [-> | ->]; reflexivity).
  rewrite Hguard. unfold FakeSenderTransaction.constructor. intros He.
  apply rbind_Err in He. destruct He as [He | [? [_ He]]]; [| discriminate He].
  apply (Transaction_constructor_Err _ _ He).
Qed.

(** [fromSenderAndValuesArray] takes arrays of six or nine values and no
    others, and of these the ones that the library takes: a recipient that
    is empty or has 20 bytes, and numbers up to [MAX_INTEGER]. The
    transaction it makes has the sender it was given, the nonce, gas price,
    gas limit, value and data of the array, a recipient unless the fourth
    value is empty, and as [v], [r], [s] the seventh to ninth value where
    there is one and it is not empty. *)
Theorem fromSenderAndValuesArray_six_or_nine (sender : Buffer) (values : list Buffer) :
  match FakeSenderTransaction.fromSenderAndValuesArray sender values with
  | Ok tx =>
      (length values = 6 \/ length values = 9)%nat /\
      FakeSenderTransactionProperties.library_accepts values /\
      FakeSenderTransaction.call tx FakeSenderTransaction.getSenderAddress
      = Ok (FakeSenderTransaction.RetAddress sender) /\
      Some (Transaction.nonce (FakeSenderTransaction.super tx))
      = BN_of_Buffer <$> values !! 0%nat /\
      Some (Transaction.gasPrice (FakeSenderTransaction.super tx))
      = BN_of_Buffer <$> values !! 1%nat /\
      Some (Transaction.gasLimit (FakeSenderTransaction.super tx))
      = BN_of_Buffer <$> values !! 2%nat /\
      (forall to, values !! 3%nat = Some to ->
         Transaction.to (FakeSenderTransaction.super tx)
         = match to with [] => None | _ => Some to end) /\
      Some (Transaction.value (FakeSenderTransaction.super tx))
      = BN_of_Buffer <$> values !! 4%nat /\
      Some (Transaction.data (FakeSenderTransaction.super tx)) = values !! 5%nat /\
      Transaction.v (FakeSenderTransaction.super tx)
      = FakeSenderTransactionProperties.signature_value (values !! 6%nat) /\
      Transaction.r (FakeSenderTransaction.super tx)
      = FakeSenderTransactionProperties.signature_value (values !! 7%nat) /\
      Transaction.s (FakeSenderTransaction.super tx)
      = FakeSenderTransactionProperties.signature_value (values !! 8%nat)
  | Err e =>
      length values <> 6%nat /\ length values <> 9%nat /\
      e = InternalError "FakeSenderTransaction initialized with invalid values"
      \/
      (length values = 6 \/ length values = 9)%nat /\
      ~ FakeSenderTransactionProperties.library_accepts values /\
      exists msg, e = LibraryError msg
  end.
Proof.
  destruct (Nat.eqb_spec (length values) 6) as [H6|H6];
    [| destruct (Nat.eqb_spec (length values) 9) as [H9|H9]].
  3: { unfold FakeSenderTransaction.fromSenderAndValuesArray.
       apply Nat.eqb_neq in H6, H9. rewrite H6, H9. cbn [negb andb].
       apply Nat.eqb_neq in H6, H9. left. auto. }
  all: assert (Hlen : (length values = 6 \/ length values = 9)%nat) by auto.
  all: destruct values as [|nonce [|gasPrice [|gasLimit [|to' [|value [|data sig]]]]]];
    try discriminate.
  all: assert (Hsig : sig = [] \/ length sig = 3%nat)
    by (first [ left; destruct sig; [reflexivity | discriminate]
              | right; cbn [length] in *; lia ]).
  all: destruct (FakeSenderTransaction.fromSenderAndValuesArray sender _) as [tx|e] eqn:Hcall.
  all: pose proof (FakeSenderTransactionProperties.fromSenderAndValuesArray_values
                     sender nonce gasPrice gasLimit to' value data sig) as Hspec;
    cbv zeta in Hspec.
  all: try (apply (Hspec _ Hsig) in Hcall; destruct Hcall as [Hacc ->];
            split; [exact Hlen |]; split; [exact Hacc |];
            cbn; repeat split; try reflexivity;
            intros to [= <-]; reflexivity).
  all: right; split; [exact Hlen |]; split;
    [| apply (fromSenderAndValuesArray_Err _ _ _ Hlen Hcall)].
  all: intros Hacc;
    assert (Hok : FakeSenderTransaction.fromSenderAndValuesArray sender
                    (nonce :: gasPrice :: gasLimit :: to' :: value :: data :: sig)
                  = Ok {| FakeSenderTransaction.super :=
                            FakeSenderTransactionProperties.transaction_of_values
                              nonce gasPrice gasLimit to' value data sig;
                          FakeSenderTransaction._sender := sender |})
      by (apply (Hspec _ Hsig); auto);
    rewrite Hok in Hcall; discriminate Hcall.
Qed.

(** ** More properties of the receipts *)

Section MoreReceiptProperties.
Context `{EthereumJs}.

Local Abbreviation gas_sum l :=
  (foldr Z.add 0 (map (fun rc => BN_of_Buffer (TxReceipt.gasUsed rc)) l)).

(** The log record that describes the log [log] of the transaction [tx]
    at index [i] of [block]. *)
Definition persisted_log (block : Block.t) (tx : TypedTransaction) (i : nat)
    (log : Log.t) : RpcLog.t :=
  {| RpcLog.address := Log.address log;
     RpcLog.blockHash := Some (Block_hash block);
     RpcLog.blockNumber := Some (BlockHeader.number (Block.header block));
     RpcLog.data := Log.data log;
     RpcLog.transactionIndex := Some (Z.of_nat i);
     RpcLog.transactionHash := Some (tx_hash tx);
     RpcLog.topics := Log.topics log |}.

(** The receipt record that describes the execution of [tx] at index [i]:
    its fields come from the block, the transaction, the execution result
    [res] and the VM receipt [rc]; [cumulativeGasUsed] is the gas of the
    VM receipts up to here and [status] the one of [rc]. *)
Definition persisted_receipt (block : Block.t) (tx : TypedTransaction) (i : nat)
    (sender : Buffer) (res : RunTxResult.t) (rc : TxReceipt.t)
    (cumulativeGasUsed status : BN) : RpcTransactionReceipt.t :=
  {| RpcTransactionReceipt.transactionHash := tx_hash tx;
     RpcTransactionReceipt.transactionIndex := Z.of_nat i;
     RpcTransactionReceipt.blockHash := Block_hash block;
     RpcTransactionReceipt.blockNumber := BlockHeader.number (Block.header block);
     RpcTransactionReceipt.from := sender;
     RpcTransactionReceipt.to := Transaction.to (fields tx);
     RpcTransactionReceipt.cumulativeGasUsed := cumulativeGasUsed;
     RpcTransactionReceipt.gasUsed := RunTxResult.gasUsed res;
     RpcTransactionReceipt.contractAddress := RunTxResult.createdAddress res;
     RpcTransactionReceipt.logs := map (persisted_log block tx i) (TxReceipt.logs rc);
     RpcTransactionReceipt.logsBloom := TxReceipt.bitvector rc;
     RpcTransactionReceipt.status := status |}.

(** The two log builders agree on a log and its record. *)
Lemma getRpcLogOutput_toRpcLogOutput (block : Block.t) (tx : TypedTransaction)
    (i k : nat) (log : Log.t) :
  getRpcLogOutput log tx (Some block) (Some i) (Some k)
  = toRpcLogOutput (persisted_log block tx i log) (Some k).
Proof.
  unfold getRpcLogOutput, toRpcLogOutput, nullable_quantity. cbn.
  rewrite !numberToRpcQuantity_of_nat. cbn.
  destruct (numberToRpcQuantity (BlockHeader.number (Block.header block))); reflexivity.
Qed.

Lemma rmapi_from_map {A A' B} (f : nat -> A -> Result B) (g : nat -> A' -> Result B)
    (h : A -> A') (l : list A) (k : nat) :
  (forall j x, f j x = g j (h x)) ->
  rmapi_from k f l = rmapi_from k g (map h l).
Proof.
  intros Hfg. revert k. induction l as [|x l IH]; intros k; simpl; [reflexivity |].
  rewrite Hfg, IH. reflexivity.
Qed.

(** What one iteration of the loop needs to go through, and what it
    pushes. *)
Lemma getRpcReceipts_body_Ok (block : Block.t) (runBlockResult : RunBlockResult.t)
    (i : nat) (cum cum' : BN) (o : RpcReceiptOutput.t) :
  getRpcReceipts_body block runBlockResult i cum = Ok (o, cum') ->
  exists tx res rc sender status,
    Block.transactions block !! i = Some tx /\
    RunBlockResult.results runBlockResult !! i = Some res /\
    RunBlockResult.receipts runBlockResult !! i = Some rc /\
    tx_getSenderAddress tx = Ok sender /\
    TxReceipt.variant rc = TxReceipt.PostByzantium status /\
    0 <= status /\
    0 <= RunTxResult.gasUsed res /\
    0 <= BlockHeader.number (Block.header block) /\
    cum' = cum + BN_of_Buffer (TxReceipt.gasUsed rc) /\
    0 <= cum' /\
    toRpcReceiptOutput (persisted_receipt block tx i sender res rc cum' status) = Ok o.
Proof.
  unfold getRpcReceipts_body. intros Hbody.
  apply rbind_Ok in Hbody. destruct Hbody as [res [Hres Hbody]].
  apply rbind_Ok in Hbody. destruct Hbody as [rc [Hrc Hbody]].
  apply rbind_Ok in Hbody. destruct Hbody as [logs [Hlogs Hbody]].
  apply rbind_Ok in Hbody. destruct Hbody as [tx [Htx Hbody]].
  apply rbind_Ok in Hbody. destruct Hbody as [qi [Hqi Hbody]].
  apply rbind_Ok in Hbody. destruct Hbody as [qn [Hqn Hbody]].
  apply rbind_Ok in Hbody. destruct Hbody as [sender [Hsender Hbody]].
  apply rbind_Ok in Hbody. destruct Hbody as [qc [Hqc Hbody]].
  apply rbind_Ok in Hbody. destruct Hbody as [qg [Hqg Hbody]].
  apply rbind_Ok in Hbody. destruct Hbody as [qs [Hqs Hbody]].
  injection Hbody as <- <-.
  destruct (RunBlockResult.results runBlockResult !! i) as [res'|] eqn:Hres';
    [| discriminate Hres]. injection Hres as ->.
  destruct (RunBlockResult.receipts runBlockResult !! i) as [rc'|] eqn:Hrc';
    [| discriminate Hrc]. injection Hrc as ->.
  destruct (Block.transactions block !! i) as [tx'|] eqn:Htx';
    [| discriminate Htx]. injection Htx as ->.
  unfold TxReceipt.status in Hqs.
  destruct (TxReceipt.variant rc) as [root|status] eqn:Hvariant; [discriminate Hqs |].
  cbn [numberToRpcQuantity_opt] in Hqs.
  apply numberToRpcQuantity_Ok in Hqi, Hqn, Hqc, Hqg, Hqs.
  destruct Hqi as [_ ->], Hqn as [Hn ->], Hqc as [Hc ->], Hqg as [Hg ->], Hqs as [Hs ->].
  exists tx, res, rc, sender, status.
  repeat (split; [first [reflexivity | assumption] |]).
  unfold toRpcReceiptOutput, persisted_receipt. cbn.
  rewrite !numberToRpcQuantity_nonneg by (assumption || lia). cbn [rbind].
  unfold rmapi in *.
  rewrite <- (rmapi_from_map
                (fun logIndex log =>
                   (let? tx0 := defined (Some tx) "tx.hash" in
                    getRpcLogOutput log tx0 (Some block) (Some i) (Some logIndex))%result)
                (fun index log => toRpcLogOutput log (Some index))
                (persisted_log block tx i)).
  - rewrite Hlogs. reflexivity.
  - intros j x. cbn [defined rbind]. apply getRpcLogOutput_toRpcLogOutput.
Qed.

Lemma gas_sum_take_drop (receipts : list TxReceipt.t) (i k : nat) (rc : TxReceipt.t) :
  receipts !! i = Some rc ->
  BN_of_Buffer (TxReceipt.gasUsed rc) + gas_sum (take k (drop (S i) receipts))
  = gas_sum (take (S k) (drop i receipts)).
Proof.
  intros Hrc. rewrite (drop_S receipts rc i Hrc). reflexivity.
Qed.

Lemma getRpcReceipts_loop_Ok (block : Block.t) (runBlockResult : RunBlockResult.t)
    (n i : nat) (cum : BN) (acc out : list RpcReceiptOutput.t) :
  getRpcReceipts_loop block runBlockResult n i cum acc = Ok out ->
  exists new,
    out = (acc ++ new)%list /\ length new = n /\
    forall k o, new !! k = Some o ->
      exists cum',
        getRpcReceipts_body block runBlockResult (i + k)
          (cum + gas_sum (take k (drop i (RunBlockResult.receipts runBlockResult))))
        = Ok (o, cum').
Proof.
  revert i cum acc out. induction n as [|n IH]; intros i cum acc out Hloop.
  - injection Hloop as <-. exists []. rewrite app_nil_r.
    split; [reflexivity |]. split; [reflexivity |]. intros k o Hk. discriminate Hk.
  - cbn [getRpcReceipts_loop] in Hloop.
    apply rbind_Ok in Hloop. destruct Hloop as [[o cum'] [Hbody Hloop]].
    cbn [fst snd] in Hloop.
    destruct (IH _ _ _ _ Hloop) as [new [-> [Hlen Hnew]]].
    exists (o :: new). rewrite <- app_assoc. split; [reflexivity |].
    split; [simpl; congruence |].
    intros [|k] o' Hk; cbn in Hk.
    + injection Hk as <-. exists cum'. rewrite Nat.add_0_r. cbn.
      rewrite Z.add_0_r. exact Hbody.
    + destruct (Hnew k o' Hk) as [cum'' Hk'].
      exists cum''. rewrite <- Hk'.
      replace (i + S k)%nat with (S i + k)%nat by lia.
      destruct (getRpcReceipts_body_Ok _ _ _ _ _ _ Hbody)
        as [tx [res [rc [sender [status [_ [_ [Hrc [_ [_ [_ [_ [_ [-> _]]]]]]]]]]]]]].
      rewrite <- (gas_sum_take_drop _ i k rc Hrc).
      f_equal. lia.
Qed.

(** When [getRpcReceipts] returns, the block and the execution result fit
    together: there is a transaction and a post-Byzantium receipt for every
    result, every sender can be read, and no number that is encoded is
    negative. And each receipt of the output is what [toRpcReceiptOutput]
    makes of the record of that execution: the two builders agree. *)
Theorem getRpcReceipts_agrees_with_toRpcReceiptOutput (block : Block.t)
    (runBlockResult : RunBlockResult.t) (out : list RpcReceiptOutput.t) :
  getRpcReceipts block runBlockResult = Ok out ->
  length out = length (RunBlockResult.results runBlockResult) /\
  forall i o, out !! i = Some o ->
    exists tx res rc sender status,
      Block.transactions block !! i = Some tx /\
      RunBlockResult.results runBlockResult !! i = Some res /\
      RunBlockResult.receipts runBlockResult !! i = Some rc /\
      tx_getSenderAddress tx = Ok sender /\
      TxReceipt.variant rc = TxReceipt.PostByzantium status /\
      0 <= status /\
      0 <= RunTxResult.gasUsed res /\
      0 <= BlockHeader.number (Block.header block) /\
      toRpcReceiptOutput
        (persisted_receipt block tx i sender res rc
           (gas_sum (take (S i) (RunBlockResult.receipts runBlockResult))) status)
      = Ok o.
Proof.
  unfold getRpcReceipts. intros Hout.
  apply getRpcReceipts_loop_Ok in Hout. destruct Hout as [new [-> [Hlen Hnew]]].
  split; [exact Hlen |].
  intros i o Hi. cbn in Hi. destruct (Hnew i o Hi) as [cum' Hbody].
  cbn in Hbody. rewrite drop_0 in Hbody.
  destruct (getRpcReceipts_body_Ok _ _ _ _ _ _ Hbody)
    as [tx [res [rc [sender [status
         [Htx [Hres [Hrc [Hsender [Hvariant [Hs [Hg [Hn [-> [_ Hagree]]]]]]]]]]]]]]].
  exists tx, res, rc, sender, status.
  repeat (split; [assumption |]).
  rewrite (gas_sum_take_S _ i rc Hrc). exact Hagree.
Qed.

End MoreReceiptProperties.

(** ** Receipt and log records *)

Lemma nullable_quantity_Ok (x : option BN) (q : option string) :
  nullable_quantity x = Ok q <->
  (forall n, x = Some n -> 0 <= n) /\ q = HexString.of_Z <$> x.
Proof.
  destruct x as [n|]; cbn.
  - split.
    + intros Hq. apply rbind_Ok in Hq. destruct Hq as [s [Hs Hq]]. injection Hq as <-.
      apply numberToRpcQuantity_Ok in Hs. destruct Hs as [Hn ->].
      split; [intros n' [= <-]; exact Hn | reflexivity].
    + intros [Hn ->]. rewrite numberToRpcQuantity_nonneg by (apply Hn; reflexivity).
      reflexivity.
  - split; [intros [= <-]; split; [intros n Hn; discriminate Hn | reflexivity] |].
    intros [_ ->]. reflexivity.
Qed.

(** A log record can be rendered when its block number and transaction
    index, if it has them, are not negative. *)
Definition log_encodable (log : RpcLog.t) : Prop :=
  (forall n, RpcLog.blockNumber log = Some n -> 0 <= n) /\
  (forall n, RpcLog.transactionIndex log = Some n -> 0 <= n).

Lemma toRpcLogOutput_Ok (log : RpcLog.t) (index : option nat) (lo : RpcLogOutput.t) :
  toRpcLogOutput log index = Ok lo ->
  log_encodable log /\
  RpcLogOutput.removed lo = false /\
  RpcLogOutput.logIndex lo = (fun i => HexString.of_Z (Z.of_nat i)) <$> index /\
  RpcLogOutput.blockNumber lo = HexString.of_Z <$> RpcLog.blockNumber log /\
  RpcLogOutput.transactionIndex lo = HexString.of_Z <$> RpcLog.transactionIndex log /\
  RpcLogOutput.blockHash lo = (fun b => bufferToRpcData b None) <$> RpcLog.blockHash log /\
  RpcLogOutput.transactionHash lo
  = (fun b => bufferToRpcData b None) <$> RpcLog.transactionHash log.
Proof.
  unfold toRpcLogOutput. intros Hlo.
  apply rbind_Ok in Hlo. destruct Hlo as [qb [Hqb Hlo]].
  apply rbind_Ok in Hlo. destruct Hlo as [qi [Hqi Hlo]].
  apply rbind_Ok in Hlo. destruct Hlo as [qt [Hqt Hlo]].
  injection Hlo as <-. cbn.
  apply nullable_quantity_Ok in Hqb, Hqi, Hqt.
  destruct Hqb as [Hb ->], Hqi as [_ ->], Hqt as [Ht ->].
  split; [split; assumption |].
  repeat split. destruct index; reflexivity.
Qed.

Lemma toRpcLogOutput_encodable (log : RpcLog.t) (index : option nat) :
  log_encodable log -> is_ok (toRpcLogOutput log index) = true.
Proof.
  intros [Hb Ht]. unfold toRpcLogOutput.
  rewrite (proj2 (nullable_quantity_Ok (RpcLog.blockNumber log) _) (conj Hb eq_refl)).
  cbn [rbind].
  assert (Hi : nullable_quantity (Z.of_nat <$> index)
               = Ok (HexString.of_Z <$> (Z.of_nat <$> index))).
  { apply nullable_quantity_Ok. split; [| reflexivity].
    intros n Hn. destruct index; [injection Hn as <-; lia | discriminate Hn]. }
  rewrite Hi. cbn [rbind].
  rewrite (proj2 (nullable_quantity_Ok (RpcLog.transactionIndex log) _) (conj Ht eq_refl)).
  reflexivity.
Qed.

(** [toRpcReceiptOutput] returns exactly for the records whose numbers can
    be encoded: block number, cumulative gas, gas, status and transaction
    index not negative, and the same for the block number and transaction
    index of every log that has them. *)
Theorem toRpcReceiptOutput_defined (receipt : RpcTransactionReceipt.t) :
  is_ok (toRpcReceiptOutput receipt) = true <->
  0 <= RpcTransactionReceipt.blockNumber receipt /\
  0 <= RpcTransactionReceipt.cumulativeGasUsed receipt /\
  0 <= RpcTransactionReceipt.gasUsed receipt /\
  0 <= RpcTransactionReceipt.status receipt /\
  0 <= RpcTransactionReceipt.transactionIndex receipt /\
  forall log, log ∈ RpcTransactionReceipt.logs receipt -> log_encodable log.
Proof.
  unfold toRpcReceiptOutput. split.
  - intros Hok.
    destruct (numberToRpcQuantity (RpcTransactionReceipt.blockNumber receipt))
      as [qn|] eqn:Hn; [| discriminate Hok].
    destruct (numberToRpcQuantity (RpcTransactionReceipt.cumulativeGasUsed receipt))
      as [qc|] eqn:Hc; [| discriminate Hok].
    destruct (numberToRpcQuantity (RpcTransactionReceipt.gasUsed receipt))
      as [qg|] eqn:Hg; [| discriminate Hok].
    cbn [rbind] in Hok.
    destruct (rmapi _ (RpcTransactionReceipt.logs receipt)) as [logs|] eqn:Hlogs;
      [| discriminate Hok].
    destruct (numberToRpcQuantity (RpcTransactionReceipt.status receipt))
      as [qs|] eqn:Hs; [| discriminate Hok].
    destruct (numberToRpcQuantity (RpcTransactionReceipt.transactionIndex receipt))
      as [qi|] eqn:Hi; [| discriminate Hok].
    apply numberToRpcQuantity_Ok in Hn, Hc, Hg, Hs, Hi.
    repeat (split; [tauto |]).
    intros log Hlog. apply list_elem_of_lookup in Hlog. destruct Hlog as [k Hk].
    apply rmapi_from_lookup in Hlogs. destruct Hlogs as [Hlen Hlogs].
    destruct (lookup_lt_is_Some_2 logs k) as [lo Hlo].
    { rewrite Hlen. apply lookup_lt_Some with log. exact Hk. }
    destruct (Hlogs k lo Hlo) as [log' [Hlog' Hbuilt]].
    rewrite Hk in Hlog'. injection Hlog' as <-.
    apply (toRpcLogOutput_Ok _ _ _ Hbuilt).
  - intros [Hn [Hc [Hg [Hs [Hi Hlogs]]]]].
    rewrite !numberToRpcQuantity_nonneg by assumption. cbn [rbind].
    assert (Hok : is_ok (rmapi (fun index log => toRpcLogOutput log (Some index))
                           (RpcTransactionReceipt.logs receipt)) = true).
    { apply rmapi_from_total. intros j log Hj. apply toRpcLogOutput_encodable.
      apply Hlogs. apply list_elem_of_lookup. eauto. }
    destruct (rmapi _ (RpcTransactionReceipt.logs receipt)); [reflexivity | discriminate Hok].
Qed.

(** [toRpcReceiptOutput] renders what the record says and computes
    nothing: cumulative gas, gas and status are the stored ones. It numbers
    the logs by their position in the record, from zero, and marks none as
    removed. *)
Theorem toRpcReceiptOutput_fields (receipt : RpcTransactionReceipt.t)
    (o : RpcReceiptOutput.t) :
  toRpcReceiptOutput receipt = Ok o ->
  RpcReceiptOutput.cumulativeGasUsed o
  = HexString.of_Z (RpcTransactionReceipt.cumulativeGasUsed receipt) /\
  RpcReceiptOutput.gasUsed o = HexString.of_Z (RpcTransactionReceipt.gasUsed receipt) /\
  RpcReceiptOutput.status o = HexString.of_Z (RpcTransactionReceipt.status receipt) /\
  RpcReceiptOutput.contractAddress o
  = (fun a => bufferToRpcData a None) <$> RpcTransactionReceipt.contractAddress receipt /\
  RpcReceiptOutput.to o
  = (fun a => bufferToRpcData a None) <$> RpcTransactionReceipt.to receipt /\
  length (RpcReceiptOutput.logs o) = length (RpcTransactionReceipt.logs receipt) /\
  forall k lo, RpcReceiptOutput.logs o !! k = Some lo ->
    RpcLogOutput.logIndex lo = Some (HexString.of_Z (Z.of_nat k)) /\
    RpcLogOutput.removed lo = false /\
    exists log,
      RpcTransactionReceipt.logs receipt !! k = Some log /\
      RpcLogOutput.transactionIndex lo = HexString.of_Z <$> RpcLog.transactionIndex log /\
      RpcLogOutput.blockNumber lo = HexString.of_Z <$> RpcLog.blockNumber log.
Proof.
  unfold toRpcReceiptOutput. intros Ho.
  apply rbind_Ok in Ho. destruct Ho as [qn [Hn Ho]].
  apply rbind_Ok in Ho. destruct Ho as [qc [Hc Ho]].
  apply rbind_Ok in Ho. destruct Ho as [qg [Hg Ho]].
  apply rbind_Ok in Ho. destruct Ho as [logs [Hlogs Ho]].
  apply rbind_Ok in Ho. destruct Ho as [qs [Hs Ho]].
  apply rbind_Ok in Ho. destruct Ho as [qi [Hi Ho]].
  injection Ho as <-. cbn.
  apply numberToRpcQuantity_Ok in Hc, Hg, Hs.
  destruct Hc as [_ ->], Hg as [_ ->], Hs as [_ ->].
  repeat (split; [reflexivity |]).
  apply rmapi_from_lookup in Hlogs. destruct Hlogs as [Hlen Hlogs].
  split; [exact Hlen |].
  intros k lo Hk. destruct (Hlogs k lo Hk) as [log [Hlog Hbuilt]].
  apply toRpcLogOutput_Ok in Hbuilt.
  destruct Hbuilt as [_ [Hremoved [Hindex [Hnumber [Htx _]]]]].
  split; [exact Hindex |]. split; [exact Hremoved |].
  exists log. auto.
Qed.

(* ===================================================================== *)
(** * More properties of the providers *)
(* ===================================================================== *)

(** ** [bufferToHex] and the registry *)

Lemma lower_hex_digit (n : N) : lower (hex_digit n) = hex_digit n.
Proof.
  destruct n as [|p]; [reflexivity |].
  do 4 (destruct p as [p|p|]; try reflexivity).
Qed.

Lemma toLowerCase_append (s s' : string) :
  toLowerCase (s ++ s') = toLowerCase s ++ toLowerCase s'.
Proof. induction s as [|c s IH]; simpl; [reflexivity | rewrite IH; reflexivity]. Qed.

Lemma toLowerCase_hex_of_bytes (b : Buffer) :
  toLowerCase (hex_of_bytes b) = hex_of_bytes b.
Proof.
  induction b as [|x b IH]; [reflexivity |].
  change (hex_of_bytes (x :: b)) with (hex_of_byte x ++ hex_of_bytes b).
  rewrite toLowerCase_append, IH. unfold hex_of_byte.
  cbn [toLowerCase]. rewrite !lower_hex_digit. reflexivity.
Qed.

(** [bufferToHex] writes lower case, so the [toLowerCase] of
    [_initializePrivateKeys] changes nothing and the lookup of
    [_getPrivateKeyForAddress], which has none, finds the same key. *)
Lemma toLowerCase_bufferToHex (b : Buffer) : toLowerCase (bufferToHex b) = bufferToHex b.
Proof.
  unfold bufferToHex.
  change ("0x" ++ hex_of_bytes b) with (String "0" (String "x" (hex_of_bytes b))).
  cbn [toLowerCase]. rewrite toLowerCase_hex_of_bytes. reflexivity.
Qed.

Section MoreLocalAccountsProperties.
Context `{Collaborators} {PS : Type} `{EIP1193Provider PS}.
Import LocalAccountsProvider.

(** The registry round trip. On a wrapper constructed from [keys], the
    address of every one of the keys is held locally:
    [_getPrivateKeyForAddress] finds a key for it, that key derives the same
    address, and the state is unchanged. For an address that is the address
    of none of the keys it throws [NOT_LOCAL_ACCOUNT] with the address. *)
Theorem getPrivateKeyForAddress_round_trip (keys : list string) (self : t)
    (st : State t PS) (address : Buffer) :
  constructor keys = Ok self ->
  _addressToPrivateKey (this st) = _addressToPrivateKey self ->
  ((exists key pk, key ∈ keys /\ toBuffer key = Ok pk /\
                   privateToAddress pk = Ok address) ->
   exists pk' raw,
     _getPrivateKeyForAddress address st = (Ok pk', st) /\
     privateToAddress pk' = Ok raw /\ bufferToHex raw = bufferToHex address) /\
  ((forall key pk raw, key ∈ keys -> toBuffer key = Ok pk ->
                       privateToAddress pk = Ok raw ->
                       bufferToHex raw <> bufferToHex address) ->
   _getPrivateKeyForAddress address st
   = (Err (HardhatError (NOT_LOCAL_ACCOUNT (bufferToHex address))), st)).
Proof.
  intros Hnew Hthis.
  unfold constructor in Hnew.
  apply rbind_Ok in Hnew. destruct Hnew as [m [Hm Hnew]]. injection Hnew as <-.
  unfold _initializePrivateKeys in Hm.
  apply rbind_Ok in Hm. destruct Hm as [pks [Hpks Hloop]].
  destruct (initializePrivateKeys_loop_spec pks [] m Hloop) as [_ [Hkeys Hget]].
  pose proof (rmap_list_elem_of toBuffer keys pks Hpks) as Hdecoded.
  cbn [_addressToPrivateKey] in Hthis.
  unfold _getPrivateKeyForAddress.
  rewrite (bind_Ok get_this _ st st (this st) eq_refl). rewrite Hthis.
  split.
  - intros [key [pk [Hkey [Hbuf Haddr]]]].
    assert (Hin : bufferToHex address ∈ Map_keys m).
    { apply Hkeys. right. exists pk. split; [apply Hdecoded; eauto |].
      exists address. split; [exact Haddr |]. symmetry. apply toLowerCase_bufferToHex. }
    apply Map_keys_get in Hin. destruct Hin as [pk' Hpk']. rewrite Hpk'.
    destruct (Hget _ _ Hpk') as [Hempty|[_ [raw [Hraw Heq]]]]; [discriminate Hempty |].
    exists pk', raw. split; [reflexivity |]. split; [exact Hraw |].
    rewrite toLowerCase_bufferToHex in Heq. congruence.
  - intros Hnone.
    destruct (Map_get (bufferToHex address) m) as [pk'|] eqn:Hpk'; [| reflexivity].
    exfalso. destruct (Hget _ _ Hpk') as [Hempty|[Hin [raw [Hraw Heq]]]];
      [discriminate Hempty |].
    apply Hdecoded in Hin. destruct Hin as [key [Hkey Hbuf]].
    apply (Hnone key pk' raw Hkey Hbuf Hraw).
    rewrite toLowerCase_bufferToHex in Heq. congruence.
Qed.

(** ** Requests that the local-accounts wrapper does not handle *)

(** A request is passed on to the wrapped provider as it is when its
    method is none of the five that the wrapper handles, and also when it
    is [eth_sign] or [eth_sendTransaction] without parameters, or
    [eth_sign] or [eth_signTypedData] whose validated address is
    [undefined]. *)
Theorem request_passed_on (st : State t PS) (args method params : JsValue)
    (elems : list JsValue) :
  get (heap st) args "method" = Ok method ->
  _getParams args st = (Ok params, st) ->
  array_elements (heap st) params = Some elems ->
  is_string method "eth_accounts" = false ->
  is_string method "eth_requestAccounts" = false ->
  (is_string method "eth_sign" = true ->
   elems = [] \/
   exists data, validateParams_address_data (heap st) elems = Ok (None, data)) ->
  (is_string method "eth_signTypedData" = true ->
   exists data, validateParams_address_any (heap st) elems = Ok (None, data)) ->
  (is_string method "eth_sendTransaction" = true -> elems = []) ->
  request args st = wrapped_request Forwarded args st.
Proof.
  intros Hmethod Hparams Helems Hacc Hreq Hsign Htyped Hsend.
  unfold request.
  rewrite (bind_Ok get_heap _ st st (heap st) eq_refl).
  rewrite (bind_Ok (lift _) _ st st _ (f_equal (fun r => (r, st)) Hmethod)).
  rewrite Hacc, Hreq. cbn [orb].
  rewrite (bind_Ok _ _ st st params Hparams).
  assert (Hs : (if is_string method "eth_sign" then request_eth_sign params else ret None) st
               = (Ok None, st)).
  { destruct (is_string method "eth_sign"); [| reflexivity].
    unfold request_eth_sign.
    rewrite (bind_Ok _ _ st st elems (elements_of_array st params elems Helems)).
    destruct (Hsign eq_refl) as [-> | [data Hvalid]]; [reflexivity |].
    destruct elems as [|x elems]; [reflexivity |]. cbn [length Nat.ltb Nat.leb].
    rewrite (bind_Ok get_heap _ st st (heap st) eq_refl).
    rewrite (bind_Ok (lift _) _ st st _ (f_equal (fun r => (r, st)) Hvalid)).
    reflexivity. }
  rewrite (bind_Ok _ _ st st None Hs).
  assert (Ht : (if is_string method "eth_signTypedData"
                then request_eth_signTypedData params else ret None) st
               = (Ok None, st)).
  { destruct (is_string method "eth_signTypedData"); [| reflexivity].
    unfold request_eth_signTypedData.
    rewrite (bind_Ok _ _ st st elems (elements_of_array st params elems Helems)).
    destruct (Htyped eq_refl) as [data Hvalid].
    rewrite (bind_Ok get_heap _ st st (heap st) eq_refl).
    rewrite (bind_Ok (lift _) _ st st _ (f_equal (fun r => (r, st)) Hvalid)).
    reflexivity. }
  rewrite (bind_Ok _ _ st st None Ht).
  rewrite (bind_Ok _ _ st st elems (elements_of_array st params elems Helems)).
  destruct (is_string method "eth_sendTransaction"); [| reflexivity].
  rewrite (Hsend eq_refl). reflexivity.
Qed.

(** ** [eth_sign] *)

(** An [eth_sign] request with an address is answered locally, and the
    state is unchanged: nothing is sent to the wrapped provider. Missing
    data is reported first; then an address that is not held locally; and
    otherwise the answer is the signature, by the key of the address, of the
    personal-message hash of the data. *)
Theorem eth_sign_answered_locally (st : State t PS) (args params : JsValue)
    (elems : list JsValue) (address : Buffer) (data : option Buffer) :
  get (heap st) args "method" = Ok (JString "eth_sign") ->
  _getParams args st = (Ok params, st) ->
  array_elements (heap st) params = Some elems ->
  elems <> [] ->
  validateParams_address_data (heap st) elems = Ok (Some address, data) ->
  request args st
  = (match data with
     | None => Err (HardhatError ETHSIGN_MISSING_DATA_PARAM)
     | Some message =>
         match Map_get (bufferToHex address) (_addressToPrivateKey (this st)) with
         | None => Err (HardhatError (NOT_LOCAL_ACCOUNT (bufferToHex address)))
         | Some privateKey =>
             (let? signature := ecsign (hashPersonalMessage message) privateKey in
              let? sig := toRpcSig (fst (fst signature)) (snd (fst signature))
                            (snd signature) in
              Ok (JString sig))%result
         end
     end, st).
Proof.
  intros Hmethod Hparams Helems Hne Hvalid.
  unfold request.
  rewrite (bind_Ok get_heap _ st st (heap st) eq_refl).
  rewrite (bind_Ok (lift _) _ st st _ (f_equal (fun r => (r, st)) Hmethod)).
  cbn [is_string String.eqb Ascii.eqb Bool.eqb orb andb].
  rewrite (bind_Ok _ _ st st params Hparams).
  unfold request_eth_sign.
  unfold bind at 1.
  rewrite (bind_Ok _ _ st st elems (elements_of_array st params elems Helems)).
  destruct elems as [|x elems]; [contradiction |]. cbn [length Nat.ltb Nat.leb].
  rewrite (bind_Ok get_heap _ st st (heap st) eq_refl).
  rewrite (bind_Ok (lift _) _ st st _ (f_equal (fun r => (r, st)) Hvalid)).
  cbn [fst snd].
  destruct data as [message|]; [| reflexivity].
  unfold _getPrivateKeyForAddress.
  unfold bind at 1. rewrite (bind_Ok get_this _ st st (this st) eq_refl).
  destruct (Map_get (bufferToHex address) (_addressToPrivateKey (this st)))
    as [privateKey|]; [| reflexivity].
  unfold ret, bind, lift.
  destruct (ecsign (hashPersonalMessage message) privateKey) as [[[v r] s]|e];
    [| reflexivity].
  cbn [fst snd rbind]. destruct (toRpcSig v r s); reflexivity.
Qed.

(** ** [eth_signTypedData] *)

(** An [eth_signTypedData] request with an address is answered locally in
    the same way, by [signTypedData_v4]. *)
Theorem eth_signTypedData_answered_locally (st : State t PS) (args params : JsValue)
    (elems : list JsValue) (address : Buffer) (data : JsValue) :
  get (heap st) args "method" = Ok (JString "eth_signTypedData") ->
  _getParams args st = (Ok params, st) ->
  array_elements (heap st) params = Some elems ->
  validateParams_address_any (heap st) elems = Ok (Some address, data) ->
  request args st
  = (if is_undefined data then Err (HardhatError ETHSIGN_MISSING_DATA_PARAM)
     else match Map_get (bufferToHex address) (_addressToPrivateKey (this st)) with
          | None => Err (HardhatError (NOT_LOCAL_ACCOUNT (bufferToHex address)))
          | Some privateKey => signTypedData_v4 privateKey data
          end, st).
Proof.
  intros Hmethod Hparams Helems Hvalid.
  unfold request.
  rewrite (bind_Ok get_heap _ st st (heap st) eq_refl).
  rewrite (bind_Ok (lift _) _ st st _ (f_equal (fun r => (r, st)) Hmethod)).
  cbn [is_string String.eqb Ascii.eqb Bool.eqb orb andb].
  rewrite (bind_Ok _ _ st st params Hparams).
  rewrite (bind_Ok (ret None) _ st st None eq_refl).
  unfold request_eth_signTypedData.
  unfold bind at 1.
  rewrite (bind_Ok _ _ st st elems (elements_of_array st params elems Helems)).
  rewrite (bind_Ok get_heap _ st st (heap st) eq_refl).
  rewrite (bind_Ok (lift _) _ st st _ (f_equal (fun r => (r, st)) Hvalid)).
  cbn [fst snd].
  destruct (is_undefined data); [reflexivity |].
  unfold _getPrivateKeyForAddress.
  unfold bind at 1. rewrite (bind_Ok get_this _ st st (this st) eq_refl).
  destruct (Map_get (bufferToHex address) (_addressToPrivateKey (this st)))
    as [privateKey|]; [| reflexivity].
  unfold ret, bind, lift.
  destruct (signTypedData_v4 privateKey data); reflexivity.
Qed.

End MoreLocalAccountsProperties.

(** ** Constructing a local-accounts wrapper *)

Section MoreConstructorProperties.
Context `{Collaborators}.
Import LocalAccountsProvider.

Lemma rmap_list_is_ok {A B} (f : A -> Result B) (l : list A) :
  is_ok (rmap_list f l) = true <-> forall x, x ∈ l -> is_ok (f x) = true.
Proof.
  induction l as [|x l IH]; simpl.
  - split; [intros _ x Hx; inversion Hx | reflexivity].
  - split.
    + intros Hok y Hy. destruct (f x) as [b|e] eqn:Hx; [| discriminate Hok].
      simpl in Hok. destruct (rmap_list f l) as [bs|e]; [| discriminate Hok].
      apply elem_of_cons in Hy. destruct Hy as [-> | Hy].
      * rewrite Hx. reflexivity.
      * apply IH; [reflexivity | exact Hy].
    + intros Hall. pose proof (Hall x ltac:(left)) as Hx.
      destruct (f x) as [b|e]; [| discriminate Hx]. simpl.
      assert (Hrest : is_ok (rmap_list f l) = true).
      { apply IH. intros y Hy. apply Hall. right. exact Hy. }
      destruct (rmap_list f l); [reflexivity | discriminate Hrest].
Qed.

Lemma initializePrivateKeys_loop_is_ok (pks : list Buffer) (m : JsMap Buffer) :
  is_ok (_initializePrivateKeys_loop pks m) = true <->
  forall pk, pk ∈ pks -> is_ok (privateToAddress pk) = true.
Proof.
  revert m. induction pks as [|pk pks IH]; intros m; cbn [_initializePrivateKeys_loop].
  - split; [intros _ x Hx; inversion Hx | reflexivity].
  - split.
    + intros Hok y Hy. destruct (privateToAddress pk) as [raw|e] eqn:Hraw;
        [| discriminate Hok].
      cbn [rbind] in Hok. apply elem_of_cons in Hy. destruct Hy as [-> | Hy].
      * rewrite Hraw. reflexivity.
      * apply (proj1 (IH _) Hok y Hy).
    + intros Hall. pose proof (Hall pk ltac:(left)) as Hpk.
      destruct (privateToAddress pk) as [raw|e]; [| discriminate Hpk]. cbn [rbind].
      apply IH. intros y Hy. apply Hall. right. exact Hy.
Qed.

(** The constructor takes all the keys or none: it returns a wrapper
    exactly when every key can be decoded and has an address; one key that
    cannot makes the construction throw. A new wrapper has no chain id
    yet. *)
Theorem constructor_all_or_nothing (keys : list string) :
  match constructor keys with
  | Ok self =>
      _chainId self = None /\
      forall key, key ∈ keys ->
        exists pk raw, toBuffer key = Ok pk /\ privateToAddress pk = Ok raw
  | Err _ =>
      exists key, key ∈ keys /\
        forall pk, toBuffer key = Ok pk -> is_ok (privateToAddress pk) = false
  end.
Proof.
  unfold constructor, _initializePrivateKeys.
  destruct (rmap_list toBuffer keys) as [pks|e] eqn:Hpks; cbn [rbind].
  - pose proof (rmap_list_elem_of toBuffer keys pks Hpks) as Hdecoded.
    destruct (_initializePrivateKeys_loop pks []) as [m|e] eqn:Hloop; cbn [rbind].
    + split; [reflexivity |].
      assert (Hok : is_ok (_initializePrivateKeys_loop pks []) = true)
        by (rewrite Hloop; reflexivity).
      pose proof (proj1 (initializePrivateKeys_loop_is_ok pks []) Hok) as Hderived.
      assert (Hall : is_ok (rmap_list toBuffer keys) = true)
        by (rewrite Hpks; reflexivity).
      intros key Hkey. pose proof (proj1 (rmap_list_is_ok _ _) Hall key Hkey) as Hb.
      destruct (toBuffer key) as [pk|e] eqn:Hbuf; [| discriminate Hb].
      assert (Hpk : pk ∈ pks) by (apply Hdecoded; eauto).
      specialize (Hderived pk Hpk).
      destruct (privateToAddress pk) as [raw|e] eqn:Hraw; [| discriminate Hderived].
      exists pk, raw. split; [reflexivity | exact Hraw].
    + assert (Hnot : ~ (forall pk, pk ∈ pks -> is_ok (privateToAddress pk) = true)).
      { intros Hall.
        pose proof (proj2 (initializePrivateKeys_loop_is_ok pks []) Hall) as Hok.
        rewrite Hloop in Hok. discriminate Hok. }
      assert (Hbad : exists pk, pk ∈ pks /\ is_ok (privateToAddress pk) = false).
      { clear -Hnot. induction pks as [|pk pks IH].
        - exfalso. apply Hnot. intros pk Hpk. inversion Hpk.
        - destruct (is_ok (privateToAddress pk)) eqn:Hpk.
          + destruct IH as [pk' [Hin Hbad]].
            * intros Hall. apply Hnot. intros y Hy.
              apply elem_of_cons in Hy. destruct Hy as [-> | Hy]; auto.
            * exists pk'. split; [right; exact Hin | exact Hbad].
          + exists pk. split; [left | exact Hpk]. }
      destruct Hbad as [pk [Hpk Hbad]].
      apply Hdecoded in Hpk. destruct Hpk as [key [Hkey Hbuf]].
      exists key. split; [exact Hkey |]. intros pk' Hpk'.
      rewrite Hbuf in Hpk'. injection Hpk' as <-. exact Hbad.
  - assert (Hnot : ~ (forall key, key ∈ keys -> is_ok (toBuffer key) = true)).
    { intros Hall. pose proof (proj2 (rmap_list_is_ok toBuffer keys) Hall) as Hok.
      rewrite Hpks in Hok. discriminate Hok. }
    assert (Hbad : exists key, key ∈ keys /\ is_ok (toBuffer key) = false).
    { clear -Hnot. induction keys as [|key keys IH].
      - exfalso. apply Hnot. intros key Hkey. inversion Hkey.
      - destruct (is_ok (toBuffer key)) eqn:Hkey.
        + destruct IH as [key' [Hin Hbad]].
          * intros Hall. apply Hnot. intros y Hy.
            apply elem_of_cons in Hy. destruct Hy as [-> | Hy]; auto.
          * exists key'. split; [right; exact Hin | exact Hbad].
        + exists key. split; [left | exact Hkey]. }
    destruct Hbad as [key [Hkey Hbad]].
    exists key. split; [exact Hkey |]. intros pk Hpk.
    rewrite Hpk in Hbad. discriminate Hbad.
Qed.

End MoreConstructorProperties.

(** ** [eth_sendTransaction]: signing and sending *)

Section MoreSendTransactionProperties.
Context `{Collaborators} {PS : Type} `{EIP1193Provider PS}.
Import LocalAccountsProvider.

Lemma getPrivateKeyForAddress_unknown (st : State t PS) (address : Buffer) :
  Map_get (bufferToHex address) (_addressToPrivateKey (this st)) = None ->
  _getPrivateKeyForAddress address st
  = (Err (HardhatError (NOT_LOCAL_ACCOUNT (bufferToHex address))), st).
Proof.
  intros Hnone. unfold _getPrivateKeyForAddress.
  rewrite (bind_Ok get_this _ st st (this st) eq_refl). rewrite Hnone. reflexivity.
Qed.

Lemma getPrivateKeyForAddress_known (st : State t PS) (address privateKey : Buffer) :
  Map_get (bufferToHex address) (_addressToPrivateKey (this st)) = Some privateKey ->
  _getPrivateKeyForAddress address st = (Ok privateKey, st).
Proof.
  intros Hsome. unfold _getPrivateKeyForAddress.
  rewrite (bind_Ok get_this _ st st (this st) eq_refl). rewrite Hsome. reflexivity.
Qed.

(** An [eth_sendTransaction] from an address that is not held locally is
    never signed or sent. With a [nonce] it fails with [NOT_LOCAL_ACCOUNT]
    and nothing reaches the wrapped provider. Without one, the nonce is
    asked for first: that query is the only call, and the request fails with
    [NOT_LOCAL_ACCOUNT] once the answer is decoded, or with the error of
    the query or of the decoding. *)
Theorem unknown_sender_is_not_signed (st : State t PS) (args params : JsValue)
    (elems : list JsValue) (txRequest : RpcTransactionRequest.t)
    (gas gasPrice : BN) (from : Buffer) :
  get (heap st) args "method" = Ok (JString "eth_sendTransaction") ->
  get (heap st) args "params" = Ok params ->
  array_elements (heap st) params = Some elems ->
  elems <> [] ->
  validateParams_transactionRequest (heap st) elems = Ok txRequest ->
  RpcTransactionRequest.gas txRequest = Some gas ->
  RpcTransactionRequest.from txRequest = Some from ->
  RpcTransactionRequest.gasPrice txRequest = Some gasPrice ->
  Map_get (bufferToHex from) (_addressToPrivateKey (this st)) = None ->
  let unknown := HardhatError (NOT_LOCAL_ACCOUNT (bufferToHex from)) in
  let query :=
    JObject [("method", JString "eth_getTransactionCount");
             ("params", JArray [JString (bufferToHex from); JString "pending"])] in
  let asked := provider_request (wrapped st) (heap st) query in
  match RpcTransactionRequest.nonce txRequest with
  | Some _ => request args st = (Err unknown, st)
  | None =>
      request args st
      = (match snd asked with
         | Ok response =>
             match rpcQuantityToBN response with
             | Ok _ => Err unknown
             | Err e => Err e
             end
         | Err e => Err e
         end,
         mkState (this st) (heap st) (fst asked)
           (calls st ++ [mkCall Built query (heap st) (snd asked)]))
  end.
Proof.
  intros Hmethod Hparams Helems Hne Hvalid Hgas Hfrom Hprice Hnone unknown query asked.
  rewrite (request_reaches_sendTransaction st args params elems Hmethod Hparams Helems Hne).
  rewrite (request_eth_sendTransaction_validated st params elems txRequest Helems Hvalid).
  rewrite Hgas, Hfrom, Hprice.
  destruct (RpcTransactionRequest.nonce txRequest) as [nonce|].
  - unfold sign_and_send.
    rewrite (bind_Err _ _ st st _ (getPrivateKeyForAddress_unknown st from Hnone)).
    reflexivity.
  - set (st1 := mkState (this st) (heap st) (fst asked)
                  (calls st ++ [mkCall Built query (heap st) (snd asked)])).
    assert (Hn : _getNonce from st
                 = (match snd asked with
                    | Ok response => rpcQuantityToBN response
                    | Err e => Err e
                    end, st1)).
    { unfold _getNonce, bind, wrapped_request, lift. fold query. fold asked.
      destruct (snd asked); reflexivity. }
    destruct (snd asked) as [response|e]; [| apply (bind_Err _ _ _ _ _ Hn)].
    destruct (rpcQuantityToBN response) as [nonce|e]; [| apply (bind_Err _ _ _ _ _ Hn)].
    rewrite (bind_Ok _ _ st st1 nonce Hn).
    unfold sign_and_send.
    apply bind_Err. apply getPrivateKeyForAddress_unknown. exact Hnone.
Qed.

(** An [eth_sendTransaction] that has [gas], [gasPrice], [nonce] and a
    sender held locally is signed with the key of the sender, [gas] as gas
    limit and the chain id of the wrapper: the chain's own parameters for a
    chain id that [@ethereumjs/common] knows, and otherwise a custom chain
    on [mainnet] and [istanbul] with that id as chain and network id. What
    is sent to the wrapped provider is [eth_sendRawTransaction] with the
    signed bytes as only parameter, in a new request; the caller's request
    is not sent. *)
Theorem signed_transaction_is_sent_raw (st st' : State t PS) (args params : JsValue)
    (elems : list JsValue) (txRequest : RpcTransactionRequest.t)
    (gas gasPrice nonce chainId : BN) (from privateKey rawTransaction : Buffer) :
  get (heap st) args "method" = Ok (JString "eth_sendTransaction") ->
  get (heap st) args "params" = Ok params ->
  array_elements (heap st) params = Some elems ->
  elems <> [] ->
  validateParams_transactionRequest (heap st) elems = Ok txRequest ->
  RpcTransactionRequest.gas txRequest = Some gas ->
  RpcTransactionRequest.from txRequest = Some from ->
  RpcTransactionRequest.gasPrice txRequest = Some gasPrice ->
  RpcTransactionRequest.nonce txRequest = Some nonce ->
  Map_get (bufferToHex from) (_addressToPrivateKey (this st)) = Some privateKey ->
  _getChainId st = (Ok chainId, st') ->
  sign_and_serialize txRequest (Some gas)
    (match chains_names chainId with
     | Some _ => Common_chain chainId
     | None => Common_forCustomChain "mainnet" chainId chainId "istanbul"
     end) privateKey = Ok rawTransaction ->
  request args st
  = wrapped_request Built
      (JObject [("method", JString "eth_sendRawTransaction");
                ("params", JArray [JString (bufferToHex rawTransaction)])]) st'.
Proof.
  intros Hmethod Hparams Helems Hne Hvalid Hgas Hfrom Hprice Hnonce Hkey Hchain Hsigned.
  rewrite (request_reaches_sendTransaction st args params elems Hmethod Hparams Helems Hne).
  rewrite (request_eth_sendTransaction_validated st params elems txRequest Helems Hvalid).
  rewrite Hgas, Hfrom, Hprice, Hnonce.
  unfold sign_and_send.
  rewrite (bind_Ok _ _ st st privateKey (getPrivateKeyForAddress_known st from _ Hkey)).
  rewrite (bind_Ok _ _ st st' chainId Hchain).
  assert (Hraw : _getSignedTransaction txRequest chainId privateKey st'
                 = (Ok rawTransaction, st')).
  { unfold _getSignedTransaction, lift. rewrite Hgas, Hsigned. reflexivity. }
  rewrite (bind_Ok _ _ st' st' rawTransaction Hraw).
  reflexivity.
Qed.

End MoreSendTransactionProperties.

(** ** Sender-default wrappers *)

Section MoreSenderProperties.
Context {F PS : Type} `{EIP1193Provider PS} `{SenderProvider.Subclass F PS}.
Import SenderProvider.

(** A sender-default wrapper is transparent where it has nothing to add:
    a request of another method, a request without a first parameter, and
    a request whose transaction object has a [from] are passed on as they
    are, the heap is not written to, and no sender is looked for. *)
Theorem request_transparent (st : State F PS) (args method params : JsValue) :
  get (heap st) args "method" = Ok method ->
  _getParams args st = (Ok params, st) ->
  (is_string method "eth_sendTransaction" = false /\
   is_string method "eth_call" = false /\
   is_string method "eth_estimateGas" = false) \/
  first (heap st) params = Ok JUndefined \/
  (exists tx from,
     first (heap st) params = Ok tx /\ get (heap st) tx "from" = Ok from /\
     is_undefined from = false) ->
  request args st = wrapped_request Forwarded args st.
Proof.
  intros Hmethod Hparams Hcases.
  unfold request.
  rewrite (bind_Ok get_heap _ st st (heap st) eq_refl).
  rewrite (bind_Ok (lift _) _ st st _ (f_equal (fun r => (r, st)) Hmethod)).
  rewrite (bind_Ok _ _ st st params Hparams).
  assert (Hskip : (if is_string method "eth_sendTransaction"
                      || is_string method "eth_call"
                      || is_string method "eth_estimateGas"
                   then
                     (h <- get_heap ;;
                      tx <- lift (first h params) ;;
                      if negb (is_undefined tx) then
                        from <- lift (get h tx "from") ;;
                        if is_undefined from then fill_sender method tx else ret tt
                      else ret tt)%wrapper
                   else ret tt) st = (Ok tt, st)).
  { destruct Hcases as [[-> [-> ->]] | [Hfirst | [tx [from [Hfirst [Hfrom Hdefined]]]]]].
    - reflexivity.
    - destruct (_ || _); [| reflexivity].
      rewrite (bind_Ok get_heap _ st st (heap st) eq_refl).
      rewrite (bind_Ok (lift _) _ st st _ (f_equal (fun r => (r, st)) Hfirst)).
      reflexivity.
    - destruct (_ || _); [| reflexivity].
      rewrite (bind_Ok get_heap _ st st (heap st) eq_refl).
      rewrite (bind_Ok (lift _) _ st st _ (f_equal (fun r => (r, st)) Hfirst)).
      destruct (is_undefined tx); [reflexivity |]. cbn [negb].
      rewrite (bind_Ok (lift _) _ st st _ (f_equal (fun r => (r, st)) Hfrom)).
      rewrite Hdefined. reflexivity. }
  rewrite (bind_Ok _ _ st st tt Hskip). reflexivity.
Qed.

End MoreSenderProperties.

(** ** The first account of [AutomaticSenderProvider] *)

Section MoreAutomaticSenderProperties.
Context {PS : Type} `{EIP1193Provider PS}.
Import AutomaticSenderProvider.

(** A wrapper that holds no account yet and serves a request of one of
    the three methods without [from] asks the wrapped provider for
    [eth_accounts] once, takes the first element of the answer, keeps it as
    its first account, writes it to [from] and passes the request on. *)
Theorem first_account_is_injected (st : State t PS) (args params accounts account : JsValue)
    (elems : list JsValue) (method : string) (l : loc) (o : HeapObject) :
  get (heap st) args "method" = Ok (JString method) ->
  method = "eth_sendTransaction" \/ method = "eth_call" \/ method = "eth_estimateGas" ->
  get (heap st) args "params" = Ok params ->
  array_elements (heap st) params = Some elems ->
  elems !! 0%nat = Some (JRef l) ->
  heap st !! l = Some o ->
  get (heap st) (JRef l) "from" = Ok JUndefined ->
  is_undefined (_firstAccount (this st)) = true ->
  let query := JObject [("method", JString "eth_accounts")] in
  let asked := provider_request (wrapped st) (heap st) query in
  snd asked = Ok accounts ->
  first (heap st) accounts = Ok account ->
  is_undefined account = false ->
  request args st
  = wrapped_request Forwarded args
      (mkState (mk account)
         (<[l := mkHeapObject (elements o) (<["from" := account]> (properties o))]>
            (heap st))
         (fst asked)
         (calls st ++ [mkCall Built query (heap st) (Ok accounts)])).
Proof.
  intros Hmethod Hm Hparams Helems Htx Ho Hfrom Hempty query asked Hasked Hfirst Hdefined.
  unfold request.
  rewrite (request_without_from st args params (JRef l) elems method
             Hmethod Hm Hparams Helems Htx eq_refl Hfrom).
  assert (Hsender : SenderProvider._getSender st
                    = (Ok account,
                       mkState (mk account) (heap st) (fst asked)
                         (calls st ++ [mkCall Built query (heap st) (Ok accounts)]))).
  { unfold SenderProvider._getSender, getSender.
    rewrite (bind_Ok get_this _ st st (this st) eq_refl). rewrite Hempty.
    unfold bind, wrapped_request, get_heap, lift, set_this, get_this, ret.
    fold query. fold asked. rewrite Hasked. cbn [fst snd heap].
    rewrite Hfirst. reflexivity. }
  unfold SenderProvider.fill_sender.
  unfold bind at 1. unfold bind at 1. rewrite Hsender. rewrite Hdefined. cbn [negb].
  unfold bind, get_heap, lift, set, set_heap. cbn [heap fst snd]. rewrite Ho.
  reflexivity.
Qed.

End MoreAutomaticSenderProperties.

(** ** [FixedSenderProvider] as a pass-through *)

Lemma get_Err (h : Heap) (v : JsValue) (k : string) (e : Exn) :
  get h v k = Err e -> exists msg, e = TypeError msg.
Proof.
  unfold get. destruct v; try discriminate; try (intros [= <-]; eauto).
  destruct (h !! l); [discriminate | intros [= <-]; eauto].
Qed.

Lemma first_Err (h : Heap) (v : JsValue) (e : Exn) :
  first h v = Err e -> exists msg, e = TypeError msg.
Proof.
  unfold first. destruct (array_elements h v); [discriminate |].
  destruct v; try discriminate; try (intros [= <-]; eauto); try apply get_Err.
  destruct s; discriminate.
Qed.

Lemma set_Err (h : Heap) (v : JsValue) (k : string) (x : JsValue) (e : Exn) :
  set h v k x = Err e -> exists msg, e = TypeError msg.
Proof.
  unfold set. destruct v; try (intros [= <-]; eauto).
  destruct (h !! l); [discriminate | intros [= <-]; eauto].
Qed.

Section MoreFixedSenderProperties.
Context {PS : Type} `{EIP1193Provider PS}.
Import FixedSenderProvider.

(** A fixed-sender wrapper never fails for want of a sender. Whatever the
    request, either the wrapper stops before it calls the wrapped
    provider, with a [TypeError] or [INVALID_REQUEST_PARAMS] and the
    heap untouched, or it calls the wrapped provider once, with the
    caller's request, and what that call returns or throws is the
    outcome. *)
Theorem fixed_sender_passes_on (args : JsValue) (st : State t PS) :
  let out := request args st in
  (snd out = st /\
   ((exists msg, fst out = Err (TypeError msg)) \/
    fst out = Err (HardhatError INVALID_REQUEST_PARAMS))) \/
  (exists response,
     calls (snd out)
     = (calls st ++ [mkCall Forwarded args (heap (snd out)) response])%list /\
     fst out = response).
Proof.
  intros out. subst out. unfold request, SenderProvider.request.
  rewrite (bind_Ok get_heap _ st st (heap st) eq_refl).
  destruct (get (heap st) args "method") as [method|e] eqn:Hmethod.
  2:{ rewrite (bind_Err (lift (Err e)) _ st st e eq_refl).
      left. split; [reflexivity |]. left.
      destruct (get_Err _ _ _ _ Hmethod) as [msg ->]. exists msg. reflexivity. }
  rewrite (bind_Ok (lift (Ok method)) _ st st method eq_refl).
  pose proof (getParams_state (F:=t) args st) as Hst.
  destruct (_getParams args st) as [[params|e] st0] eqn:Hparams;
    cbn [snd] in Hst; subst st0.
  2:{ rewrite (bind_Err _ _ st st e Hparams).
      left. split; [reflexivity |].
      unfold _getParams, bind, get_heap, lift in Hparams.
      destruct (get (heap st) args "params") as [p|e'] eqn:Hp.
      - destruct (is_undefined p); [discriminate Hparams |].
        destruct (array_elements (heap st) p); [discriminate Hparams |].
        right. unfold throw in Hparams. injection Hparams as <-. reflexivity.
      - left. injection Hparams as <-.
        destruct (get_Err _ _ _ _ Hp) as [msg ->]. exists msg. reflexivity. }
  rewrite (bind_Ok _ _ st st params Hparams).
  match goal with
  | |- context [bind ?m _ st] =>
      assert (Hblock : (exists st', m st = (Ok tt, st') /\ calls st' = calls st) \/
                       (exists msg, m st = (Err (TypeError msg), st)))
  end.
  { destruct (is_string method "eth_sendTransaction" || is_string method "eth_call"
              || is_string method "eth_estimateGas"); [| left; eexists; split; reflexivity].
    rewrite (bind_Ok get_heap _ st st (heap st) eq_refl).
    destruct (first (heap st) params) as [tx|e] eqn:Htx.
    2:{ right. destruct (first_Err _ _ _ Htx) as [msg ->]. exists msg. reflexivity. }
    rewrite (bind_Ok (lift (Ok tx)) _ st st tx eq_refl).
    destruct (is_undefined tx); cbn [negb]; [left; eexists; split; reflexivity |].
    destruct (get (heap st) tx "from") as [from|e] eqn:Hfrom.
    2:{ right. destruct (get_Err _ _ _ _ Hfrom) as [msg ->]. exists msg. reflexivity. }
    rewrite (bind_Ok (lift (Ok from)) _ st st from eq_refl).
    destruct (is_undefined from); [| left; eexists; split; reflexivity].
    unfold SenderProvider.fill_sender.
    rewrite (bind_Ok _ _ st st _ (FixedSenderProvider_getSender st)).
    cbn [is_undefined negb].
    rewrite (bind_Ok get_heap _ st st (heap st) eq_refl).
    destruct (set (heap st) tx "from" (JString (_sender (this st)))) as [h'|e] eqn:Hset.
    2:{ right. destruct (set_Err _ _ _ _ _ Hset) as [msg ->]. exists msg. reflexivity. }
    rewrite (bind_Ok (lift (Ok h')) _ st st h' eq_refl).
    left. eexists. split; reflexivity. }
  destruct Hblock as [[st' [Hblock Hcalls]] | [msg Hblock]].
  - rewrite (bind_Ok _ _ st st' tt Hblock). right. eexists.
    split; [| reflexivity]. cbn [wrapped_request snd calls heap]. rewrite Hcalls.
    reflexivity.
  - rewrite (bind_Err _ _ st st _ Hblock). left. split; [reflexivity |]. left. eauto.
Qed.

End MoreFixedSenderProperties.

(* ===================================================================== *)
(** * The further properties at work *)
(* ===================================================================== *)

(** [getRpcBlock_full_transactions] on the pending block of the examples. *)
Lemma getRpcBlock_full_transactions_witness :
  exists out txs txo,
    @getRpcBlock Fixtures.lib Fixtures.block 10 true true = Ok out /\
    RpcBlockOutput.transactions out = inr txs /\
    length txs = 2%nat /\
    txs !! 1%nat = Some txo /\
    RpcTransactionOutput.nonce txo = "0x1" /\
    RpcTransactionOutput.transactionIndex txo = Some "0x1".
Proof.
  eexists.
  destruct (@getRpcBlock_full_transactions Fixtures.lib Fixtures.block 10 true _ eq_refl)
    as [txs [Htxs [Hlen Hall]]].
  destruct (Hall 1%nat (FakeSender (Fixtures.fake 1)) eq_refl)
    as (txo & Htxo & _ & _ & _ & _ & Hnonce & _ & _ & _ & Hindex & _).
  exists txs, txo. split; [reflexivity |].
  repeat (split; [assumption |]). exact Hindex.
Defined.

(** [getRpcBlock_mined_fixed_width] on the block of the examples, whose
    header has a nonce and a mix hash of one byte. *)
Lemma getRpcBlock_mined_fixed_width_witness :
  exists out nonce mixHash,
    @getRpcBlock Fixtures.lib Fixtures.block 10 false false = Ok out /\
    RpcBlockOutput.nonce out = Some nonce /\
    RpcBlockOutput.mixHash out = Some mixHash /\
    String.length nonce = 18%nat /\
    String.length mixHash = 66%nat.
Proof.
  eexists.
  destruct (@getRpcBlock_mined_fixed_width Fixtures.lib Fixtures.block 10 false _ eq_refl)
    as [_ [_ [_ [nonce [mixHash [Hnonce [Hmix [Hn Hm]]]]]]]].
  exists nonce, mixHash. split; [reflexivity |]. auto.
Defined.

(** [rpcToTxData_round_trip] on the transaction of the examples. *)
Lemma rpcToTxData_round_trip_witness :
  exists tx out,
    FakeSenderTransaction.constructor Fixtures.sender
      (Some (rpcToTxData MoreFixtures.rpcTransaction)) = Ok tx /\
    @getRpcTransaction Fixtures.lib (FakeSender tx) None None = Ok out /\
    RpcTransactionOutput.from out = "0x0a0a0a0a0a0a0a0a0a0a0a0a0a0a0a0a0a0a0a0a" /\
    RpcTransactionOutput.to out = Some "0x0b0b0b0b0b0b0b0b0b0b0b0b0b0b0b0b0b0b0b0b" /\
    RpcTransactionOutput.v out = "0x1c" /\
    RpcTransactionOutput.gas out = "0x5208".
Proof.
  destruct (@rpcToTxData_round_trip Fixtures.lib Fixtures.sender
              MoreFixtures.rpcTransaction) as [tx [Htx Hout]];
    try (split; [vm_compute; discriminate | vm_compute; discriminate]);
    try (vm_compute; discriminate).
  - intros a Ha. injection Ha as <-. reflexivity.
  - exists tx. eexists. split; [exact Htx |]. split; [exact Hout |].
    repeat split; reflexivity.
Defined.

(** [getRpcReceipts_agrees_with_toRpcReceiptOutput] on the block of the
    examples. *)
Lemma getRpcReceipts_agrees_with_toRpcReceiptOutput_witness :
  exists out,
    @getRpcReceipts Fixtures.lib Fixtures.block Fixtures.runBlockResult = Ok out /\
    length out = 2%nat.
Proof.
  eexists. split; [reflexivity |].
  apply (@getRpcReceipts_agrees_with_toRpcReceiptOutput Fixtures.lib Fixtures.block
           Fixtures.runBlockResult _ eq_refl).
Defined.

(** [toRpcReceiptOutput_fields] on the receipt record of the examples. *)
Lemma toRpcReceiptOutput_fields_witness :
  exists o,
    toRpcReceiptOutput MoreFixtures.receipt = Ok o /\
    RpcReceiptOutput.cumulativeGasUsed o = "0x5208" /\
    length (RpcReceiptOutput.logs o) = 2%nat.
Proof.
  eexists. split; [reflexivity |].
  destruct (toRpcReceiptOutput_fields MoreFixtures.receipt _ eq_refl)
    as [Hcum [_ [_ [_ [_ [Hlen _]]]]]].
  split; [exact Hcum | exact Hlen].
Defined.

(** [toRpcReceiptOutput_defined] on the receipt record of the examples. *)
Lemma toRpcReceiptOutput_defined_witness :
  is_ok (toRpcReceiptOutput MoreFixtures.receipt) = true.
Proof.
  apply (proj2 (toRpcReceiptOutput_defined MoreFixtures.receipt)).
  cbn. repeat (split; [lia |]).
  intros log Hlog. apply elem_of_cons in Hlog. destruct Hlog as [-> | Hlog].
  - split; intros n [= <-]; lia.
  - apply list_elem_of_singleton in Hlog. subst log. split; intros n Hn; discriminate Hn.
Defined.

(** [getPrivateKeyForAddress_round_trip] on the wrapper of the examples and
    the address of its key. *)
Lemma getPrivateKeyForAddress_round_trip_witness :
  let st := Fixtures.fresh Fixtures.local_accounts (Fixtures.bare_heap "eth_sign") in
  exists pk raw,
    @LocalAccountsProvider._getPrivateKeyForAddress nat
      (Fixtures.bytes_of_string "0xa11ce") st = (Ok pk, st) /\
    @privateToAddress Fixtures.collaborators pk = Ok raw /\
    bufferToHex raw = bufferToHex (Fixtures.bytes_of_string "0xa11ce").
Proof.
  intros st.
  apply (proj1 (@getPrivateKeyForAddress_round_trip Fixtures.collaborators nat
                  [Fixtures.key_of_alice] Fixtures.local_accounts st
                  (Fixtures.bytes_of_string "0xa11ce") eq_refl eq_refl)).
  exists Fixtures.key_of_alice, (Fixtures.bytes_of_string Fixtures.key_of_alice).
  split; [left |]. split; reflexivity.
Defined.

(** [request_passed_on] on an [eth_blockNumber] request without
    parameters. *)
Lemma request_passed_on_witness :
  let st := Fixtures.fresh Fixtures.local_accounts (Fixtures.bare_heap "eth_blockNumber") in
  @LocalAccountsProvider.request Fixtures.collaborators nat (Fixtures.transport [])
    Fixtures.args st
  = wrapped_request (H:=Fixtures.transport []) Forwarded Fixtures.args st.
Proof.
  intros st.
  apply (@request_passed_on Fixtures.collaborators nat (Fixtures.transport []) st
           Fixtures.args (JString "eth_blockNumber") (JArray []) []);
    try (vm_compute; reflexivity); intros Hm; discriminate Hm.
Defined.

(** [eth_sign_answered_locally] on a request signed with the key of the
    examples. *)
Lemma eth_sign_answered_locally_witness :
  let st := Fixtures.fresh Fixtures.local_accounts (MoreFixtures.signing_heap "eth_sign") in
  exists signature,
    @LocalAccountsProvider.request MoreFixtures.signing_collaborators nat
      (Fixtures.transport []) Fixtures.args st
    = (Ok (JString signature), st).
Proof.
  intros st. eexists.
  rewrite (@eth_sign_answered_locally MoreFixtures.signing_collaborators nat
             (Fixtures.transport []) st Fixtures.args (JRef 2)
             [JString "0xa11ce"; JString "0xda7a"]
             (Fixtures.bytes_of_string "0xa11ce")
             (Some (Fixtures.bytes_of_string "0xda7a")));
    try (vm_compute; reflexivity).
  discriminate.
Defined.

(** [eth_signTypedData_answered_locally] on the same request. *)
Lemma eth_signTypedData_answered_locally_witness :
  let st := Fixtures.fresh Fixtures.local_accounts
              (MoreFixtures.signing_heap "eth_signTypedData") in
  @LocalAccountsProvider.request MoreFixtures.signing_collaborators nat
    (Fixtures.transport []) Fixtures.args st
  = (Ok (JString "0x5157"), st).
Proof.
  intros st.
  rewrite (@eth_signTypedData_answered_locally MoreFixtures.signing_collaborators nat
             (Fixtures.transport []) st Fixtures.args (JRef 2)
             [JString "0xa11ce"; JString "0xda7a"]
             (Fixtures.bytes_of_string "0xa11ce") (JString "0xda7a"));
    vm_compute; reflexivity.
Defined.

(** [unknown_sender_is_not_signed] on a wrapper without keys. *)
Lemma unknown_sender_is_not_signed_witness :
  let st := Fixtures.fresh (LocalAccountsProvider.mk [] None)
              (Fixtures.caller_heap "eth_sendTransaction"
                 (Fixtures.tx_to_sign (Some 21000) (Some 1) (Some 0))) in
  @LocalAccountsProvider.request Fixtures.collaborators nat (Fixtures.transport [])
    Fixtures.args st
  = (Err (HardhatError (NOT_LOCAL_ACCOUNT "0x30786131316365")), st).
Proof.
  intros st.
  apply (@unknown_sender_is_not_signed Fixtures.collaborators nat (Fixtures.transport [])
           st Fixtures.args (JRef 2) [JRef 3]
           {| RpcTransactionRequest.from := Some (Fixtures.bytes_of_string "0xa11ce");
              RpcTransactionRequest.to := Some (Fixtures.bytes_of_string "0xb0b");
              RpcTransactionRequest.gas := Some 21000;
              RpcTransactionRequest.gasPrice := Some 1;
              RpcTransactionRequest.value := None;
              RpcTransactionRequest.data := None;
              RpcTransactionRequest.nonce := Some 0 |}
           21000 1 (Fixtures.bytes_of_string "0xa11ce"));
    try (vm_compute; reflexivity).
  discriminate.
Defined.

(** [signed_transaction_is_sent_raw] on the wrapper of the examples. *)
Lemma signed_transaction_is_sent_raw_witness :
  let st := Fixtures.fresh Fixtures.local_accounts
              (Fixtures.caller_heap "eth_sendTransaction"
                 (Fixtures.tx_to_sign (Some 21000) (Some 1) (Some 9))) in
  exists st',
    @LocalAccountsProvider.request Fixtures.collaborators nat (Fixtures.transport [])
      Fixtures.args st
    = wrapped_request (H:=Fixtures.transport []) Built
        (JObject [("method", JString "eth_sendRawTransaction");
                  ("params", JArray [JString "0x0965633131617830"])]) st'.
Proof.
  intros st. eexists.
  eapply (@signed_transaction_is_sent_raw Fixtures.collaborators nat
            (Fixtures.transport []) st _ Fixtures.args (JRef 2) [JRef 3]
            {| RpcTransactionRequest.from := Some (Fixtures.bytes_of_string "0xa11ce");
               RpcTransactionRequest.to := Some (Fixtures.bytes_of_string "0xb0b");
               RpcTransactionRequest.gas := Some 21000;
               RpcTransactionRequest.gasPrice := Some 1;
               RpcTransactionRequest.value := None;
               RpcTransactionRequest.data := None;
               RpcTransactionRequest.nonce := Some 9 |}
            21000 1 9 5 (Fixtures.bytes_of_string "0xa11ce")
            (Fixtures.bytes_of_string Fixtures.key_of_alice)
            (9%N :: Fixtures.bytes_of_string Fixtures.key_of_alice));
    try (vm_compute; reflexivity).
  discriminate.
Defined.

(** [request_transparent] on an [eth_blockNumber] request. *)
Lemma request_transparent_witness :
  let st := Fixtures.fresh (FixedSenderProvider.constructor "0xf00")
              (Fixtures.bare_heap "eth_blockNumber") in
  @FixedSenderProvider.request nat (Fixtures.transport []) Fixtures.args st
  = wrapped_request (H:=Fixtures.transport []) Forwarded Fixtures.args st.
Proof.
  intros st.
  apply (@request_transparent FixedSenderProvider.t nat (Fixtures.transport [])
           FixedSenderProvider.getSender st Fixtures.args (JString "eth_blockNumber")
           (JArray [])).
  - vm_compute. reflexivity.
  - vm_compute. reflexivity.
  - left. repeat split; reflexivity.
Defined.

(** [first_account_is_injected] on a new wrapper whose wrapped provider
    has one account. *)
Lemma first_account_is_injected_witness :
  let st := Fixtures.fresh AutomaticSenderProvider.constructor
              (Fixtures.caller_heap "eth_call" Fixtures.tx_without_from) in
  exists st',
    @AutomaticSenderProvider.request nat (Fixtures.transport ["0xa11ce"]) Fixtures.args st
    = wrapped_request (H:=Fixtures.transport ["0xa11ce"]) Forwarded Fixtures.args st' /\
    this st' = AutomaticSenderProvider.mk (JString "0xa11ce") /\
    get (heap st') (JRef 3) "from" = Ok (JString "0xa11ce").
Proof.
  intros st. eexists. split.
  - apply (@first_account_is_injected nat (Fixtures.transport ["0xa11ce"]) st
             Fixtures.args (JRef 2) (JArray [JString "0xa11ce"]) (JString "0xa11ce")
             [JRef 3] "eth_call" 3%positive
             (mkHeapObject None Fixtures.tx_without_from));
      try (vm_compute; reflexivity).
    right. left. reflexivity.
  - split; [reflexivity | vm_compute; reflexivity].
Defined.
